(** * RAG-Spotlight: manifest, query filters, LLM client and vector index

    A shallow embedding of the parts of the repository that the
    specification talks about:

    - [app/manifest_db.py]   (module [Manifest])
    - [app/query_filters.py] (modules [Regex], [DateTime], [QueryFilters])
    - [app/llm.py]           (module [LLM])
    - the vector index and the answer compression of [app/rag_answerer.py],
      whose sources are not part of the tree and are modelled from the
      specification (modules [VectorStore], [Answerer]).

    Python [str] values are modelled as [string] (one [ascii] per character):
    the model covers ASCII text, which is what the patterns of
    [query_filters.py] are written for. *)

From Stdlib Require Import ZArith QArith Ascii String List Lia.
From Stdlib Require Strings.Byte.
From stdpp Require Import gmap strings list fin_maps sorting pretty.

Local Open Scope string_scope.
Local Open Scope Z_scope.

(** ** Python string primitives *)

Module PyStr.

Definition code (c : ascii) : nat := nat_of_ascii c.

(** [str.isspace] on the ASCII range: TAB..CR, FS..US and the blank. *)
Definition is_space (c : ascii) : bool :=
  let n := code c in
  ((9 <=? n) && (n <=? 13) || (28 <=? n) && (n <=? 32))%nat.

Definition is_digit (c : ascii) : bool :=
  let n := code c in ((48 <=? n) && (n <=? 57))%nat.

Definition is_upper (c : ascii) : bool :=
  let n := code c in ((65 <=? n) && (n <=? 90))%nat.

Definition is_lower (c : ascii) : bool :=
  let n := code c in ((97 <=? n) && (n <=? 122))%nat.

(** [\w] on the ASCII range: letters, digits and the underscore. *)
Definition is_word (c : ascii) : bool :=
  is_upper c || is_lower c || is_digit c || (code c =? 95)%nat.

Definition lower_char (c : ascii) : ascii :=
  if is_upper c then ascii_of_nat (code c + 32) else c.

Definition upper_char (c : ascii) : ascii :=
  if is_lower c then ascii_of_nat (code c - 32) else c.

Fixpoint map_chars (f : ascii -> ascii) (s : string) : string :=
  match s with
  | EmptyString => EmptyString
  | String c s' => String (f c) (map_chars f s')
  end.

(** [s.lower()] and [s.upper()]. *)
Definition lower (s : string) : string := map_chars lower_char s.
Definition upper (s : string) : string := map_chars upper_char s.

(** [s.capitalize()]: first character upper-cased, the rest lower-cased. *)
Definition capitalize (s : string) : string :=
  match s with
  | EmptyString => EmptyString
  | String c s' => String (upper_char c) (lower s')
  end.

(** [s.split(sep)] for a one-character separator: never the empty list. *)
Fixpoint split_on (sep : ascii) (s : string) : list string :=
  match s with
  | EmptyString => [EmptyString]
  | String c s' =>
      if Ascii.eqb c sep then EmptyString :: split_on sep s'
      else match split_on sep s' with
           | [] => [String c EmptyString]
           | w :: ws => String c w :: ws
           end
  end.

(** [s.split()] without argument: maximal runs of non-blank characters. *)
Fixpoint split_ws_aux (cur : string) (s : string) : list string :=
  match s with
  | EmptyString =>
      match cur with EmptyString => [] | _ => [cur] end
  | String c s' =>
      if is_space c then
        match cur with
        | EmptyString => split_ws_aux EmptyString s'
        | _ => cur :: split_ws_aux EmptyString s'
        end
      else split_ws_aux (cur ++ String c EmptyString) s'
  end.

Definition split_ws (s : string) : list string := split_ws_aux EmptyString s.

(** [sep.join(l)]. *)
Fixpoint join (sep : string) (l : list string) : string :=
  match l with
  | [] => EmptyString
  | [w] => w
  | w :: ws => w ++ sep ++ join sep ws
  end.

Fixpoint lstrip_by (p : ascii -> bool) (s : string) : string :=
  match s with
  | EmptyString => EmptyString
  | String c s' => if p c then lstrip_by p s' else s
  end.

Fixpoint rstrip_by (p : ascii -> bool) (s : string) : string :=
  match s with
  | EmptyString => EmptyString
  | String c s' =>
      match rstrip_by p s' with
      | EmptyString => if p c then EmptyString else String c EmptyString
      | r => String c r
      end
  end.

(** [s.strip()]. *)
Definition strip (s : string) : string := rstrip_by is_space (lstrip_by is_space s).

Fixpoint mem_char (c : ascii) (set : string) : bool :=
  match set with
  | EmptyString => false
  | String d set' => Ascii.eqb c d || mem_char c set'
  end.

(** [s.rstrip(chars)]. *)
Definition rstrip_chars (chars : string) (s : string) : string :=
  rstrip_by (fun c => mem_char c chars) s.

(** [s.lstrip(chars)]. *)
Definition lstrip_chars (chars : string) (s : string) : string :=
  lstrip_by (fun c => mem_char c chars) s.

(** [s.startswith(p)]. *)
Definition startswith (s p : string) : bool := String.prefix p s.

(** [s.replace(c, by)] for a one-character pattern. *)
Fixpoint replace_char (c : ascii) (by_ : string) (s : string) : string :=
  match s with
  | EmptyString => EmptyString
  | String d s' =>
      if Ascii.eqb d c then by_ ++ replace_char c by_ s'
      else String d (replace_char c by_ s')
  end.

(** [int(s)] for a string of decimal digits; [None] is [ValueError]. *)
Fixpoint to_int_aux (acc : Z) (s : string) : option Z :=
  match s with
  | EmptyString => Some acc
  | String c s' =>
      if is_digit c then to_int_aux (10 * acc + Z.of_nat (code c - 48)) s'
      else None
  end.

Definition to_int (s : string) : option Z :=
  match s with
  | EmptyString => None
  | _ => to_int_aux 0 s
  end.

(** Truthiness of a [str]. *)
Definition truthy (s : string) : bool :=
  match s with EmptyString => false | _ => true end.

End PyStr.

(** ** Exceptions and results *)

Inductive exn : Type :=
  | OSError
  | SqliteError
  | RuntimeError
  | ValueError
  | OpenAIError.

Inductive result (A : Type) : Type :=
  | Ok (a : A)
  | Raise (e : exn).

Arguments Ok {A} a.
Arguments Raise {A} e.

(** ** [app/manifest_db.py] *)

Module Manifest.

(** What [Path.stat()] gives for a file. *)
Record stat_result : Type := { st_mtime : Z; st_size : Z }.

(** The file system as the manifest observes it.  [fs_stat p = None] is
    [stat] raising [OSError]; [fs_read p = None] is [open]/[read] raising. *)
Record filesystem : Type := {
  fs_exists : string -> bool;
  fs_stat : string -> option stat_result;
  fs_read : string -> option (list Byte.byte)
}.

(** One row of table [files]; the primary key [filepath] is the key of the
    map.  Every column but [filename] is nullable. *)
Record file_row : Type := {
  filename : string;
  file_hash : option string;
  mtime : option Z;
  size : option Z;
  indexed_at : option string;
  chunk_count : option Z
}.

(** The two tables of the database. *)
Record manifest : Type := {
  files : gmap string file_row;
  metadata : gmap string string
}.

(** Condition of the storage when a connection is opened. *)
Inductive storage : Type :=
  | Healthy
  | MkdirFails      (* [db_path.parent.mkdir] raises [OSError] *)
  | DatabaseFails.  (* [sqlite3] raises while connecting or executing *)

(** [_connection]: commit when the body returns, roll back and re-raise
    when it raises. *)
Definition connection {A : Type} (st : storage) (m : manifest)
    (body : manifest -> result (A * manifest)) : result A * manifest :=
  match st with
  | MkdirFails => (Raise OSError, m)
  | DatabaseFails => (Raise SqliteError, m)
  | Healthy =>
      match body m with
      | Ok (a, m') => (Ok a, m')
      | Raise e => (Raise e, m)
      end
  end.

(** [Path(filepath).name] on POSIX: the last component that is neither
    empty nor a single dot. *)
Definition path_name (p : string) : string :=
  List.last
    (List.filter (fun c => negb (String.eqb c "" || String.eqb c "."))
       (PyStr.split_on "/" p))
    "".

Section WithHash.

(** [hashlib.md5(...).hexdigest()] of the bytes of a file. *)
Variable md5_hexdigest : list Byte.byte -> string.

(** [compute_file_hash]: the empty string when the file cannot be read. *)
Definition compute_file_hash (fs : filesystem) (p : string) : string :=
  match fs_read fs p with
  | Some bytes => md5_hexdigest bytes
  | None => ""
  end.

(** [get_file]. *)
Definition get_file (m : manifest) (p : string) : option file_row :=
  files m !! p.

(** [file_exists]. *)
Definition file_exists (m : manifest) (p : string) : bool :=
  bool_decide (is_Some (files m !! p)).

(** [needs_indexing], together with the number of calls it makes to
    [compute_file_hash]. *)
Definition needs_indexing_counted (fs : filesystem) (m : manifest)
    (p : string) : bool * nat :=
  if negb (fs_exists fs p) then (false, 0%nat)
  else
    match get_file m p with
    | None => (true, 0%nat)
    | Some stored =>
        match fs_stat fs p with
        | None => (false, 0%nat)
        | Some st =>
            if negb (bool_decide (Some (st_mtime st) = mtime stored)) then
              let current_hash := compute_file_hash fs p in
              (negb (bool_decide (Some current_hash = file_hash stored)), 1%nat)
            else (false, 0%nat)
        end
    end.

Definition needs_indexing (fs : filesystem) (m : manifest) (p : string) : bool :=
  fst (needs_indexing_counted fs m p).

(** [file_hash or self.compute_file_hash(filepath)]. *)
Definition hash_or_compute (fs : filesystem) (p : string)
    (file_hash : option string) : string :=
  match file_hash with
  | Some h => if PyStr.truthy h then h else compute_file_hash fs p
  | None => compute_file_hash fs p
  end.

(** [mark_indexed]; [now] is [datetime.now().isoformat()]. *)
Definition mark_indexed (st : storage) (fs : filesystem) (m : manifest)
    (p : string) (chunks : Z) (file_hash : option string) (now : string)
    : result unit * manifest :=
  match fs_stat fs p with
  | None => (Ok tt, m)
  | Some s =>
      let row := {| filename := path_name p;
                    file_hash := Some (hash_or_compute fs p file_hash);
                    mtime := Some (st_mtime s);
                    size := Some (st_size s);
                    indexed_at := Some now;
                    chunk_count := Some chunks |} in
      match connection st m
              (fun m0 => Ok (tt, {| files := <[p := row]> (files m0);
                                    metadata := metadata m0 |})) with
      | (Raise OSError, m') => (Ok tt, m')
      | r => r
      end
  end.

(** [mark_deleted]. *)
Definition mark_deleted (st : storage) (m : manifest) (p : string)
    : result unit * manifest :=
  connection st m
    (fun m0 => Ok (tt, {| files := delete p (files m0);
                          metadata := metadata m0 |})).

(** [get_indexed_filepaths] and [find_deleted_files]. *)
Definition get_indexed_filepaths (m : manifest) : gset string := dom (files m).

Definition find_deleted_files (m : manifest) (current : gset string) : gset string :=
  get_indexed_filepaths m ∖ current.

(** [get_metadata]. *)
Definition get_metadata (m : manifest) (key : string) : option string :=
  metadata m !! key.

End WithHash.

(** *** Queries and statistics *)

(** Order of column [indexed_at] under [ORDER BY indexed_at DESC]: NULL
    sorts below every text, texts compare bytewise. *)
Definition indexed_at_geb (a b : option string) : bool :=
  match a, b with
  | _, None => true
  | None, Some _ => false
  | Some x, Some y => String.leb y x
  end.

Definition newer_first (a b : string * file_row) : Prop :=
  Is_true (indexed_at_geb (indexed_at a.2) (indexed_at b.2)).

(** [get_all_files]: every row with its key, most recently indexed first. *)
Definition get_all_files (m : manifest) : list (string * file_row) :=
  merge_sort newer_first (map_to_list (files m)).

(** [get_files_modified_since]; [since] is [since.isoformat()].  A row
    whose [indexed_at] is NULL is not selected. *)
Definition get_files_modified_since (m : manifest) (since : string)
    : list (string * file_row) :=
  merge_sort newer_first
    (List.filter
       (fun fr => match indexed_at fr.2 with
                  | Some t => String.ltb since t
                  | None => false
                  end)
       (map_to_list (files m))).

(** SQL [INSTR(x, y)]: 1-based position of the first occurrence, 0 if none. *)
Definition sql_instr (x y : string) : nat :=
  match String.index 0 y x with
  | Some i => S i
  | None => 0%nat
  end.

(** SQL [SUBSTR(x, y)]: from the [y]-th character to the end. *)
Definition sql_substr (x : string) (y : nat) : string :=
  String.substring (pred y) (String.length x - pred y) x.

(** SQL [LOWER]: ASCII letters only. *)
Definition sql_lower (x : string) : string := PyStr.lower x.

(** [filename LIKE '%.%']. *)
Definition like_has_dot (x : string) : bool :=
  existsb (Ascii.eqb ".") (list_ascii_of_string x).

(** The [ext] column of [get_extension_counts]. *)
Definition ext_column (name : string) : string :=
  sql_lower (sql_substr name (sql_instr name ".")).

Definition count_row (acc : gmap string nat) (r : string * file_row)
    : gmap string nat :=
  if like_has_dot (filename r.2) then
    let ext := ext_column (filename r.2) in
    <[ext := S (default 0%nat (acc !! ext))]> acc
  else acc.

(** [get_extension_counts]: the dict built from the grouped rows. *)
Definition get_extension_counts (m : manifest) : gmap string nat :=
  foldl count_row ∅ (map_to_list (files m)).

(** *** Export and import *)

(** One entry of ["files"] in the interchange structure.  A key that is
    absent reads as [None] through [info.get]; for ["chunk_count"] the
    default is 0, so absence and an explicit null are kept apart. *)
Record file_info : Type := {
  i_hash : option string;
  i_mtime : option Z;
  i_size : option Z;
  i_indexed_at : option string;
  i_chunk_count : option (option Z)
}.

(** The interchange structure; a Python dict keeps its entries in
    insertion order. *)
Record interchange : Type := {
  x_files : list (string * file_info);
  x_last_full_scan : option string
}.

Definition info_of_row (r : file_row) : file_info :=
  {| i_hash := file_hash r;
     i_mtime := mtime r;
     i_size := size r;
     i_indexed_at := indexed_at r;
     i_chunk_count := Some (chunk_count r) |}.

(** [export_to_json]. *)
Definition export_to_json (m : manifest) : interchange :=
  {| x_files := List.map (fun fr => (fr.1, info_of_row fr.2)) (get_all_files m);
     x_last_full_scan := metadata m !! "last_full_scan" |}.

Definition row_of_info (p : string) (info : file_info) : file_row :=
  {| filename := path_name p;
     file_hash := i_hash info;
     mtime := i_mtime info;
     size := i_size info;
     indexed_at := i_indexed_at info;
     chunk_count := match i_chunk_count info with
                    | Some c => c
                    | None => Some 0
                    end |}.

(** One [INSERT OR REPLACE INTO files] of the import loop. *)
Definition import_entry (fm : gmap string file_row) (e : string * file_info)
    : gmap string file_row :=
  <[e.1 := row_of_info e.1 e.2]> fm.

(** [if data.get("last_full_scan")]: present and not empty. *)
Definition import_metadata (md : gmap string string) (scan : option string)
    : gmap string string :=
  match scan with
  | Some v => if PyStr.truthy v then <["last_full_scan" := v]> md else md
  | None => md
  end.

(** [import_from_json]: the count and the manifest afterwards. *)
Definition import_from_json (st : storage) (m : manifest) (data : interchange)
    : result Z * manifest :=
  connection st m
    (fun m0 =>
       Ok (Z.of_nat (length (x_files data)),
           {| files := foldl import_entry (files m0) (x_files data);
              metadata := import_metadata (metadata m0) (x_last_full_scan data) |})).

(** *** Deletion, metadata, statistics and the remaining queries *)

(** One [DELETE FROM files WHERE filepath = ?] of the batch, with the
    number of rows deleted so far. *)
Definition delete_counted (acc : Z * gmap string file_row) (p : string)
    : Z * gmap string file_row :=
  match acc.2 !! p with
  | Some _ => (acc.1 + 1, delete p acc.2)
  | None => acc
  end.

(** [mark_deleted_batch]: [cursor.rowcount] after [executemany] is the
    sum of the rows deleted by the single statements. *)
Definition mark_deleted_batch (st : storage) (m : manifest) (paths : list string)
    : result Z * manifest :=
  connection st m
    (fun m0 =>
       Ok (fst (foldl delete_counted (0, files m0) paths),
           {| files := snd (foldl delete_counted (0, files m0) paths);
              metadata := metadata m0 |})).

(** [set_metadata]. *)
Definition set_metadata (st : storage) (m : manifest) (key value : string)
    : result unit * manifest :=
  connection st m
    (fun m0 => Ok (tt, {| files := files m0;
                          metadata := <[key := value]> (metadata m0) |})).

(** [mark_full_scan_complete]; [now] is [datetime.now().isoformat()]. *)
Definition mark_full_scan_complete (st : storage) (m : manifest) (now : string)
    : result unit * manifest :=
  set_metadata st m "last_full_scan" now.

(** [vacuum]. *)
Definition vacuum (st : storage) (m : manifest) : result unit * manifest :=
  connection st m (fun m0 => Ok (tt, m0)).

(** [COUNT( * )], [COALESCE(SUM(chunk_count), 0)] and
    [COALESCE(SUM(size), 0)] over table [files]: a NULL adds nothing.
    Like the other queries, the statistics are read on a storage that
    works. *)
Definition count_files (m : manifest) : Z := Z.of_nat (base.size (files m)).

Definition sum_column (col : file_row -> option Z) (fm : gmap string file_row) : Z :=
  map_fold (fun _ r acc => acc + default 0 (col r)) 0 fm.

Section WithRounding.

(** [round(total_size / (1024 * 1024), 2)], a float. *)
Variable megabytes : Type.
Variable round_mb : Z -> megabytes.

(** The dict returned by [get_stats]. *)
Record stats : Type := {
  total_files : Z;
  total_chunks : Z;
  total_size_mb : megabytes;
  last_full_scan : option string
}.

(** [get_stats]. *)
Definition get_stats (m : manifest) : stats :=
  {| total_files := count_files m;
     total_chunks := sum_column chunk_count (files m);
     total_size_mb := round_mb (sum_column size (files m));
     last_full_scan := metadata m !! "last_full_scan" |}.

End WithRounding.

Arguments total_files {megabytes} s.
Arguments total_chunks {megabytes} s.
Arguments total_size_mb {megabytes} s.
Arguments last_full_scan {megabytes} s.
Arguments get_stats {megabytes} round_mb m.

(** SQL [text LIKE pattern]: [%] stands for any run of characters, [_]
    for any one character, and ASCII letters match without regard to
    case.  Texts are sequences of bytes here, so [_] stands for one byte:
    one character of an ASCII text. *)
Fixpoint sql_like (pattern text : list ascii) : bool :=
  match pattern with
  | [] => match text with [] => true | _ :: _ => false end
  | c :: pattern' =>
      if Ascii.eqb c "%" then
        (fix any (t : list ascii) : bool :=
           sql_like pattern' t
           || match t with [] => false | _ :: t' => any t' end) text
      else
        match text with
        | [] => false
        | x :: text' =>
            (Ascii.eqb c "_" || Ascii.eqb (PyStr.lower_char c) (PyStr.lower_char x))
            && sql_like pattern' text'
        end
  end.

Definition like (text pattern : string) : bool :=
  sql_like (list_ascii_of_string pattern) (list_ascii_of_string text).

(** The extension with its leading dot. *)
Definition dotted (extension : string) : string :=
  if PyStr.startswith extension "." then extension else "." ++ extension.

(** [get_files_by_extension]; without [ORDER BY] the order of the rows
    is that of the table. *)
Definition get_files_by_extension (m : manifest) (extension : string)
    : list (string * file_row) :=
  List.filter (fun fr => like (filename fr.2) ("%" ++ dotted extension))
    (map_to_list (files m)).

(** [get_files_in_directory]. *)
Definition get_files_in_directory (m : manifest) (directory : string)
    : list (string * file_row) :=
  List.filter (fun fr => like fr.1 (directory ++ "%")) (map_to_list (files m)).

(** *** Migration *)

(** What [open] and [json.load] give for the JSON manifest.  Data that
    is not of the shape the import reads makes the import raise before
    anything is committed, as a file that cannot be read does. *)
Inductive json_manifest : Type :=
  | NoFile                       (* [json_path.exists()] is false *)
  | Unreadable                   (* [open], [json.load] or the reading raises *)
  | Loaded (data : interchange).

(** [migrate_json_to_sqlite]: the answer, the manifest afterwards, and
    whether the JSON file was renamed to its backup.  [rename_ok] tells
    whether [json_path.rename] succeeds.  The constructor of
    [SQLiteManifest] opens a connection of its own to create the schema. *)
Definition migrate_json_to_sqlite (st : storage) (file : json_manifest)
    (rename_ok : bool) (m : manifest) : bool * manifest * bool :=
  match file with
  | NoFile => (false, m, false)
  | Unreadable => (false, m, false)
  | Loaded data =>
      match connection st m (fun m0 => Ok (tt, m0)) with
      | (Raise _, m1) => (false, m1, false)
      | (Ok _, m1) =>
          match import_from_json st m1 data with
          | (Raise _, m2) => (false, m2, false)
          | (Ok _, m2) => if rename_ok then (true, m2, true) else (false, m2, false)
          end
      end
  end.

End Manifest.


(** ** The fragment of Python's [re] used by [query_filters.py] *)

Module Regex.

(** Character classes. *)
Inductive cls : Type :=
  | Space       (* [\s] *)
  | Digit       (* [\d] *)
  | Word        (* [\w] *)
  | NotNewline. (* [.] *)

Definition in_cls (k : cls) (c : ascii) : bool :=
  match k with
  | Space => PyStr.is_space c
  | Digit => PyStr.is_digit c
  | Word => PyStr.is_word c
  | NotNewline => negb (Ascii.eqb c "010")
  end.

Inductive regex : Type :=
  | Fail                          (* a pattern that does not compile *)
  | Eps
  | Chr (c : ascii)               (* a literal character *)
  | Cls (k : cls)                 (* a character class *)
  | Bnd                           (* [\b] *)
  | Bol                           (* [^] *)
  | Eol                           (* [$] *)
  | Seq (a b : regex)
  | Alt (a b : regex)
  | Opt (a : regex)               (* greedy [a?] *)
  | Star (a : regex)              (* greedy [a*] *)
  | Grp (n : nat) (a : regex).    (* capturing group number [n] *)

(** *** Reading a pattern *)

Definition seq (a b : regex) : regex :=
  match b with Eps => a | _ => Seq a b end.

Fixpoint repeat_re (n : nat) (a : regex) : regex :=
  match n with
  | O => Eps
  | S n' => seq a (repeat_re n' a)
  end.

Definition escape (c : ascii) : regex :=
  if Ascii.eqb c "b" then Bnd
  else if Ascii.eqb c "s" then Cls Space
  else if Ascii.eqb c "d" then Cls Digit
  else if Ascii.eqb c "w" then Cls Word
  else if PyStr.is_word c then Fail
  else Chr c.

Fixpoint read_nat (acc : nat) (s : list ascii) : nat * list ascii :=
  match s with
  | c :: s' =>
      if PyStr.is_digit c then read_nat (10 * acc + (PyStr.code c - 48)) s'
      else (acc, s)
  | [] => (acc, s)
  end.

(** A quantifier after an atom: [?], [*], [+], [{n}]. *)
Definition quantified (a : regex) (s : list ascii) : option (regex * list ascii) :=
  match s with
  | "?"%char :: s' => Some (Opt a, s')
  | "*"%char :: s' => Some (Star a, s')
  | "+"%char :: s' => Some (Seq a (Star a), s')
  | "{"%char :: s' =>
      match read_nat 0 s' with
      | (n, "}"%char :: s'') => Some (repeat_re n a, s'')
      | _ => None
      end
  | _ => Some (a, s)
  end.

(** Recursive descent; [g] is the number of capturing groups opened so far. *)
Fixpoint parse_alt (fuel : nat) (s : list ascii) (g : nat)
    : option (regex * list ascii * nat) :=
  match fuel with
  | O => None
  | S f =>
      match parse_seq f s g with
      | Some (a, "|"%char :: s1, g1) =>
          match parse_alt f s1 g1 with
          | Some (b, s2, g2) => Some (Alt a b, s2, g2)
          | None => None
          end
      | r => r
      end
  end
with parse_seq (fuel : nat) (s : list ascii) (g : nat)
    : option (regex * list ascii * nat) :=
  match fuel with
  | O => None
  | S f =>
      match s with
      | [] => Some (Eps, s, g)
      | ")"%char :: _ => Some (Eps, s, g)
      | "|"%char :: _ => Some (Eps, s, g)
      | _ =>
          match parse_atom f s g with
          | Some (a, s1, g1) =>
              match quantified a s1 with
              | Some (a', s2) =>
                  match parse_seq f s2 g1 with
                  | Some (b, s3, g2) => Some (seq a' b, s3, g2)
                  | None => None
                  end
              | None => None
              end
          | None => None
          end
      end
  end
with parse_atom (fuel : nat) (s : list ascii) (g : nat)
    : option (regex * list ascii * nat) :=
  match fuel with
  | O => None
  | S f =>
      match s with
      | "("%char :: "?"%char :: ":"%char :: s1 =>
          match parse_alt f s1 g with
          | Some (a, ")"%char :: s2, g1) => Some (a, s2, g1)
          | _ => None
          end
      | "("%char :: s1 =>
          match parse_alt f s1 (S g) with
          | Some (a, ")"%char :: s2, g1) => Some (Grp (S g) a, s2, g1)
          | _ => None
          end
      | "\"%char :: c :: s1 => Some (escape c, s1, g)
      | "^"%char :: s1 => Some (Bol, s1, g)
      | "$"%char :: s1 => Some (Eol, s1, g)
      | "."%char :: s1 => Some (Cls NotNewline, s1, g)
      | c :: s1 => Some (Chr c, s1, g)
      | [] => None
      end
  end.

Definition parse (pattern : string) : option regex :=
  let s := list_ascii_of_string pattern in
  match parse_alt (4 * length s + 8) s 0 with
  | Some (r, [], _) => Some r
  | _ => None
  end.

(** [re.compile]. *)
Definition compile (pattern : string) : regex :=
  match parse pattern with
  | Some r => r
  | None => Fail
  end.

(** *** Matching *)

(** A position in the subject: the characters before it (nearest first),
    the characters after it, and the spans of the groups closed so far. *)
Record mstate : Type := {
  before : list ascii;
  after : list ascii;
  caps : list (nat * (nat * nat))
}.

Definition pos (s : mstate) : nat := length (before s).

Definition step (s : mstate) : option (ascii * mstate) :=
  match after s with
  | c :: cs => Some (c, {| before := c :: before s; after := cs; caps := caps s |})
  | [] => None
  end.

Definition word_at (l : list ascii) : bool :=
  match l with
  | c :: _ => PyStr.is_word c
  | [] => false
  end.

Definition at_boundary (s : mstate) : bool :=
  xorb (word_at (before s)) (word_at (after s)).

(** [$] without MULTILINE: at the end, or before a final newline. *)
Definition at_end (s : mstate) : bool :=
  match after s with
  | [] => true
  | [c] => Ascii.eqb c "010"
  | _ => false
  end.

Definition chr_eq (icase : bool) (c x : ascii) : bool :=
  if icase then Ascii.eqb (PyStr.lower_char c) (PyStr.lower_char x)
  else Ascii.eqb c x.

(** Backtracking matcher in continuation-passing style: alternatives are
    tried from left to right, quantifiers are greedy. *)
Fixpoint run {A : Type} (icase : bool) (r : regex) (s : mstate)
    (k : mstate -> option A) : option A :=
  match r with
  | Fail => None
  | Eps => k s
  | Chr c =>
      match step s with
      | Some (x, s') => if chr_eq icase c x then k s' else None
      | None => None
      end
  | Cls c =>
      match step s with
      | Some (x, s') => if in_cls c x then k s' else None
      | None => None
      end
  | Bnd => if at_boundary s then k s else None
  | Bol => match before s with [] => k s | _ => None end
  | Eol => if at_end s then k s else None
  | Seq a b => run icase a s (fun s' => run icase b s' k)
  | Alt a b =>
      match run icase a s k with
      | Some x => Some x
      | None => run icase b s k
      end
  | Opt a =>
      match run icase a s k with
      | Some x => Some x
      | None => k s
      end
  | Star a =>
      (fix loop (n : nat) (s0 : mstate) : option A :=
         match n with
         | O => k s0
         | S n' =>
             match run icase a s0
                     (fun s' => if (pos s0 <? pos s')%nat then loop n' s' else None) with
             | Some x => Some x
             | None => k s0
             end
         end) (S (length (after s))) s
  | Grp n a =>
      run icase a s
        (fun s' => k {| before := before s'; after := after s';
                        caps := (n, (pos s, pos s')) :: caps s' |})
  end.

(** A match object: its span and the spans of its groups. *)
Record rmatch : Type := {
  m_start : nat;
  m_end : nat;
  m_groups : list (nat * (nat * nat))
}.

Definition match_at (icase : bool) (r : regex) (bef aft : list ascii)
    : option rmatch :=
  run icase r {| before := bef; after := aft; caps := [] |}
    (fun s' => Some {| m_start := length bef; m_end := pos s';
                       m_groups := caps s' |}).

(** Leftmost match, scanning the start positions from left to right. *)
Fixpoint search_from (icase : bool) (r : regex) (bef aft : list ascii)
    : option rmatch :=
  match match_at icase r bef aft with
  | Some m => Some m
  | None =>
      match aft with
      | [] => None
      | c :: aft' => search_from icase r (c :: bef) aft'
      end
  end.

(** [re.search(pattern, text)]. *)
Definition search (pattern : string) (text : string) : option rmatch :=
  search_from false (compile pattern) [] (list_ascii_of_string text).

(** [m.group(n)]: [None] when the group took no part in the match. *)
Definition group (text : string) (m : rmatch) (n : nat) : option string :=
  match List.find (fun c => Nat.eqb (fst c) n) (m_groups m) with
  | Some (_, (i, j)) => Some (String.substring i (j - i) text)
  | None => None
  end.

(** Replacing every non-overlapping match by [repl], from left to right.
    [skip] counts the characters of the current match still to be dropped;
    an empty match is replaced too and the scan moves on by one character. *)
Fixpoint substitute (icase : bool) (r : regex) (repl : list ascii)
    (bef aft : list ascii) (skip : nat) : list ascii :=
  match skip with
  | S skip' =>
      match aft with
      | [] => []
      | c :: aft' => substitute icase r repl (c :: bef) aft' skip'
      end
  | O =>
      match match_at icase r bef aft with
      | Some m =>
          match (m_end m - m_start m)%nat, aft with
          | S len', c :: aft' =>
              repl ++ substitute icase r repl (c :: bef) aft' len'
          | _, c :: aft' =>
              repl ++ c :: substitute icase r repl (c :: bef) aft' 0
          | _, [] => repl
          end
      | None =>
          match aft with
          | [] => []
          | c :: aft' => c :: substitute icase r repl (c :: bef) aft' 0
          end
      end
  end.

(** [re.sub(pattern, repl, text)]; [icase] is flag [re.IGNORECASE]. *)
Definition sub (icase : bool) (pattern repl text : string) : string :=
  string_of_list_ascii
    (substitute icase (compile pattern) (list_ascii_of_string repl)
       [] (list_ascii_of_string text) 0).

End Regex.

(** ** The fragment of [datetime] used by [query_filters.py] *)

Module DateTime.

(** A [datetime]; [utcoffset] is [None] for a naive value and the offset
    from UTC in seconds for an aware one. *)
Record datetime : Type := {
  year : Z;
  month : Z;
  day : Z;
  hour : Z;
  minute : Z;
  second : Z;
  microsecond : Z;
  utcoffset : option Z
}.

Definition MINYEAR : Z := 1.
Definition MAXYEAR : Z := 9999.

Definition is_leap (y : Z) : bool :=
  (y mod 4 =? 0) && (negb (y mod 100 =? 0) || (y mod 400 =? 0)).

Definition days_in_month (y m : Z) : Z :=
  if m =? 2 then (if is_leap y then 29 else 28)
  else if (m =? 4) || (m =? 6) || (m =? 9) || (m =? 11) then 30
  else 31.

(** Days of the year before the first of month [m], without the leap day. *)
Definition DAYS_BEFORE_MONTH (m : Z) : Z :=
  match m with
  | 1 => 0 | 2 => 31 | 3 => 59 | 4 => 90 | 5 => 120 | 6 => 151
  | 7 => 181 | 8 => 212 | 9 => 243 | 10 => 273 | 11 => 304 | 12 => 334
  | _ => 0
  end.

Definition days_before_month (y m : Z) : Z :=
  DAYS_BEFORE_MONTH m + (if (2 <? m) && is_leap y then 1 else 0).

Definition days_before_year (y : Z) : Z :=
  let p := y - 1 in p * 365 + p / 4 - p / 100 + p / 400.

(** Proleptic Gregorian ordinal: 0001-01-01 is day 1. *)
Definition ymd2ord (y m d : Z) : Z :=
  days_before_year y + days_before_month y m + d.

Definition toordinal (dt : datetime) : Z := ymd2ord (year dt) (month dt) (day dt).

Definition MAXORDINAL : Z := 3652059.

(** The inverse of [ymd2ord]. *)
Definition ord2ymd (n0 : Z) : Z * Z * Z :=
  let n := n0 - 1 in
  let n400 := n / 146097 in
  let n := n mod 146097 in
  let n100 := n / 36524 in
  let n := n mod 36524 in
  let n4 := n / 1461 in
  let n := n mod 1461 in
  let n1 := n / 365 in
  let n := n mod 365 in
  let y := n400 * 400 + 1 + n100 * 100 + n4 * 4 + n1 in
  if (n1 =? 4) || (n100 =? 4) then (y - 1, 12, 31)
  else
    let leapyear := (n1 =? 3) && (negb (n4 =? 24) || (n100 =? 3)) in
    let m := Z.shiftr (n + 50) 5 in
    let preceding :=
      DAYS_BEFORE_MONTH m + (if (2 <? m) && leapyear then 1 else 0) in
    if n <? preceding then
      let m' := m - 1 in
      let dim := if (m' =? 2) && leapyear then 29
                 else if m' =? 2 then 28
                 else if (m' =? 4) || (m' =? 6) || (m' =? 9) || (m' =? 11) then 30
                 else 31 in
      (y, m', n - (preceding - dim) + 1)
    else (y, m, n - preceding + 1).

Definition valid_date (y m d : Z) : bool :=
  (MINYEAR <=? y) && (y <=? MAXYEAR) && (1 <=? m) && (m <=? 12)
  && (1 <=? d) && (d <=? days_in_month y m).

(** [datetime(year, month, day)]: midnight, naive; [ValueError] when the
    date does not exist. *)
Definition make (y m d : Z) : result datetime :=
  if valid_date y m d then
    Ok {| year := y; month := m; day := d; hour := 0; minute := 0;
          second := 0; microsecond := 0; utcoffset := None |}
  else Raise ValueError.

(** [dt.replace(hour=0, minute=0, second=0)]: the microseconds stay. *)
Definition start_of_day (dt : datetime) : datetime :=
  {| year := year dt; month := month dt; day := day dt;
     hour := 0; minute := 0; second := 0;
     microsecond := microsecond dt; utcoffset := utcoffset dt |}.

(** [dt.replace(day=1, hour=0, minute=0, second=0)]. *)
Definition start_of_month (dt : datetime) : datetime :=
  {| year := year dt; month := month dt; day := 1;
     hour := 0; minute := 0; second := 0;
     microsecond := microsecond dt; utcoffset := utcoffset dt |}.

(** [dt.replace(month=1, day=1, hour=0, minute=0, second=0)]. *)
Definition start_of_year (dt : datetime) : datetime :=
  {| year := year dt; month := 1; day := 1;
     hour := 0; minute := 0; second := 0;
     microsecond := microsecond dt; utcoffset := utcoffset dt |}.

(** [dt.weekday()]: Monday is 0. *)
Definition weekday (dt : datetime) : Z := (toordinal dt + 6) mod 7.

(** [dt - timedelta(days=n)]; [None] is [OverflowError], raised when the
    timedelta or the resulting date is out of range. *)
Definition minus_days (dt : datetime) (n : Z) : option datetime :=
  if (Z.abs n <=? 999999999) then
    let o := toordinal dt - n in
    if (1 <=? o) && (o <=? MAXORDINAL) then
      let '(y, m, d) := ord2ymd o in
      Some {| year := y; month := m; day := d;
              hour := hour dt; minute := minute dt; second := second dt;
              microsecond := microsecond dt; utcoffset := utcoffset dt |}
    else None
  else None.

(** [dt - timedelta(weeks=n)]. *)
Definition minus_weeks (dt : datetime) (n : Z) : option datetime :=
  minus_days dt (7 * n).

Fixpoint lex_ltb (a b : list Z) : bool :=
  match a, b with
  | x :: a', y :: b' => (x <? y) || ((x =? y) && lex_ltb a' b')
  | [], _ :: _ => true
  | _, [] => false
  end.

Definition fields (dt : datetime) : list Z :=
  [year dt; month dt; day dt; hour dt; minute dt; second dt; microsecond dt].

(** Seconds since the start of day 0, in UTC, of an aware value. *)
Definition utc_seconds (dt : datetime) (off : Z) : Z :=
  ((toordinal dt * 24 + hour dt) * 60 + minute dt) * 60 + second dt - off.

(** [a < b]; [None] is the [TypeError] of comparing a naive value with an
    aware one. *)
Definition lt (a b : datetime) : option bool :=
  match utcoffset a, utcoffset b with
  | None, None => Some (lex_ltb (fields a) (fields b))
  | Some oa, Some ob =>
      Some (lex_ltb [utc_seconds a oa; microsecond a]
                    [utc_seconds b ob; microsecond b])
  | _, _ => None
  end.

(** [a >= b]. *)
Definition ge (a b : datetime) : option bool :=
  match lt a b with
  | Some c => Some (negb c)
  | None => None
  end.

End DateTime.

(** ** [app/query_filters.py] *)

Module QueryFilters.

Import DateTime.

(** Dataclass [QueryFilters]. *)
Record QueryFilters : Type := {
  query : string;
  file_types : list string;
  date_from : option datetime;
  date_to : option datetime;
  directory : option string;
  original_query : string
}.

Definition truthy_opt (o : option string) : bool :=
  match o with
  | Some s => PyStr.truthy s
  | None => false
  end.

Definition truthy_list {A : Type} (l : list A) : bool :=
  match l with [] => false | _ => true end.

(** [has_filters]; a [datetime] is always truthy. *)
Definition has_filters (f : QueryFilters) : bool :=
  truthy_list (file_types f)
  || bool_decide (is_Some (date_from f))
  || bool_decide (is_Some (date_to f))
  || truthy_opt (directory f).

(** Table [FILE_TYPE_PATTERNS], in the order of the dict. *)
Definition FILE_TYPE_PATTERNS : list (string * list string) :=
  [ ("\bpdf(?:s)?\b", [".pdf"]);
    ("\bdocument(?:s)?\b", [".pdf"; ".docx"; ".doc"]);
    ("\bword\b", [".docx"; ".doc"]);
    ("\bdocx?\b", [".docx"; ".doc"]);
    ("\bexcel\b", [".xlsx"; ".xls"; ".csv"]);
    ("\bspreadsheet(?:s)?\b", [".xlsx"; ".xls"; ".csv"]);
    ("\bcsv\b", [".csv"]);
    ("\bxlsx?\b", [".xlsx"; ".xls"]);
    ("\btext file(?:s)?\b", [".txt"; ".md"]);
    ("\btxt\b", [".txt"]);
    ("\bmarkdown\b", [".md"]);
    ("\bimage(?:s)?\b", [".jpg"; ".jpeg"; ".png"; ".gif"; ".webp"]);
    ("\bphoto(?:s)?\b", [".jpg"; ".jpeg"; ".png"]);
    ("\bjpe?g\b", [".jpg"; ".jpeg"]);
    ("\bpng\b", [".png"]) ].

(** A value of table [RELATIVE_DATE_PATTERNS]: a lambda without
    parameter, or one that takes the match object and reads its group 1.
    The argument [datetime] is the value of [datetime.now()]; the result
    is [None] when the lambda raises. *)
Inductive date_func : Type :=
  | Nullary (f : datetime -> option (datetime * option datetime))
  | OfMatch (f : datetime -> option string -> option (datetime * option datetime)).

Definition open_ended (d : option datetime) : option (datetime * option datetime) :=
  match d with
  | Some x => Some (x, None)
  | None => None
  end.

(** [int(m.group(1))] followed by the subtraction of that many units. *)
Definition last_n (unit_days : Z) (now : datetime) (g1 : option string)
    : option (datetime * option datetime) :=
  match g1 with
  | Some digits =>
      match PyStr.to_int digits with
      | Some n => open_ended (minus_days now (n * unit_days))
      | None => None
      end
  | None => None
  end.

(** Table [RELATIVE_DATE_PATTERNS], in the order of the dict. *)
Definition RELATIVE_DATE_PATTERNS : list (string * date_func) :=
  [ ("\btoday\b", Nullary (fun now => Some (start_of_day now, None)));
    ("\byesterday\b",
       Nullary (fun now =>
         match minus_days now 1 with
         | Some y => Some (start_of_day y, Some (start_of_day now))
         | None => None
         end));
    ("\blast\s+week\b", Nullary (fun now => open_ended (minus_weeks now 1)));
    ("\bthis\s+week\b",
       Nullary (fun now => open_ended (minus_days now (weekday now))));
    ("\blast\s+month\b", Nullary (fun now => open_ended (minus_days now 30)));
    ("\bthis\s+month\b", Nullary (fun now => Some (start_of_month now, None)));
    ("\blast\s+year\b", Nullary (fun now => open_ended (minus_days now 365)));
    ("\bthis\s+year\b", Nullary (fun now => Some (start_of_year now, None)));
    ("\blast\s+(\d+)\s+days?\b", OfMatch (last_n 1));
    ("\blast\s+(\d+)\s+weeks?\b", OfMatch (last_n 7));
    ("\blast\s+(\d+)\s+months?\b", OfMatch (last_n 30)) ].

(** Dict [MONTHS]. *)
Definition MONTHS : list (string * Z) :=
  [ ("january", 1); ("jan", 1); ("february", 2); ("feb", 2);
    ("march", 3); ("mar", 3); ("april", 4); ("apr", 4); ("may", 5);
    ("june", 6); ("jun", 6); ("july", 7); ("jul", 7);
    ("august", 8); ("aug", 8); ("september", 9); ("sep", 9); ("sept", 9);
    ("october", 10); ("oct", 10); ("november", 11); ("nov", 11);
    ("december", 12); ("dec", 12) ].

(** [MONTHS.get(name, 1)]. *)
Definition month_number (name : string) : Z :=
  match List.find (fun kv => String.eqb (fst kv) name) MONTHS with
  | Some (_, n) => n
  | None => 1
  end.

Definition month_pattern : string :=
  "\b(in|from|during)\s+(january|february|march|april|may|june|july|august|september|october|november|december)(?:\s+(\d{4}))?\b".

Definition year_pattern : string := "\b(?:from|in)\s+(\d{4})\b".

Definition dir_pattern : string :=
  "\b(?:in|from)\s+(?:my\s+)?(documents?|desktop|downloads?|pictures?)\b".

Definition dangling_pattern : string :=
  "^\s*(from|in|modified|created|during|since)\s*$".

(** The loop over [FILE_TYPE_PATTERNS]: every pattern found in the
    lower-cased query adds its extensions and is cut out of the query. *)
Definition extract_file_types (query_lower : string)
    (acc : list string * string) (entry : string * list string)
    : list string * string :=
  match Regex.search (fst entry) query_lower with
  | Some _ => ((fst acc ++ snd entry)%list, Regex.sub true (fst entry) "" (snd acc))
  | None => acc
  end.

(** The loop over [RELATIVE_DATE_PATTERNS], left at the first pattern
    that is found. *)
Fixpoint extract_relative_date (now : datetime) (query_lower query : string)
    (table : list (string * date_func))
    : option datetime * option datetime * string :=
  match table with
  | [] => (None, None, query)
  | (pattern, date_func) :: table' =>
      match Regex.search pattern query_lower with
      | Some m =>
          let computed :=
            match date_func with
            | Nullary f => f now
            | OfMatch f => f now (Regex.group query_lower m 1)
            end in
          let query' := Regex.sub true pattern "" query in
          match computed with
          | Some (from, to) => (Some from, to, query')
          | None => (None, None, query')
          end
      | None => extract_relative_date now query_lower query table'
      end
  end.

(** The canonical folder of a directory word. *)
Definition folder_of (word : string) : string :=
  let folder := PyStr.capitalize (PyStr.rstrip_chars "s" word) in
  if String.eqb folder "Document" then "Documents"
  else if String.eqb folder "Download" then "Downloads"
  else if String.eqb folder "Picture" then "Pictures"
  else folder.

(** [parse_query]; [now] is the value of [datetime.now()].  The
    extensions are kept in the order of their first occurrence, where
    [list(set(...))] leaves the order open. *)
Definition parse_query (now : datetime) (query0 : string) : result QueryFilters :=
  let original := query0 in
  let query_lower := PyStr.lower query0 in
  let '(types, query1) :=
    foldl (extract_file_types query_lower) ([], query0) FILE_TYPE_PATTERNS in
  let types := remove_dups types in
  let '(from1, to1, query2) :=
    extract_relative_date now query_lower query1 RELATIVE_DATE_PATTERNS in
  let after_month : result (option datetime * option datetime * string) :=
    match Regex.search month_pattern query_lower, from1 with
    | Some m, None =>
        let month_name := default "" (Regex.group query_lower m 2) in
        let y := match Regex.group query_lower m 3 with
                 | Some digits => default 0 (PyStr.to_int digits)
                 | None => year now
                 end in
        let mo := month_number month_name in
        match make y mo 1 with
        | Ok from =>
            match (if mo =? 12 then make (y + 1) 1 1 else make y (mo + 1) 1) with
            | Ok to => Ok (Some from, Some to, Regex.sub true month_pattern "" query2)
            | Raise e => Raise e
            end
        | Raise e => Raise e
        end
    | _, _ => Ok (from1, to1, query2)
    end in
  match after_month with
  | Raise e => Raise e
  | Ok (from2, to2, query3) =>
      let after_year : result (option datetime * option datetime * string) :=
        match Regex.search year_pattern query_lower, from2 with
        | Some m, None =>
            let y := default 0 (PyStr.to_int (default "" (Regex.group query_lower m 1))) in
            match make y 1 1 with
            | Ok from =>
                match make (y + 1) 1 1 with
                | Ok to => Ok (Some from, Some to, Regex.sub true year_pattern "" query3)
                | Raise e => Raise e
                end
            | Raise e => Raise e
            end
        | _, _ => Ok (from2, to2, query3)
        end in
      match after_year with
      | Raise e => Raise e
      | Ok (from3, to3, query4) =>
          let '(dir, query5) :=
            match Regex.search dir_pattern query_lower with
            | Some m =>
                let folder := folder_of (default "" (Regex.group query_lower m 1)) in
                (Some ("~/" ++ folder), Regex.sub true dir_pattern "" query4)
            | None => (None, query4)
            end in
          let query6 := PyStr.strip (Regex.sub false "\s+" " " query5) in
          let query7 := Regex.sub true dangling_pattern "" query6 in
          Ok {| query := PyStr.strip query7;
                file_types := types;
                date_from := from3;
                date_to := to3;
                directory := dir;
                original_query := original |}
      end
  end.

(** *** Filtering search results *)

(** The value under key ["indexed_at"] of a result. *)
Inductive stamp : Type :=
  | NoStamp                     (* key absent, or [None] *)
  | TextStamp (s : string)      (* an ISO string *)
  | DateStamp (d : datetime).   (* a [datetime] object *)

(** A search result: the three keys the filter reads, each possibly
    absent, and the other entries of the dict. *)
Record search_result : Type := {
  filename : option string;
  filepath : option string;
  indexed_at : stamp;
  others : list (string * string)
}.

Section WithLibrary.

(** [datetime.fromisoformat]; [None] is [ValueError]. *)
Variable fromisoformat : string -> option datetime.

(** [os.path.expanduser]. *)
Variable expanduser : string -> string.

(** The extension the filter compares: a dot and the lower-cased text
    after the last dot of the file name. *)
Definition extension (r : search_result) : string :=
  "." ++ PyStr.lower (List.last (PyStr.split_on "." (default "" (filename r))) "").

(** The date of a result, when the stamp is truthy and can be read. *)
Definition doc_date (r : search_result) : option datetime :=
  match indexed_at r with
  | NoStamp => None
  | TextStamp s =>
      if PyStr.truthy s then fromisoformat (PyStr.replace_char "Z" "+00:00" s)
      else None
  | DateStamp d => Some d
  end.

(** The two comparisons of the [try] block: [true] when one of them
    runs [continue]; a [TypeError] leaves the block and rejects nothing. *)
Definition date_rejects (f : QueryFilters) (d : datetime) : bool :=
  let check_to :=
    match date_to f with
    | Some to => match ge d to with Some b => b | None => false end
    | None => false
    end in
  match date_from f with
  | Some from =>
      match lt d from with
      | Some true => true
      | Some false => check_to
      | None => false
      end
  | None => check_to
  end.

(** The body of the loop: [true] when the result is appended. *)
Definition passes (f : QueryFilters) (r : search_result) : bool :=
  if truthy_list (file_types f)
     && negb (bool_decide (extension r ∈ file_types f))
  then false
  else if (bool_decide (is_Some (date_from f)) || bool_decide (is_Some (date_to f)))
          && match doc_date r with
             | Some d => date_rejects f d
             | None => false
             end
  then false
  else if truthy_opt (directory f)
          && negb (PyStr.startswith (default "" (filepath r))
                     (expanduser (default "" (directory f))))
  then false
  else true.

(** [apply_filters_to_results]. *)
Definition apply_filters_to_results (results : list search_result)
    (f : QueryFilters) : list search_result :=
  if negb (has_filters f) then results
  else List.filter (passes f) results.

End WithLibrary.

(** *** Describing the filters *)

Section WithStrftime.

(** [dt.strftime(format)]. *)
Variable strftime : string -> datetime -> string.

(** The first three extensions in upper case without their dots, and
    the number of those left out. *)
Definition describe_types (types : list string) : string :=
  let shown :=
    PyStr.join ", "
      (List.map (fun ext => PyStr.lstrip_chars "." (PyStr.upper ext))
         (firstn 3 types)) in
  if (3 <? length types)%nat
  then shown ++ " +" ++ pretty (length types - 3)%nat ++ " more"
  else shown.

(** [format_filters_description]. *)
Definition format_filters_description (f : QueryFilters) : string :=
  let type_part :=
    if truthy_list (file_types f) then [describe_types (file_types f)] else [] in
  let date_part :=
    match date_from f with
    | Some from =>
        match date_to f with
        | Some to =>
            ["from " ++ strftime "%b %d" from ++ " to " ++ strftime "%b %d" to]
        | None => ["since " ++ strftime "%b %d, %Y" from]
        end
    | None => []
    end in
  let directory_part :=
    if truthy_opt (directory f) then ["in " ++ default "" (directory f)] else [] in
  let parts := (type_part ++ date_part ++ directory_part)%list in
  if truthy_list parts then PyStr.join " " parts else "".

End WithStrftime.

End QueryFilters.

(** ** [app/llm.py] *)

Module LLM.

(** A Python [float], with the values of finite floats kept exact. *)
Inductive pyfloat : Type :=
  | NaN
  | NegInf
  | Finite (q : Q)
  | PosInf.

(** [a < b] on floats: false as soon as one side is NaN. *)
Definition flt (a b : pyfloat) : bool :=
  match a, b with
  | NaN, _ | _, NaN => false
  | NegInf, NegInf => false
  | NegInf, _ => true
  | Finite _, NegInf => false
  | Finite p, Finite q => negb (Qle_bool q p)
  | Finite _, PosInf => true
  | PosInf, _ => false
  end.

(** Builtins [max(a, b)] and [min(a, b)]: the first argument stays unless
    the second one is strictly beyond it. *)
Definition py_max (a b : pyfloat) : pyfloat := if flt a b then b else a.
Definition py_min (a b : pyfloat) : pyfloat := if flt b a then b else a.

(** [min(max(confidence, 0.0), 1.0)]. *)
Definition clamp (c : pyfloat) : pyfloat :=
  py_min (py_max c (Finite 0)) (Finite 1).

(** What [json.loads] returns. *)
#[warnings="-register-all"]
Inductive json : Type :=
  | JNull
  | JBool (b : bool)
  | JInt (z : Z)
  | JFloat (f : pyfloat)
  | JString (s : string)
  | JArray (l : list json)
  | JObject (items : list (string * json)).

(** Truthiness of a value. *)
Definition truthy (v : json) : bool :=
  match v with
  | JNull => false
  | JBool b => b
  | JInt z => negb (z =? 0)
  | JFloat (Finite q) => negb (Qeq_bool q 0)
  | JFloat _ => true
  | JString s => PyStr.truthy s
  | JArray l => match l with [] => false | _ => true end
  | JObject l => match l with [] => false | _ => true end
  end.

(** Exceptions are told apart only as far as the handlers do. *)
Inductive failure : Type :=
  | JSONDecodeError
  | OtherException.

(** [d.get(key, default)] on a dict. *)
Definition dict_get (items : list (string * json)) (key : string)
    (dflt : json) : json :=
  match List.find (fun kv => String.eqb (fst kv) key) items with
  | Some (_, v) => v
  | None => dflt
  end.

(** [result.get(key, default)]: only a dict has method [get]. *)
Definition get (v : json) (key : string) (dflt : json) : failure + json :=
  match v with
  | JObject items => inr (dict_get items key dflt)
  | _ => inl OtherException
  end.

(** The answer of the chat-completion collaborator, as far as the code
    looks at it: the call raises (or the response has no choice), or
    [message.content] is a string or [None]. *)
Inductive completion : Type :=
  | CallRaises
  | Content (c : option string).

(** What the module reads outside of itself: global [_client], the
    environment variable [OPENAI_API_KEY], and the constructor of the
    client library, of which the code sees only whether
    [OpenAI(api_key=k)] returns a client or raises. *)
Record process : Type := {
  client : bool;                (* [_client is not None] *)
  api_key : option string;
  openai_accepts : string -> bool
}.

(** [get_client]: the key is stripped before it goes to the constructor,
    whose error is not caught. *)
Definition get_client (p : process) : result process :=
  if client p then Ok p
  else if negb (QueryFilters.truthy_opt (api_key p)) then Raise RuntimeError
  else if openai_accepts p (PyStr.strip (default "" (api_key p))) then
    Ok {| client := true; api_key := api_key p;
          openai_accepts := openai_accepts p |}
  else Raise OpenAIError.

(** [is_available]. *)
Definition is_available (p : process) : bool :=
  match api_key p with
  | Some k => PyStr.truthy k && PyStr.truthy (PyStr.strip k)
  | None => false
  end.

(** The dict returned by the extraction. *)
Record extraction : Type := { answer : string; confidence : pyfloat }.

Definition NONE : extraction := {| answer := "NONE"; confidence := Finite 0 |}.

(** [lines[1:-1]]. *)
Definition inner_lines (lines : list string) : list string :=
  List.removelast (List.tl lines).

(** The handling of a Markdown code fence around the JSON text. *)
Definition strip_fence (content : string) : string :=
  if PyStr.startswith content "```" then
    let lines := PyStr.split_on "010" content in
    PyStr.strip
      (if (2 <? length lines)%nat then PyStr.join (String "010" "") (inner_lines lines)
       else content)
  else content.

Section WithCollaborators.

(** [json.loads]; [None] is [JSONDecodeError]. *)
Variable json_loads : string -> option json.

(** [float(s)] for a string; [None] is [ValueError]. *)
Variable float_of_string : string -> option pyfloat.

(** The completion obtained for a question and a chunk, and the one
    obtained for an answer to compress. *)
Variable extract_completion : string -> string -> completion.
Variable compress_completion : string -> completion.

(** Builtin [float(v)]. *)
Definition to_float (v : json) : failure + pyfloat :=
  match v with
  | JFloat f => inr f
  | JInt z =>
      if Z.abs z <? 2 ^ 1024 - 2 ^ 970 then inr (Finite (inject_Z z))
      else inl OtherException
  | JBool b => inr (Finite (if b then 1 else 0))
  | JString s =>
      match float_of_string s with
      | Some f => inr f
      | None => inl OtherException
      end
  | _ => inl OtherException
  end.

(** The [try] block of [extract_answer_from_chunk], up to the handlers. *)
Definition extract_body (query chunk_text : string) : failure + extraction :=
  match extract_completion query chunk_text with
  | CallRaises => inl OtherException
  | Content None => inl OtherException
  | Content (Some raw) =>
      let content := strip_fence (PyStr.strip raw) in
      match json_loads content with
      | None => inl JSONDecodeError
      | Some parsed =>
          match get parsed "answer" (JString "NONE") with
          | inl e => inl e
          | inr ans =>
              match get parsed "confidence" (JFloat (Finite 0)) with
              | inl e => inl e
              | inr conf =>
                  match to_float conf with
                  | inl e => inl e
                  | inr c =>
                      if negb (truthy ans) then inr NONE
                      else
                        match ans with
                        | JString s =>
                            if String.eqb (PyStr.upper s) "NONE" then inr NONE
                            else inr {| answer := s; confidence := clamp c |}
                        | _ => inl OtherException
                        end
                  end
              end
          end
      end
  end.

(** [extract_answer_from_chunk]: the client is fetched before the [try]
    block; both handlers return the NONE dict. *)
Definition extract_answer_from_chunk (p : process) (query chunk_text : string)
    : result extraction * process :=
  match get_client p with
  | Raise e => (Raise e, p)
  | Ok p' =>
      match extract_body query chunk_text with
      | inr r => (Ok r, p')
      | inl JSONDecodeError => (Ok NONE, p')
      | inl OtherException => (Ok NONE, p')
      end
  end.

Definition word_count (s : string) : nat := length (PyStr.split_ws s).

(** The fallback of [compress_answer]: the first [n] words, joined, with
    trailing punctuation replaced by one period. *)
Definition truncate_words (n : nat) (answer : string) : string :=
  PyStr.rstrip_chars ".,;:" (PyStr.join " " (firstn n (PyStr.split_ws answer))) ++ ".".

(** [compress_answer]. *)
Definition compress_answer (p : process) (answer : string)
    : result string * process :=
  if negb (PyStr.truthy answer) || (word_count answer <=? 25)%nat then (Ok answer, p)
  else
    match get_client p with
    | Raise e => (Raise e, p)
    | Ok p' =>
        match compress_completion answer with
        | Content (Some raw) =>
            let compressed := PyStr.strip raw in
            if (word_count answer <? word_count compressed)%nat then (Ok answer, p')
            else (Ok compressed, p')
        | _ => (Ok (truncate_words 25 answer), p')
        end
    end.

End WithCollaborators.

(** *** Streaming *)

(** What a streamed chat completion delivers, as far as the code looks
    at it: the [delta.content] of each chunk, a string or [None], and
    whether an exception ends the stream after them.  A call that raises
    at once is the stream without chunk that breaks. *)
Record stream : Type := {
  deltas : list (option string);
  breaks : bool
}.

(** The chunks that pass [if chunk.choices[0].delta.content]. *)
Definition tokens (s : stream) : list string :=
  omap (fun d => match d with
                 | Some t => if PyStr.truthy t then Some t else None
                 | None => None
                 end) (deltas s).

(** A callback that takes one argument, by whether its call raises. *)
Definition callback (A : Type) : Type := A -> bool.

(** The calls of a callback over a list, up to the first one that
    raises: the arguments of the calls that returned, and the argument of
    the call that raised. *)
Fixpoint feed {A : Type} (raises : callback A) (l : list A)
    : list A * option A :=
  match l with
  | [] => ([], None)
  | x :: l' =>
      if raises x then ([], Some x)
      else let r := feed raises l' in (x :: fst r, snd r)
  end.

Definition called {A : Type} (r : list A * option A) : list A :=
  (fst r ++ match snd r with Some x => [x] | None => [] end)%list.

Definition error_msg : string := "Unable to generate answer".

(** A generator that was run until it stopped: the values it yielded,
    the value it returned, and the arguments [on_token] was called with. *)
Record generated : Type := {
  yields : list string;
  returned : string;
  token_calls : list string
}.

(** The loop over the stream that both streaming functions share: the
    tokens appended and handed to [on_token] before a failure, if any. *)
Definition consume (s : stream) (on_token : option (callback string))
    : list string * list string * bool :=
  let r := match on_token with
           | Some raises => feed raises (tokens s)
           | None => (tokens s, None)
           end in
  (fst r,
   match on_token with Some _ => called r | None => [] end,
   bool_decide (is_Some (snd r)) || breaks s).

(** Why [stream_answer_with_callback] ends in its handler. *)
Inductive cause : Type :=
  | MissingKey          (* [get_client] raised: no key, or the key refused *)
  | TokenCallback       (* [on_token] raised *)
  | CompleteCallback.   (* [on_complete] raised *)

(** The calls of the callbacks of [stream_answer_with_callback]. *)
Inductive event : Type :=
  | Token (t : string)
  | Complete (text : string)
  | Failed (c : cause).

Record callbacks : Type := {
  on_token : callback string;
  on_complete : option (callback string);
  on_error : option (callback cause)
}.

(** The [except] block of [stream_answer_with_callback]: whether the
    function raises, and the calls made. *)
Definition handle (cb : callbacks) (c : cause) (trace : list event)
    : bool * list event :=
  match on_error cb with
  | Some raises => (raises c, (trace ++ [Failed c])%list)
  | None => (false, trace)
  end.

Section WithStreams.

Variable json_loads : string -> option json.
Variable float_of_string : string -> option pyfloat.

(** The stream obtained for a question and a context, and the one for a
    question and a chunk. *)
Variable answer_stream : string -> string -> stream.
Variable extract_stream : string -> string -> stream.

(** [stream_answer], run until it stops.  The body of a generator
    starts at the first [next], so that is where [get_client] raises. *)
Definition stream_answer (p : process) (query context : string)
    (on_token : option (callback string)) : result generated * process :=
  match get_client p with
  | Raise e => (Raise e, p)
  | Ok p' =>
      let '(passed, calls, failed) := consume (answer_stream query context) on_token in
      if failed then
        (Ok {| yields := (passed ++ [error_msg])%list;
               returned := error_msg;
               token_calls := calls |}, p')
      else
        (Ok {| yields := passed;
               returned := PyStr.join "" passed;
               token_calls := calls |}, p')
  end.

(** [stream_answer_with_callback]: whether it raises, the calls of the
    callbacks in their order, and the process afterwards. *)
Definition stream_answer_with_callback (p : process) (query context : string)
    (cb : callbacks) : bool * list event * process :=
  match stream_answer p query context None with
  | (Raise _, p') => (handle cb MissingKey [], p')
  | (Ok g, p') =>
      let r := feed (on_token cb) (yields g) in
      let trace := List.map Token (called r) in
      match snd r with
      | Some _ => (handle cb TokenCallback trace, p')
      | None =>
          match on_complete cb with
          | None => ((false, trace), p')
          | Some raises =>
              let full := PyStr.join "" (fst r) in
              let trace' := (trace ++ [Complete full])%list in
              if raises full then (handle cb CompleteCallback trace', p')
              else ((false, trace'), p')
          end
      end
  end.

(** The [try] block of [extract_answer_streaming] from the joined
    response on. *)
Definition read_streamed (joined : string) : failure + extraction :=
  let content := strip_fence (PyStr.strip joined) in
  match json_loads content with
  | None => inl JSONDecodeError
  | Some parsed =>
      match get parsed "answer" (JString "NONE") with
      | inl e => inl e
      | inr ans =>
          match get parsed "confidence" (JFloat (Finite 0)) with
          | inl e => inl e
          | inr conf =>
              match to_float float_of_string conf with
              | inl e => inl e
              | inr c =>
                  if negb (truthy ans) then inr NONE
                  else
                    match ans with
                    | JString s =>
                        if String.eqb (PyStr.upper s) "NONE" then inr NONE
                        else inr {| answer := s; confidence := clamp c |}
                    | _ => inl OtherException
                    end
              end
          end
      end
  end.

(** [extract_answer_streaming], with the arguments [on_token] was
    called with. *)
Definition extract_answer_streaming (p : process) (query chunk_text : string)
    (on_token : option (callback string))
    : result extraction * process * list string :=
  match get_client p with
  | Raise e => (Raise e, p, [])
  | Ok p' =>
      let '(passed, calls, failed) := consume (extract_stream query chunk_text) on_token in
      if failed then (Ok NONE, p', calls)
      else
        match read_streamed (PyStr.join "" passed) with
        | inr r => (Ok r, p', calls)
        | inl _ => (Ok NONE, p', calls)
        end
  end.

End WithStreams.

End LLM.

(** ** The vector index ([app/vector_store.py]) *)

Module VectorStore.

Section WithTypes.

(** The scalars of an embedding and the metadata attached to one. *)
Variable scalar : Type.
Variable meta : Type.

(** Modelled from the spec: class [FAISSVectorStore] of
    [app/vector_store.py], of which the tree holds only the tests.  An
    index of dimension [dim] keeps its vectors and, position by position,
    their metadata. *)
Record store : Type := {
  dim : Z;
  vectors : list (list scalar);
  metadata : list meta
}.

Definition ntotal (s : store) : nat := length (vectors s).

(** Modelled from the spec: the constructor of [FAISSVectorStore], which
    refuses a dimension that is not positive. *)
Definition create (d : Z) : result store :=
  if d <=? 0 then Raise ValueError
  else Ok {| dim := d; vectors := []; metadata := [] |}.

Definition has_dim (d : Z) (v : list scalar) : bool :=
  Z.of_nat (length v) =? d.

(** Modelled from the spec: method [add] of [FAISSVectorStore].  It fails
    when the two lists differ in length or when a vector has not the
    dimension of the index, and otherwise appends to both lists. *)
Definition add (s : store) (vs : list (list scalar)) (ms : list meta)
    : result unit * store :=
  if negb (length vs =? length ms)%nat then (Raise ValueError, s)
  else if negb (forallb (has_dim (dim s)) vs) then (Raise ValueError, s)
  else (Ok tt, {| dim := dim s;
                  vectors := (vectors s ++ vs)%list;
                  metadata := (metadata s ++ ms)%list |}).

End WithTypes.

Arguments dim {scalar meta} s.
Arguments vectors {scalar meta} s.
Arguments metadata {scalar meta} s.
Arguments ntotal {scalar meta} s.
Arguments has_dim {scalar} d v.
Arguments add {scalar meta} s vs ms.

End VectorStore.

(** ** Answer compression ([app/rag_answerer.py]) *)

Module Answerer.

(** What the compression collaborator gives for an answer: nothing, when
    it is unavailable, or a text. *)
Inductive reply : Type :=
  | Unavailable
  | Compressed (text : string).

Section WithCollaborator.

Variable compress : string -> reply.

(** Modelled from the spec: function [compress_answer_if_needed] of
    [app/rag_answerer.py], of which the tree holds only the tests.  An
    answer within the budget of [max_words] words is returned as it is.
    A longer one goes to the compression collaborator; if that one is
    unavailable, or if what it returns has not fewer words than the
    answer, the answer is cut to its first [max_words] words and ends
    with one period. *)
Definition compress_answer_if_needed (answer : string) (max_words : nat)
    : string :=
  if (LLM.word_count answer <=? max_words)%nat then answer
  else
    match compress answer with
    | Unavailable => LLM.truncate_words max_words answer
    | Compressed text =>
        if (LLM.word_count text <? LLM.word_count answer)%nat then text
        else LLM.truncate_words max_words answer
    end.

End WithCollaborator.

End Answerer.

(** ** Notions used to state the properties *)

(** *** The filter as the specification words it *)

Module FilterSpec.

Import DateTime QueryFilters.

(** The text after the last dot of a name, read from left to right:
    [cur] is what was read since the last dot.  A name without dot is its
    own suffix. *)
Fixpoint after_last_dot (cur : string) (name : string) : string :=
  match name with
  | EmptyString => cur
  | String c rest =>
      if Ascii.eqb c "." then after_last_dot EmptyString rest
      else after_last_dot (cur ++ String c EmptyString) rest
  end.

Definition last_dot_suffix (name : string) : string :=
  after_last_dot EmptyString name.

(** The extension of a result: a dot and the last dot-suffix of its file
    name in lower case; a result without file name has the empty name. *)
Definition suffix (r : search_result) : string :=
  "." ++ PyStr.lower (last_dot_suffix (default "" (filename r))).

(** A text written with the designator [Z] of UTC, read with the offset
    [+00:00]. *)
Fixpoint zulu (s : string) : string :=
  match s with
  | EmptyString => EmptyString
  | String c rest =>
      if Ascii.eqb c "Z" then "+00:00" ++ zulu rest else String c (zulu rest)
  end.

(** [prefix] begins [s]. *)
Fixpoint begins_with (prefix s : string) : bool :=
  match prefix, s with
  | EmptyString, _ => true
  | String _ _, EmptyString => false
  | String a prefix', String b s' => Ascii.eqb a b && begins_with prefix' s'
  end.

(** The first pair of a list whose two sides differ tells which side is
    the smaller. *)
Fixpoint first_difference (l : list (Z * Z)) : comparison :=
  match l with
  | [] => Eq
  | (x, y) :: l' =>
      match x ?= y with
      | Eq => first_difference l'
      | o => o
      end
  end.

(** Seconds from the start of 0001-01-01 in UTC to an instant given with
    its offset. *)
Definition seconds_utc (d : datetime) (off : Z) : Z :=
  (toordinal d - 1) * 86400 + hour d * 3600 + minute d * 60 + second d - off.

(** [a] is before [b]: as instants when both carry an offset, and as
    they are written, field by field, otherwise. *)
Definition before (a b : datetime) : bool :=
  match utcoffset a, utcoffset b with
  | Some oa, Some ob =>
      match first_difference [(seconds_utc a oa, seconds_utc b ob);
                              (microsecond a, microsecond b)] with
      | Lt => true
      | _ => false
      end
  | _, _ =>
      match first_difference [(year a, year b); (month a, month b);
                              (day a, day b); (hour a, hour b);
                              (minute a, minute b); (second a, second b);
                              (microsecond a, microsecond b)] with
      | Lt => true
      | _ => false
      end
  end.


Section WithLibrary.

Variable fromisoformat : string -> option datetime.
Variable expanduser : string -> string.

(** The set of file types is not empty and the extension is not in it. *)
Definition rejected_on_type (f : QueryFilters) (r : search_result) : bool :=
  negb (bool_decide (file_types f = []))
  && negb (bool_decide (suffix r ∈ file_types f)).

(** The timestamp of a result, when it is present and can be read. *)
Definition timestamp (r : search_result) : option datetime :=
  match indexed_at r with
  | NoStamp => None
  | TextStamp EmptyString => None
  | TextStamp s => fromisoformat (zulu s)
  | DateStamp d => Some d
  end.

(** [d] lies outside of the half-open interval from [date_from] to
    [date_to]: before the lower bound, or not before the upper one.  A
    bound that is not set does not limit the interval. *)
Definition outside_interval (f : QueryFilters) (d : datetime) : bool :=
  match date_from f with
  | Some from => before d from
  | None => false
  end
  || match date_to f with
     | Some to => negb (before d to)
     | None => false
     end.


(** The timestamp is present, can be read, and lies outside the
    interval: what the claim says. *)
Definition rejected_on_date_as_claimed (f : QueryFilters) (r : search_result)
    : bool :=
  match timestamp r with
  | Some d => outside_interval f d
  | None => false
  end.


(** A directory is set and the path does not start with its expansion. *)
Definition rejected_on_directory (f : QueryFilters) (r : search_result) : bool :=
  match directory f with
  | Some EmptyString => false
  | Some dir => negb (begins_with (expanduser dir) (default "" (filepath r)))
  | None => false
  end.

Definition rejected_as_claimed (f : QueryFilters) (r : search_result) : bool :=
  rejected_on_type f r || rejected_on_date_as_claimed f r
  || rejected_on_directory f r.


End WithLibrary.

(** Naive values, and date functions that turn a naive [now] into naive
    bounds. *)
Definition naive_opt (o : option datetime) : Prop :=
  forall d, o = Some d -> utcoffset d = None.

Definition naive_pair (r : option (datetime * option datetime)) : Prop :=
  match r with
  | Some (a, b) => utcoffset a = None /\ naive_opt b
  | None => True
  end.

Definition keeps_naive (df : date_func) : Prop :=
  forall now, utcoffset now = None ->
    match df with
    | Nullary f => naive_pair (f now)
    | OfMatch f => forall g, naive_pair (f now g)
    end.

(** The two bounds, when both are set, are both naive or both aware. *)
Definition comparable_bounds (f : QueryFilters) : Prop :=
  match date_from f, date_to f with
  | Some a, Some b => is_Some (utcoffset a) <-> is_Some (utcoffset b)
  | _, _ => True
  end.

(** The bounds that are set are naive. *)
Definition naive_bounds (f : QueryFilters) : Prop :=
  (forall d, date_from f = Some d -> utcoffset d = None)
  /\ (forall d, date_to f = Some d -> utcoffset d = None).

End FilterSpec.

Module WordCount.

(** The number of words that [split_ws_aux] still produces, given whether
    a word is under way. *)
Fixpoint count_words (in_word : bool) (s : string) : nat :=
  match s with
  | EmptyString => if in_word then 1%nat else 0%nat
  | String c s' =>
      if PyStr.is_space c then ((if in_word then 1 else 0) + count_words false s')%nat
      else count_words true s'
  end.

Fixpoint no_space (w : string) : bool :=
  match w with
  | EmptyString => true
  | String c w' => negb (PyStr.is_space c) && no_space w'
  end.

End WordCount.

Module LLMSpec.

Import LLM.

(** A confidence between 0 and 1. *)
Definition in_unit (c : pyfloat) : Prop :=
  match c with
  | Finite q => (0 <= q <= 1)%Q
  | _ => False
  end.

(** The answer and the confidence that a decoded object states, with
    the defaults of the code for a missing key. *)
Definition stated_answer (items : list (string * json)) : json :=
  dict_get items "answer" (JString "NONE").

Definition stated_confidence (items : list (string * json)) : json :=
  dict_get items "confidence" (JFloat (Finite 0)).

End LLMSpec.

(** *** Truncation as the specification words it *)

Module CompressionSpec.

(** The characters that count as trailing punctuation. *)
Definition punctuation (c : ascii) : bool :=
  Ascii.eqb c "." || Ascii.eqb c "," || Ascii.eqb c ";" || Ascii.eqb c ":".

Fixpoint only_punctuation (s : string) : bool :=
  match s with
  | EmptyString => true
  | String c s' => punctuation c && only_punctuation s'
  end.

Fixpoint last_char (s : string) : option ascii :=
  match s with
  | EmptyString => None
  | String c EmptyString => Some c
  | String _ s' => last_char s'
  end.

(** The text does not end with punctuation. *)
Definition clean_end (s : string) : bool :=
  match last_char s with
  | Some c => negb (punctuation c)
  | None => true
  end.

(** The first [n] words of a text, one blank between them. *)
Definition first_words (n : nat) (text : string) : string :=
  PyStr.join " " (firstn n (PyStr.split_ws text)).

(** [r] is the truncation of [text] to [n] words: its first [n] words
    without the punctuation they end with, and one period. *)
Definition is_truncation (n : nat) (text r : string) : Prop :=
  exists body tail,
    first_words n text = body ++ tail
    /\ only_punctuation tail = true
    /\ clean_end body = true
    /\ r = body ++ ".".

End CompressionSpec.

(** *** Notions for the manifest queries *)

Module ManifestSpec.

Import Manifest.

(** What a row, if there is one, adds to the sum of a column: a NULL
    adds nothing. *)
Definition column_of (col : file_row -> option Z) (r : option file_row) : Z :=
  match r with
  | Some r0 => default 0 (col r0)
  | None => 0
  end.

(** A text without [%] and without [_] stands for itself in a [LIKE]
    pattern. *)
Definition plain_char (c : ascii) : bool :=
  negb (Ascii.eqb c "%") && negb (Ascii.eqb c "_").

Definition plain (s : string) : bool :=
  forallb plain_char (list_ascii_of_string s).

(** Ending and beginning of a text, up to the case of ASCII letters. *)
Definition ends_with_folded (text suffix : string) : Prop :=
  exists pre, PyStr.lower text = pre ++ PyStr.lower suffix.

Definition starts_with_folded (text prefix : string) : Prop :=
  exists rest, PyStr.lower text = PyStr.lower prefix ++ rest.



End ManifestSpec.

(** *** Notions for [parse_query] *)

Module ParseSpec.

Import QueryFilters.

(** A pattern of the table is found in the lower-cased query and lists
    the extension. *)
Definition named_by (query ext : string) : Prop :=
  exists pattern exts,
    (pattern, exts) ∈ FILE_TYPE_PATTERNS
    /\ is_Some (Regex.search pattern (PyStr.lower query))
    /\ ext ∈ exts.

(** The empty string, or one whose first character is not stripped. *)
Definition headed (p : ascii -> bool) (s : string) : Prop :=
  match s with
  | EmptyString => True
  | String c _ => p c = false
  end.

(** A filter that has an upper date bound and nothing else. *)
Definition upper_bound_only (f : QueryFilters) : Prop :=
  file_types f = [] /\ date_from f = None /\ directory f = None
  /\ is_Some (date_to f).

End ParseSpec.

(** *** Notions for the streaming functions *)

Module StreamSpec.

Import LLM.

(** The NONE dict, or an answer that is neither empty nor a spelling of
    NONE. *)
Definition proper_answer (r : extraction) : Prop :=
  r = NONE \/ (answer r <> "" /\ PyStr.upper (answer r) <> "NONE").

(** Callbacks [on_token] and [on_complete] that return normally. *)
Definition quiet (cb : callbacks) : Prop :=
  (forall t, on_token cb t = false)
  /\ (forall h, on_complete cb = Some h -> forall text, h text = false).

(** What the generator of [stream_answer] yields when nobody disturbs
    it: the tokens, and the error message after them if the stream
    breaks. *)
Definition delivered (s : stream) : list string :=
  (tokens s ++ if breaks s then [error_msg] else [])%list.

End StreamSpec.

(** *** Concrete instances *)

Module ManifestExamples.

Import Manifest.

(** A stand-in for the digest: it tells an empty file from the others. *)
Definition toy_digest (bytes : list Byte.byte) : string :=
  match bytes with
  | [] => "d41d8cd98f00b204e9800998ecf8427e"
  | _ => "0cc175b9c0f1b6a831c399e269772661"
  end.

(** A file system with the one file [/docs/a.txt], last modified at [t]. *)
Definition one_file (t : Z) : filesystem :=
  {| fs_exists := fun p => String.eqb p "/docs/a.txt";
     fs_stat := fun p =>
       if String.eqb p "/docs/a.txt" then Some {| st_mtime := t; st_size := 1 |}
       else None;
     fs_read := fun p =>
       if String.eqb p "/docs/a.txt" then Some [Byte.x61] else None |}.

Definition empty_manifest : manifest := {| files := ∅; metadata := ∅ |}.

(** The manifest once [/docs/a.txt] was recorded at time 100. *)
Definition recorded : manifest :=
  snd (mark_indexed toy_digest Healthy (one_file 100) empty_manifest
         "/docs/a.txt" 3 None "2024-05-01T10:00:00").

Definition stale_row : file_row :=
  {| filename := "a.txt"; file_hash := Some "d41d8cd98f00b204e9800998ecf8427e";
     mtime := Some 100; size := Some 0;
     indexed_at := Some "2024-05-01T10:00:00"; chunk_count := Some 3 |}.

Definition fresh_row : file_row :=
  {| filename := "a.txt"; file_hash := Some "0cc175b9c0f1b6a831c399e269772661";
     mtime := Some 100; size := Some 1;
     indexed_at := Some "2024-05-01T10:00:00"; chunk_count := Some 3 |}.

Definition with_row (r : file_row) : manifest :=
  {| files := {[ "/docs/a.txt" := r ]}; metadata := ∅ |}.

(** A manifest with the single file [a.tar.gz]. *)
Definition tarball : manifest :=
  {| files := {[ "/backup/a.tar.gz" :=
                   {| filename := "a.tar.gz"; file_hash := Some "0cc1";
                      mtime := Some 7; size := Some 12;
                      indexed_at := Some "2024-05-01T10:00:00";
                      chunk_count := Some 1 |} ]};
     metadata := ∅ |}.

End ManifestExamples.

Module FilterExamples.

Import DateTime QueryFilters.

Definition midnight (y m d : Z) (off : option Z) : datetime :=
  {| year := y; month := m; day := d; hour := 0; minute := 0; second := 0;
     microsecond := 0; utcoffset := off |}.

(** A reader of three of the forms that [datetime.fromisoformat] reads:
    [YYYY-MM-DD], naive; [YYYY-MM-DDT00:00:00+00:00], aware; and
    [YYYY-MM-DD+00:00], which Python reads as a date, a separator and the
    time [00:00], naive. *)
Definition toy_fromisoformat (s : string) : option datetime :=
  match PyStr.to_int (String.substring 0 4 s),
        PyStr.to_int (String.substring 5 2 s),
        PyStr.to_int (String.substring 8 2 s) with
  | Some y, Some m, Some d =>
      if valid_date y m d then
        let rest := String.substring 10 (String.length s - 10) s in
        if String.eqb rest "" then Some (midnight y m d None)
        else if String.eqb rest "+00:00" then Some (midnight y m d None)
        else if String.eqb rest "T00:00:00+00:00" then Some (midnight y m d (Some 0))
        else None
      else None
  | _, _, _ => None
  end.

(** The home directory is [/home/user]. *)
Definition toy_expanduser (s : string) : string :=
  match s with
  | String "~" rest => "/home/user" ++ rest
  | _ => s
  end.

(** Tuesday 3 November 2026, 10:20:30. *)
Definition now0 : datetime :=
  {| year := 2026; month := 11; day := 3; hour := 10; minute := 20;
     second := 30; microsecond := 5; utcoffset := None |}.

Definition pdfs_of_2024 : QueryFilters :=
  {| query := "report";
     file_types := [".pdf"];
     date_from := Some (midnight 2024 1 1 None);
     date_to := Some (midnight 2025 1 1 None);
     directory := Some "~/Documents";
     original_query := "report pdf from 2024 in documents" |}.

Definition hit (name path : string) (at_ : stamp) : search_result :=
  {| filename := Some name; filepath := Some path; indexed_at := at_;
     others := [] |}.

Definition hits : list search_result :=
  [ hit "report.PDF" "/home/user/Documents/report.PDF" (TextStamp "2024-03-05");
    hit "notes.txt" "/home/user/Documents/notes.txt" (TextStamp "2024-03-05");
    hit "old.pdf" "/home/user/Documents/old.pdf" (TextStamp "2023-12-31");
    hit "next.pdf" "/home/user/Documents/next.pdf" (TextStamp "2025-01-01");
    hit "far.pdf" "/tmp/far.pdf" (TextStamp "2024-03-05");
    hit "bare.pdf" "/home/user/Documents/bare.pdf" NoStamp;
    hit "odd.pdf" "/home/user/Documents/odd.pdf" (TextStamp "last spring");
    hit "utc.pdf" "/home/user/Documents/utc.pdf"
      (TextStamp "2020-01-01T00:00:00Z");
    hit "day.pdf" "/home/user/Documents/day.pdf" (TextStamp "2020-01-01Z") ].

(** A result of the year 2020, stamped in UTC. *)
Definition utc_hit : search_result :=
  hit "utc.pdf" "/home/user/Documents/utc.pdf" (TextStamp "2020-01-01T00:00:00Z").

End FilterExamples.

Module LLMExamples.

Import LLM.

(** A decoder that knows four contents. *)
Definition toy_loads (s : string) : option json :=
  if String.eqb s "odd-reply" then
    Some (JObject [("answer", JString "$150,000"); ("confidence", JString "high")])
  else if String.eqb s "salary-reply" then
    Some (JObject [("answer", JString "$150,000 per year");
                   ("confidence", JFloat (Finite (19 # 20)))])
  else if String.eqb s "sure-reply" then
    Some (JObject [("answer", JString "$150,000"); ("confidence", JInt 7)])
  else if String.eqb s "nan-reply" then
    Some (JObject [("answer", JString "$150,000"); ("confidence", JFloat NaN)])
  else None.

Definition toy_float (s : string) : option pyfloat := None.

(** A collaborator that answers four questions and fails on the others. *)
Definition toy_extract (query chunk_text : string) : completion :=
  if String.eqb query "Is it high?" then Content (Some "odd-reply")
  else if String.eqb query "What is the salary?" then Content (Some "  salary-reply ")
  else if String.eqb query "Are you sure?" then Content (Some "sure-reply")
  else if String.eqb query "How sure?" then Content (Some "nan-reply")
  else CallRaises.

Definition toy_compress (answer : string) : completion := CallRaises.

(** A compression collaborator that gives the answer back as it is. *)
Definition toy_echo (answer : string) : completion := Content (Some answer).

(** The collaborator of [compress_answer_if_needed], unavailable, and
    giving the answer back as it is. *)
Definition toy_unavailable (answer : string) : Answerer.reply :=
  Answerer.Unavailable.

Definition toy_same (answer : string) : Answerer.reply :=
  Answerer.Compressed answer.

(** A constructor that refuses the empty key. *)
Definition toy_openai (key : string) : bool := PyStr.truthy key.

Definition configured : process :=
  {| client := false; api_key := Some "test-key-12345";
     openai_accepts := toy_openai |}.

Definition ready : process :=
  {| client := true; api_key := Some "test-key-12345";
     openai_accepts := toy_openai |}.

Definition unconfigured : process :=
  {| client := false; api_key := None; openai_accepts := toy_openai |}.

(** The key is set, to blanks. *)
Definition blank_key : process :=
  {| client := false; api_key := Some "   "; openai_accepts := toy_openai |}.

(** An answer of 50 words. *)
Definition fifty_words : string := PyStr.join " " (List.repeat "word" 50).

End LLMExamples.

Module VectorStoreExamples.

Import VectorStore.

Definition one_vector : store Z string :=
  {| dim := 2; vectors := [[1; 2]]; metadata := ["doc1"] |}.

End VectorStoreExamples.

Module MoreExamples.

Import Manifest LLM.

Definition a_txt : stat_result := {| st_mtime := 100; st_size := 1 |}.

(** Megabytes left as bytes. *)
Definition in_bytes (z : Z) : Z := z.

(** A JSON manifest with two entries, one without ["chunk_count"]. *)
Definition two_entries : interchange :=
  {| x_files :=
       [ ("/docs/a.txt",
          {| i_hash := Some "0cc1"; i_mtime := Some 100; i_size := Some 1;
             i_indexed_at := Some "2024-05-01T10:00:00";
             i_chunk_count := Some (Some 3) |});
         ("/docs/b.pdf",
          {| i_hash := None; i_mtime := Some 200; i_size := Some 2;
             i_indexed_at := Some "2024-06-01T10:00:00";
             i_chunk_count := None |}) ];
     x_last_full_scan := Some "2024-06-02T00:00:00" |}.

(** A stream of three chunks, the second one empty. *)
Definition three_chunks : stream :=
  {| deltas := [Some "Hel"; Some ""; Some "lo"]; breaks := false |}.

Definition toy_stream (query context : string) : stream := three_chunks.

(** The reply to the salary question, streamed in two pieces. *)
Definition toy_extract_stream (query chunk_text : string) : stream :=
  {| deltas := [Some "  salary-"; None; Some "reply "]; breaks := false |}.

(** Callbacks that return, with both optional ones given. *)
Definition listeners : callbacks :=
  {| on_token := fun _ => false;
     on_complete := Some (fun _ => false);
     on_error := Some (fun _ => false) |}.

(** What [parse_query] makes of "sales report pdf in 2024" and of
    "PDF files". *)
Definition pdf_of_2024 : QueryFilters.QueryFilters :=
  {| QueryFilters.query := "sales report";
     QueryFilters.file_types := [".pdf"];
     QueryFilters.date_from := Some (FilterExamples.midnight 2024 1 1 None);
     QueryFilters.date_to := Some (FilterExamples.midnight 2025 1 1 None);
     QueryFilters.directory := None;
     QueryFilters.original_query := "sales report pdf in 2024" |}.

Definition pdf_files : QueryFilters.QueryFilters :=
  {| QueryFilters.query := "files";
     QueryFilters.file_types := [".pdf"];
     QueryFilters.date_from := None;
     QueryFilters.date_to := None;
     QueryFilters.directory := None;
     QueryFilters.original_query := "PDF files" |}.

Definition toy_strftime (format : string) (d : DateTime.datetime) : string :=
  format.

End MoreExamples.

(** * Properties *)

(** ** The manifest *)

Section ManifestFacts.

Import Manifest.

Variable md5_hexdigest : list Byte.byte -> string.

Abbreviation needs_indexing := (needs_indexing md5_hexdigest).
Abbreviation needs_indexing_counted := (needs_indexing_counted md5_hexdigest).
Abbreviation compute_file_hash := (compute_file_hash md5_hexdigest).
Abbreviation mark_indexed := (mark_indexed md5_hexdigest).

Lemma hash_or_compute_own fs p h :
  h = None \/ h = Some (compute_file_hash fs p) ->
  hash_or_compute md5_hexdigest fs p h = compute_file_hash fs p.
Proof.
  intros [-> | ->]; unfold hash_or_compute; [reflexivity|].
  destruct (PyStr.truthy _); reflexivity.
Qed.

Lemma compute_file_hash_same_bytes fs fs' p :
  fs_read fs' p = fs_read fs p ->
  compute_file_hash fs' p = compute_file_hash fs p.
Proof. unfold Manifest.compute_file_hash. intros ->. reflexivity. Qed.

Lemma mark_indexed_healthy fs m p chunks h now s :
  fs_stat fs p = Some s ->
  mark_indexed Healthy fs m p chunks h now =
    (Ok tt,
     {| files := <[p := {| filename := path_name p;
                           file_hash := Some (hash_or_compute md5_hexdigest fs p h);
                           mtime := Some (st_mtime s);
                           size := Some (st_size s);
                           indexed_at := Some now;
                           chunk_count := Some chunks |}]> (files m);
        metadata := metadata m |}).
Proof. intros Hs. unfold Manifest.mark_indexed. rewrite Hs. reflexivity. Qed.

(** C1. [needs_indexing] answers [False] for a path that does not exist
    and [True] for an existing path without record.  With a record whose
    stored modification time differs from the current one it answers
    [True] exactly when the freshly computed hash differs from the stored
    one; with equal modification times it answers [False] and computes no
    hash.  Hence, after [mark_indexed] has recorded a file with its own
    hash, a change of the modification time that leaves the bytes as they
    were does not make the file due again. *)
Theorem needs_indexing_decision (fs fs' : filesystem) (m : manifest) (p : string)
    (chunks : Z) (h : option string) (now : string) :
  (fs_exists fs p = false -> needs_indexing fs m p = false)
  /\ (fs_exists fs p = true -> get_file m p = None -> needs_indexing fs m p = true)
  /\ (forall stored s,
        fs_exists fs p = true -> get_file m p = Some stored ->
        fs_stat fs p = Some s -> Some (st_mtime s) <> mtime stored ->
        needs_indexing_counted fs m p =
          (negb (bool_decide (Some (compute_file_hash fs p) = file_hash stored)), 1%nat))
  /\ (forall stored s,
        fs_exists fs p = true -> get_file m p = Some stored ->
        fs_stat fs p = Some s -> Some (st_mtime s) = mtime stored ->
        needs_indexing_counted fs m p = (false, 0%nat))
  /\ (is_Some (fs_stat fs p) ->
      h = None \/ h = Some (compute_file_hash fs p) ->
      fs_read fs' p = fs_read fs p ->
      needs_indexing fs' (snd (mark_indexed Healthy fs m p chunks h now)) p = false).
Proof.
  unfold Manifest.needs_indexing, Manifest.needs_indexing_counted.
  repeat split.
  - intros ->. reflexivity.
  - intros -> ->. reflexivity.
  - intros stored s -> -> -> Hne. simpl.
    rewrite bool_decide_eq_false_2 by exact Hne. reflexivity.
  - intros stored s -> -> -> Heq. simpl.
    rewrite bool_decide_eq_true_2 by exact Heq. reflexivity.
  - intros [s Hs] Hh Hread.
    rewrite (mark_indexed_healthy _ _ _ _ _ _ _ Hs). simpl.
    destruct (fs_exists fs' p); [simpl|reflexivity].
    unfold get_file. simpl. rewrite lookup_insert_eq.
    destruct (fs_stat fs' p) as [s'|]; [|reflexivity].
    simpl. case_bool_decide; [reflexivity|]. simpl.
    rewrite (hash_or_compute_own _ _ _ Hh).
    rewrite (compute_file_hash_same_bytes _ _ _ Hread).
    rewrite bool_decide_eq_true_2 by reflexivity. reflexivity.
Qed.

(** C10. When [stat] fails with [OSError], [mark_indexed] returns
    normally and the manifest is what it was, whatever the condition of the
    storage: no connection is opened. *)
Theorem mark_indexed_stat_failure (st : storage) (fs : filesystem) (m : manifest)
    (p : string) (chunks : Z) (h : option string) (now : string) :
  fs_stat fs p = None ->
  mark_indexed st fs m p chunks h now = (Ok tt, m).
Proof. intros Hs. unfold Manifest.mark_indexed. rewrite Hs. reflexivity. Qed.

End ManifestFacts.


Lemma needs_indexing_decision_witness :
  let fs := ManifestExamples.one_file 200 in
  Manifest.needs_indexing ManifestExamples.toy_digest fs
    ManifestExamples.empty_manifest "/docs/gone.txt" = false
  /\ Manifest.needs_indexing ManifestExamples.toy_digest fs
       ManifestExamples.empty_manifest "/docs/a.txt" = true
  /\ Manifest.needs_indexing_counted ManifestExamples.toy_digest fs
       (ManifestExamples.with_row ManifestExamples.stale_row) "/docs/a.txt" = (true, 1%nat)
  /\ Manifest.needs_indexing_counted ManifestExamples.toy_digest
       (ManifestExamples.one_file 100)
       (ManifestExamples.with_row ManifestExamples.stale_row) "/docs/a.txt" = (false, 0%nat)
  /\ Manifest.needs_indexing ManifestExamples.toy_digest fs
       ManifestExamples.recorded "/docs/a.txt" = false.
Proof.
  intros fs.
  split; [|split; [|split; [|split]]].
  - apply (proj1 (needs_indexing_decision ManifestExamples.toy_digest fs fs
             ManifestExamples.empty_manifest "/docs/gone.txt" 0 None "")).
    reflexivity.
  - apply (proj1 (proj2 (needs_indexing_decision ManifestExamples.toy_digest fs fs
             ManifestExamples.empty_manifest "/docs/a.txt" 0 None "")));
      reflexivity.
  - apply (proj1 (proj2 (proj2
             (needs_indexing_decision ManifestExamples.toy_digest fs fs
                (ManifestExamples.with_row ManifestExamples.stale_row)
                "/docs/a.txt" 0 None "")))
             ManifestExamples.stale_row {| Manifest.st_mtime := 200; Manifest.st_size := 1 |});
      [reflexivity|reflexivity|reflexivity|discriminate].
  - apply (proj1 (proj2 (proj2 (proj2
             (needs_indexing_decision ManifestExamples.toy_digest
                (ManifestExamples.one_file 100) fs
                (ManifestExamples.with_row ManifestExamples.stale_row)
                "/docs/a.txt" 0 None ""))))
             ManifestExamples.stale_row {| Manifest.st_mtime := 100; Manifest.st_size := 1 |});
      reflexivity.
  - apply (proj2 (proj2 (proj2 (proj2
             (needs_indexing_decision ManifestExamples.toy_digest
                (ManifestExamples.one_file 100) fs
                ManifestExamples.empty_manifest
                "/docs/a.txt" 3 None "2024-05-01T10:00:00"))))).
    + eexists. reflexivity.
    + left. reflexivity.
    + reflexivity.
Defined.

Lemma mark_indexed_stat_failure_witness :
  Manifest.mark_indexed ManifestExamples.toy_digest Manifest.DatabaseFails
    (ManifestExamples.one_file 100)
    (ManifestExamples.with_row ManifestExamples.fresh_row)
    "/docs/gone.txt" 4 None "2024-05-02T08:00:00"
  = (Ok tt, ManifestExamples.with_row ManifestExamples.fresh_row).
Proof.
  apply (mark_indexed_stat_failure ManifestExamples.toy_digest).
  reflexivity.
Defined.

(** C3. On a manifest whose only file is [a.tar.gz], the histogram of
    [get_extension_counts] has the single key [.tar.gz]: [INSTR] finds the
    first dot of the name, so that the file is not counted under [.gz]. *)
Theorem extension_counts_tarball :
  Manifest.get_extension_counts ManifestExamples.tarball = {[ ".tar.gz" := 1%nat ]}
  /\ Manifest.get_extension_counts ManifestExamples.tarball !! ".gz" = None.
Proof. split; vm_compute; reflexivity. Qed.

(** *** Export and import *)

Section ExportImport.

Import Manifest.

Lemma info_of_row_of_info p r :
  info_of_row (row_of_info p (info_of_row r)) = info_of_row r.
Proof. reflexivity. Qed.

Lemma get_all_files_elem m k r :
  (k, r) ∈ get_all_files m <-> files m !! k = Some r.
Proof.
  unfold get_all_files. rewrite merge_sort_Permutation.
  apply elem_of_map_to_list.
Qed.

Lemma get_all_files_length m : length (get_all_files m) = base.size (files m).
Proof.
  unfold get_all_files. rewrite merge_sort_Permutation.
  apply length_map_to_list.
Qed.

(** Importing rows that are already there changes no exported field. *)
Lemma import_known_rows (fm0 : gmap string file_row)
    (l : list (string * file_row)) :
  (forall k r, (k, r) ∈ l -> fm0 !! k = Some r) ->
  forall fm : gmap string file_row,
    (forall p, info_of_row <$> fm !! p = info_of_row <$> fm0 !! p) ->
    forall p,
      info_of_row <$>
        foldl import_entry fm (List.map (fun fr => (fr.1, info_of_row fr.2)) l) !! p
      = info_of_row <$> fm0 !! p.
Proof.
  induction l as [|[k r] l IH]; intros Hl fm Hfm p; simpl.
  - apply Hfm.
  - apply IH.
    + intros k' r' Hin. apply Hl. by right.
    + intros q. unfold import_entry. simpl.
      destruct (decide (k = q)) as [->|Hne].
      * rewrite lookup_insert_eq. rewrite (Hl q r) by left. reflexivity.
      * rewrite lookup_insert_ne by exact Hne. apply Hfm.
Qed.

(** What a lookup finds after the import loop. *)
Lemma import_lookup (l : list (string * file_info)) (fm : gmap string file_row)
    (p : string) :
  foldl import_entry fm l !! p =
    match foldl import_entry ∅ l !! p with
    | Some r => Some r
    | None => fm !! p
    end.
Proof.
  induction l as [|e l IH] using rev_ind.
  - simpl. rewrite lookup_empty. reflexivity.
  - rewrite !foldl_snoc. unfold import_entry at 1 3.
    destruct (decide (e.1 = p)) as [->|Hne].
    + rewrite !lookup_insert_eq. reflexivity.
    + rewrite !lookup_insert_ne by exact Hne. exact IH.
Qed.

Lemma import_twice (l : list (string * file_info)) (fm : gmap string file_row) :
  foldl import_entry (foldl import_entry fm l) l = foldl import_entry fm l.
Proof.
  apply map_eq. intros p.
  rewrite (import_lookup l (foldl import_entry fm l)).
  rewrite (import_lookup l fm).
  destruct (foldl import_entry ∅ l !! p); reflexivity.
Qed.

Lemma import_metadata_own (md : gmap string string) :
  import_metadata md (md !! "last_full_scan") = md.
Proof.
  unfold import_metadata.
  destruct (md !! "last_full_scan") as [v|] eqn:E; [|reflexivity].
  destruct (PyStr.truthy v); [|reflexivity].
  apply insert_id, E.
Qed.

Lemma import_metadata_twice (md : gmap string string) (scan : option string) :
  import_metadata (import_metadata md scan) scan = import_metadata md scan.
Proof.
  unfold import_metadata. destruct scan as [v|]; [|reflexivity].
  destruct (PyStr.truthy v); [|reflexivity].
  apply insert_insert_eq.
Qed.

(** Every row written by the import carries the name of its path. *)
Lemma import_names (l : list (string * file_info)) (fm : gmap string file_row) :
  (forall p r, fm !! p = Some r -> filename r = path_name p) ->
  forall p r, foldl import_entry fm l !! p = Some r -> filename r = path_name p.
Proof.
  revert fm. induction l as [|e l IH]; intros fm Hfm p r; simpl.
  - apply Hfm.
  - apply IH. intros q r'. unfold import_entry.
    destruct (decide (e.1 = q)) as [->|Hne].
    + rewrite lookup_insert_eq. intros [= <-]. reflexivity.
    + rewrite lookup_insert_ne by exact Hne. apply Hfm.
Qed.

Lemma row_eq (r1 r2 : file_row) :
  filename r1 = filename r2 -> info_of_row r1 = info_of_row r2 -> r1 = r2.
Proof.
  destruct r1, r2. unfold info_of_row. simpl. intros -> [= -> -> -> -> ->].
  reflexivity.
Qed.

(** In a manifest whose rows carry the name of their path, as the rows
    written by [mark_indexed] and by [import_from_json] do, the import of
    the export changes nothing at all. *)
Lemma export_import_identity (m : manifest) :
  (forall p r, files m !! p = Some r -> filename r = path_name p) ->
  snd (import_from_json Healthy m (export_to_json m)) = m.
Proof.
  intros Hnames. destruct m as [fm md]. simpl in *. f_equal.
  - apply map_eq. intros p.
    pose proof (import_known_rows fm (get_all_files {| files := fm; metadata := md |})
                  (fun k r => proj1 (get_all_files_elem _ k r)) fm
                  (fun _ => eq_refl) p) as Hf.
    pose proof (import_names
                  (List.map (fun fr => (fr.1, info_of_row fr.2))
                     (get_all_files {| files := fm; metadata := md |}))
                  fm Hnames p) as Hn.
    destruct (foldl import_entry fm _ !! p) as [r1|] eqn:E1,
             (fm !! p) as [r2|] eqn:E2; simpl in Hf; try discriminate;
      [|reflexivity].
    f_equal. apply row_eq.
    + rewrite (Hn r1 eq_refl), (Hnames p r2 E2). reflexivity.
    + congruence.
  - apply import_metadata_own.
Qed.

(** C8. Importing what [export_to_json] produced returns the number of
    exported entries and leaves every record with its hash, modification
    time, size, indexing time and chunk count, as well as the metadata;
    [import_from_json] returns the number of entries of the structure it
    is given; and importing the same structure a second time changes
    nothing. *)
Theorem export_import_roundtrip (m : manifest) (data : interchange) (st : storage) :
  (fst (import_from_json Healthy m (export_to_json m)) = Ok (Z.of_nat (base.size (files m)))
   /\ (forall p,
         info_of_row <$> files (snd (import_from_json Healthy m (export_to_json m))) !! p
         = info_of_row <$> files m !! p)
   /\ dom (files (snd (import_from_json Healthy m (export_to_json m)))) = dom (files m)
   /\ metadata (snd (import_from_json Healthy m (export_to_json m))) = metadata m)
  /\ fst (import_from_json Healthy m data) = Ok (Z.of_nat (length (x_files data)))
  /\ snd (import_from_json st (snd (import_from_json st m data)) data)
     = snd (import_from_json st m data).
Proof.
  assert (Hfields : forall p,
    info_of_row <$> files (snd (import_from_json Healthy m (export_to_json m))) !! p
    = info_of_row <$> files m !! p).
  { intros p. simpl.
    apply (import_known_rows (files m) (get_all_files m)).
    - intros k r. apply get_all_files_elem.
    - reflexivity. }
  split; [split; [|split; [|split]]|split].
  - simpl. rewrite length_map, get_all_files_length. reflexivity.
  - exact Hfields.
  - apply set_eq. intros p. rewrite !elem_of_dom.
    specialize (Hfields p).
    destruct (files (snd (import_from_json Healthy m (export_to_json m))) !! p),
             (files m !! p); simpl in Hfields;
      try discriminate; split; intros [? ?]; try discriminate; eauto.
  - simpl. apply import_metadata_own.
  - reflexivity.
  - destruct st; simpl; try reflexivity.
    rewrite import_twice, import_metadata_twice. reflexivity.
Qed.

End ExportImport.

(** ** The query filters *)


Section FilterFacts.

Import DateTime QueryFilters FilterSpec.

Variable fromisoformat : string -> option datetime.
Variable expanduser : string -> string.


(** The notions of the specification and the helpers of the code. *)



















End FilterFacts.

(** *** Dates *)

Section DateFacts.

Import DateTime QueryFilters FilterSpec.




Lemma minus_days_utcoffset dt n d :
  minus_days dt n = Some d -> utcoffset d = utcoffset dt.
Proof.
  unfold minus_days.
  destruct (Z.abs n <=? 999999999); [|discriminate].
  destruct ((1 <=? toordinal dt - n) && (toordinal dt - n <=? MAXORDINAL));
    [|discriminate].
  destruct (ord2ymd (toordinal dt - n)) as [[y m] d0].
  intros [= <-]. reflexivity.
Qed.

Lemma make_naive y m d x : make y m d = Ok x -> utcoffset x = None.
Proof.
  unfold make. destruct (valid_date y m d); [|discriminate].
  intros [= <-]. reflexivity.
Qed.

End DateFacts.

(** *** [parse_query] *)

Section ParseFacts.

Import DateTime QueryFilters FilterSpec.

(** C2. Whatever the current instant, [parse_query] on
    ["salary in my documents"] finds directory ["~/Documents"], but the
    query it leaves is ["salary in my"]: the word [documents] is cut out
    as a file type before the directory phrase is looked for in the
    text. *)
Theorem parse_query_salary_documents (now : datetime) :
  parse_query now "salary in my documents" =
    Ok {| query := "salary in my";
          file_types := [".pdf"; ".docx"; ".doc"];
          date_from := None;
          date_to := None;
          directory := Some "~/Documents";
          original_query := "salary in my documents" |}.
Proof. vm_compute. reflexivity. Qed.




(** The bounds computed by [parse_query] are naive when [now] is. *)

Lemma open_ended_naive now n :
  utcoffset now = None -> naive_pair (open_ended (minus_days now n)).
Proof.
  intros Hn. destruct (minus_days now n) as [d|] eqn:E; simpl; [|exact I].
  split; [|intros ? [=]].
  rewrite (minus_days_utcoffset _ _ _ E). exact Hn.
Qed.

Lemma last_n_naive u now g :
  utcoffset now = None -> naive_pair (last_n u now g).
Proof.
  intros Hn. unfold last_n. destruct g as [s|]; [|exact I].
  destruct (PyStr.to_int s); [|exact I].
  apply open_ended_naive, Hn.
Qed.

Lemma table_keeps_naive :
  List.Forall (fun e => keeps_naive (snd e)) RELATIVE_DATE_PATTERNS.
Proof.
  unfold RELATIVE_DATE_PATTERNS.
  repeat (apply List.Forall_cons); try (apply List.Forall_nil);
    intros now Hn; simpl;
    try (apply open_ended_naive, Hn);
    try (intros g; apply last_n_naive, Hn);
    try (split; [exact Hn | intros ? [=]]).
  destruct (minus_days now 1) as [y|] eqn:E; simpl; [|exact I].
  split; [rewrite <- Hn; apply (minus_days_utcoffset _ _ _ E)|].
  intros d [= <-]. exact Hn.
Qed.

Lemma extract_relative_naive now ql q table a b q' :
  utcoffset now = None ->
  List.Forall (fun e => keeps_naive (snd e)) table ->
  extract_relative_date now ql q table = (a, b, q') ->
  naive_opt a /\ naive_opt b.
Proof.
  intros Hn Ht. revert a b q'.
  induction Ht as [|[pat df] table Hdf Ht IH]; intros a b q'; simpl.
  - intros [= <- <- _]. split; intros ? [=].
  - destruct (Regex.search pat ql) as [m|]; [|apply IH].
    specialize (Hdf now Hn). simpl in Hdf.
    destruct df as [f|f].
    + destruct (f now) as [[x y]|]; intros [= <- <- _].
      * destruct Hdf as [Hx Hy]. split; [intros ? [= <-]; exact Hx | exact Hy].
      * split; intros ? [=].
    + specialize (Hdf (Regex.group ql m 1)).
      destruct (f now (Regex.group ql m 1)) as [[x y]|]; intros [= <- <- _].
      * destruct Hdf as [Hx Hy]. split; [intros ? [= <-]; exact Hx | exact Hy].
      * split; intros ? [=].
Qed.

Lemma parse_query_naive_bounds now q f :
  utcoffset now = None ->
  parse_query now q = Ok f ->
  naive_bounds f.
Proof.
  intros Hn. unfold parse_query.
  destruct (foldl _ _ _) as [types q1].
  destruct (extract_relative_date _ _ _ _) as [[from1 to1] q2] eqn:E1.
  destruct (extract_relative_naive _ _ _ _ _ _ _ Hn table_keeps_naive E1) as [Hf1 Ht1].
  clear E1. unfold naive_opt in Hf1, Ht1.
  repeat match goal with
         | |- context [match ?x with _ => _ end] => destruct x eqn:?
         end;
    try discriminate;
    intros [= <-]; unfold naive_bounds; simpl;
    repeat match goal with
           | H : context [match ?x with _ => _ end] |- _ =>
               destruct x eqn:?; try discriminate
           end;
    simplify_eq;
    split; intros d0 [=]; subst; eauto using make_naive.
Qed.

Lemma naive_bounds_comparable f : naive_bounds f -> comparable_bounds f.
Proof.
  intros [Hf Ht]. unfold comparable_bounds.
  destruct (date_from f) as [a|]; [|exact I].
  destruct (date_to f) as [b|]; [|exact I].
  rewrite (Hf a eq_refl), (Ht b eq_refl). reflexivity.
Qed.

(** Every value that [parse_query] returns at a naive [now] meets the
    condition under which the filter was characterised. *)
Lemma parse_query_comparable_bounds now q f :
  utcoffset now = None ->
  parse_query now q = Ok f ->
  comparable_bounds f.
Proof.
  intros Hn Hp. apply naive_bounds_comparable.
  exact (parse_query_naive_bounds now q f Hn Hp).
Qed.

End ParseFacts.

(** ** Counting words *)


Section WordCountFacts.

Import PyStr WordCount.

Lemma truthy_snoc cur c : truthy (cur ++ String c EmptyString) = true.
Proof. destruct cur; reflexivity. Qed.

Lemma split_ws_aux_length cur s :
  length (split_ws_aux cur s) = count_words (truthy cur) s.
Proof.
  revert cur. induction s as [|c s IH]; intros cur; simpl.
  - destruct cur; reflexivity.
  - destruct (is_space c).
    + destruct cur; simpl; rewrite IH; reflexivity.
    + rewrite IH, truthy_snoc. reflexivity.
Qed.

Lemma split_ws_length s : length (split_ws s) = count_words false s.
Proof. apply split_ws_aux_length. Qed.

Lemma count_words_true_pos s : (1 <= count_words true s)%nat.
Proof.
  induction s as [|c s IH]; simpl; [lia|].
  destruct (is_space c); lia.
Qed.

Lemma count_words_mono s : (count_words false s <= count_words true s)%nat.
Proof.
  destruct s as [|c s]; simpl; [lia|].
  destruct (is_space c); lia.
Qed.

Lemma count_words_app_le b s t : (count_words b s <= count_words b (s ++ t))%nat.
Proof.
  revert b. induction s as [|c s IH]; intros b; simpl.
  - destruct b; [apply count_words_true_pos | lia].
  - destruct (is_space c); [specialize (IH false); lia | apply IH].
Qed.

Lemma count_words_snoc b s c :
  (count_words b (s ++ String c EmptyString) <= count_words b s + 1)%nat.
Proof.
  revert b. induction s as [|x s IH]; intros b; simpl.
  - destruct (is_space c), b; simpl; lia.
  - destruct (is_space x); [specialize (IH false); lia | apply IH].
Qed.

Lemma rstrip_by_prefix p s : exists t, s = rstrip_by p s ++ t.
Proof.
  induction s as [|c s [t IH]]; simpl.
  - exists EmptyString. reflexivity.
  - destruct (rstrip_by p s) as [|a r] eqn:E.
    + destruct (p c).
      * exists (String c s). reflexivity.
      * exists t. simpl. f_equal. exact IH.
    + exists t. change (String c s = String c (String a r ++ t)). f_equal. exact IH.
Qed.

Lemma no_space_snoc cur c :
  no_space cur = true -> is_space c = false ->
  no_space (cur ++ String c EmptyString) = true.
Proof.
  intros Hc Hs. induction cur as [|x cur IH]; simpl in *.
  - rewrite Hs. reflexivity.
  - apply andb_true_iff in Hc as [Hx Hc]. rewrite Hx, (IH Hc). reflexivity.
Qed.

Lemma split_ws_aux_no_space cur s :
  no_space cur = true ->
  List.Forall (fun w => no_space w = true) (split_ws_aux cur s).
Proof.
  revert cur. induction s as [|c s IH]; intros cur Hc; simpl.
  - destruct cur; constructor; [exact Hc | constructor].
  - destruct (is_space c) eqn:Hs.
    + destruct cur; [apply IH; reflexivity|].
      constructor; [exact Hc | apply IH; reflexivity].
    + apply IH, no_space_snoc; assumption.
Qed.

Lemma count_words_word b w rest :
  no_space w = true ->
  (count_words b (w ++ rest) <= count_words true rest)%nat.
Proof.
  revert b. induction w as [|c w IH]; intros b Hw; simpl in *.
  - destruct b; [reflexivity | apply count_words_mono].
  - apply andb_true_iff in Hw as [Hc Hw].
    apply negb_true_iff in Hc. rewrite Hc. apply IH, Hw.
Qed.

Lemma append_empty_r (w : string) : w ++ EmptyString = w.
Proof.
  induction w as [|c w IH]; [reflexivity|].
  change (String c (w ++ EmptyString) = String c w). f_equal. exact IH.
Qed.

Lemma count_words_join ws :
  List.Forall (fun w => no_space w = true) ws ->
  (count_words false (join " " ws) <= length ws)%nat.
Proof.
  induction 1 as [|w ws Hw Hws IH]; [simpl; lia|].
  destruct ws as [|w' ws'].
  - pose proof (count_words_word false w EmptyString Hw) as H1.
    rewrite append_empty_r in H1. simpl in *. lia.
  - change (join " " (w :: w' :: ws'))
      with (w ++ String " " (join " " (w' :: ws'))).
    pose proof (count_words_word false w (String " " (join " " (w' :: ws'))) Hw) as H1.
    change (count_words true (String " " (join " " (w' :: ws'))))
      with (1 + count_words false (join " " (w' :: ws')))%nat in H1.
    change (length (w :: w' :: ws')) with (S (length (w' :: ws'))).
    lia.
Qed.

Lemma truncate_words_count n answer :
  (LLM.word_count (LLM.truncate_words n answer) <= n + 1)%nat.
Proof.
  unfold LLM.word_count, LLM.truncate_words. rewrite split_ws_length.
  set (joined := join " " (firstn n (split_ws answer))).
  etransitivity; [apply count_words_snoc|].
  destruct (rstrip_by_prefix (fun c => mem_char c ".,;:") joined) as [t Ht].
  unfold rstrip_chars.
  pose proof (count_words_app_le false (rstrip_by (fun c => mem_char c ".,;:") joined) t) as H1.
  rewrite <- Ht in H1.
  assert (count_words false joined <= n)%nat as H2.
  { etransitivity; [apply count_words_join|].
    - apply Forall_take. apply split_ws_aux_no_space. reflexivity.
    - rewrite length_take. lia. }
  lia.
Qed.

End WordCountFacts.

(** ** The LLM client *)


Section LLMFacts.

Import LLM LLMSpec.

Variable json_loads : string -> option json.
Variable float_of_string : string -> option pyfloat.
Variable extract_completion : string -> string -> completion.

Abbreviation extract_body := (extract_body json_loads float_of_string extract_completion).
Abbreviation extract_answer_from_chunk :=
  (extract_answer_from_chunk json_loads float_of_string extract_completion).
Abbreviation to_float := (to_float float_of_string).

Lemma clamp_in_unit (c : pyfloat) : c <> NaN -> in_unit (clamp c).
Proof.
  destruct c as [| |q|]; intros Hc; [congruence| | |].
  - vm_compute. split; discriminate.
  - unfold clamp, py_max. simpl.
    destruct (Qle_bool 0 q) eqn:E0; simpl.
    + unfold py_min. simpl. destruct (Qle_bool q 1) eqn:E1; simpl.
      * split; apply Qle_bool_iff; assumption.
      * vm_compute. split; discriminate.
    + vm_compute. split; discriminate.
  - vm_compute. split; discriminate.
Qed.

Lemma clamp_nan (c : pyfloat) : clamp c = NaN -> c = NaN.
Proof.
  intros H. destruct c as [| |q|]; [reflexivity| | |]; exfalso.
  - vm_compute in H. discriminate.
  - pose proof (clamp_in_unit (Finite q) ltac:(discriminate)) as Hu.
    rewrite H in Hu. exact Hu.
  - vm_compute in H. discriminate.
Qed.

(** The clamp lets NaN through: no comparison with NaN holds. *)
Example clamp_of_nan : clamp NaN = NaN.
Proof. reflexivity. Qed.

Lemma extract_body_confidence (query chunk_text : string) (r : extraction) :
  extract_body query chunk_text = inr r ->
  confidence r <> NaN -> in_unit (confidence r).
Proof.
  unfold LLM.extract_body.
  repeat match goal with
         | |- context [match ?x with _ => _ end] => destruct x eqn:?
         end;
    try discriminate; intros [= <-]; simpl; intros Hn;
    try (split; discriminate).
  apply clamp_in_unit. intros ->. apply Hn. reflexivity.
Qed.

(** C4. Once [get_client] has returned a client (one exists already, or
    the API key is set and the constructor accepts it),
    [extract_answer_from_chunk] returns a dict, never raises, and the
    confidence it returns lies between 0 and 1 unless it is NaN.  It
    returns the NONE dict with confidence 0 on every failure of the
    collaborator or of the reading of its output: the call raises, the
    content is missing, is no JSON, is no object, states a confidence
    that is no number, or states an answer that is no string; and also
    when the answer stated is empty or NONE.  In the one case left it
    returns the answer stated, with the confidence clamped.  When
    [get_client], which is called before the [try] block, raises, its
    exception reaches the caller. *)
Theorem extract_answer_outcome (p : process) (query chunk_text : string) :
  (forall e, get_client p = Raise e ->
     extract_answer_from_chunk p query chunk_text = (Raise e, p))
  /\ (forall p', get_client p = Ok p' ->
       (exists r,
          extract_answer_from_chunk p query chunk_text = (Ok r, p')
          /\ (confidence r <> NaN -> in_unit (confidence r)))
       /\ (extract_completion query chunk_text = CallRaises ->
           extract_answer_from_chunk p query chunk_text = (Ok NONE, p'))
       /\ (extract_completion query chunk_text = Content None ->
           extract_answer_from_chunk p query chunk_text = (Ok NONE, p'))
       /\ (forall raw,
             extract_completion query chunk_text = Content (Some raw) ->
             json_loads (strip_fence (PyStr.strip raw)) = None ->
             extract_answer_from_chunk p query chunk_text = (Ok NONE, p'))
       /\ (forall raw v,
             extract_completion query chunk_text = Content (Some raw) ->
             json_loads (strip_fence (PyStr.strip raw)) = Some v ->
             (forall items, v <> JObject items) ->
             extract_answer_from_chunk p query chunk_text = (Ok NONE, p'))
       /\ (forall raw items,
             extract_completion query chunk_text = Content (Some raw) ->
             json_loads (strip_fence (PyStr.strip raw)) = Some (JObject items) ->
             (forall e, to_float (stated_confidence items) = inl e ->
                extract_answer_from_chunk p query chunk_text = (Ok NONE, p'))
             /\ (forall c, to_float (stated_confidence items) = inr c ->
                   (truthy (stated_answer items) = false ->
                      extract_answer_from_chunk p query chunk_text = (Ok NONE, p'))
                   /\ (truthy (stated_answer items) = true ->
                       (forall s, stated_answer items <> JString s) ->
                       extract_answer_from_chunk p query chunk_text = (Ok NONE, p'))
                   /\ (forall s, stated_answer items = JString s ->
                         PyStr.upper s = "NONE" ->
                         extract_answer_from_chunk p query chunk_text = (Ok NONE, p'))
                   /\ (forall s, stated_answer items = JString s ->
                         s <> "" -> PyStr.upper s <> "NONE" ->
                         extract_answer_from_chunk p query chunk_text
                         = (Ok {| answer := s; confidence := clamp c |}, p'))))).
Proof.
  unfold LLM.extract_answer_from_chunk. split.
  - intros e ->. reflexivity.
  - intros p' ->. split; [|split; [|split; [|split; [|split]]]].
    + destruct (extract_body query chunk_text) as [[|]|r] eqn:E.
      * exists NONE. split; [reflexivity|]. intros _. simpl. split; discriminate.
      * exists NONE. split; [reflexivity|]. intros _. simpl. split; discriminate.
      * exists r. split; [reflexivity|].
        apply (extract_body_confidence query chunk_text r E).
    + intros Hc. unfold LLM.extract_body. rewrite Hc. reflexivity.
    + intros Hc. unfold LLM.extract_body. rewrite Hc. reflexivity.
    + intros raw Hc Hj. unfold LLM.extract_body. rewrite Hc, Hj. reflexivity.
    + intros raw v Hc Hj Hv. unfold LLM.extract_body. rewrite Hc, Hj.
      destruct v; try reflexivity. exfalso. exact (Hv items eq_refl).
    + intros raw items Hc Hj. unfold LLM.extract_body. rewrite Hc, Hj.
      unfold stated_answer, stated_confidence. cbn [get].
      split.
      * intros e ->. destruct e; reflexivity.
      * intros c ->. split; [|split; [|split]].
        -- intros ->. reflexivity.
        -- intros -> Hs.
           destruct (dict_get items "answer" (JString "NONE")) as [| | | |s| |];
             try reflexivity.
           exfalso. exact (Hs s eq_refl).
        -- intros s -> Hu. rewrite Hu.
           destruct (negb (truthy (JString s))); reflexivity.
        -- intros s -> Hs Hu.
           assert (truthy (JString s) = true) as ->
             by (destruct s; [congruence | reflexivity]).
           apply String.eqb_neq in Hu. rewrite Hu. reflexivity.
Qed.

End LLMFacts.

(** ** Answer compression *)

Section TruncationFacts.

Import PyStr WordCount CompressionSpec.

Lemma punctuation_mem (c : ascii) : mem_char c ".,;:" = punctuation c.
Proof.
  unfold punctuation. cbn [mem_char]. rewrite orb_false_r, !orb_assoc. reflexivity.
Qed.

Lemma rstrip_by_only (p : ascii -> bool) (s : string) :
  (forall c, p c = punctuation c) ->
  only_punctuation s = true -> rstrip_by p s = EmptyString.
Proof.
  intros Hp. induction s as [|c s IH]; simpl; [reflexivity|].
  intros H. apply andb_true_iff in H as [Hc Hs].
  rewrite (IH Hs), Hp, Hc. reflexivity.
Qed.

Lemma last_char_cons (c a : ascii) (s : string) :
  last_char (String c (String a s)) = last_char (String a s).
Proof. reflexivity. Qed.

(** What is stripped is what comes before the punctuation at the end. *)
Lemma rstrip_by_body (p : ascii -> bool) (body tail : string) :
  (forall c, p c = punctuation c) ->
  only_punctuation tail = true -> clean_end body = true ->
  rstrip_by p (body ++ tail) = body.
Proof.
  intros Hp Ht. induction body as [|c body IH]; intros Hb.
  - apply rstrip_by_only; assumption.
  - change (rstrip_by p (String c (body ++ tail)) = String c body).
    cbn [rstrip_by]. destruct body as [|a body].
    + change (EmptyString ++ tail) with tail.
      rewrite (rstrip_by_only p tail Hp Ht).
      unfold clean_end in Hb. simpl in Hb. rewrite Hp.
      apply negb_true_iff in Hb. rewrite Hb. reflexivity.
    + unfold clean_end in Hb. rewrite last_char_cons in Hb.
      rewrite (IH Hb). reflexivity.
Qed.

Lemma rstrip_by_split (p : ascii -> bool) (s : string) :
  (forall c, p c = punctuation c) ->
  exists tail,
    s = rstrip_by p s ++ tail
    /\ only_punctuation tail = true
    /\ clean_end (rstrip_by p s) = true.
Proof.
  intros Hp. induction s as [|c s (tail & Hs & Ht & Hc)].
  - exists EmptyString. repeat split.
  - cbn [rstrip_by]. destruct (rstrip_by p s) as [|a r] eqn:E.
    + destruct (p c) eqn:Ec.
      * exists (String c s). split; [reflexivity|]. split; [|reflexivity].
        simpl. rewrite <- Hp, Ec. simpl. rewrite Hs. exact Ht.
      * exists tail. split; [simpl; f_equal; exact Hs|]. split; [exact Ht|].
        unfold clean_end. simpl. rewrite <- Hp, Ec. reflexivity.
    + exists tail. split.
      * change (String c s = String c (String a r ++ tail)). f_equal. exact Hs.
      * split; [exact Ht|]. unfold clean_end. rewrite last_char_cons. exact Hc.
Qed.

(** The truncation of the specification is the one the code computes. *)
Lemma is_truncation_truncate_words (n : nat) (text r : string) :
  is_truncation n text r <-> r = LLM.truncate_words n text.
Proof.
  unfold is_truncation, LLM.truncate_words, rstrip_chars, first_words. split.
  - intros (body & tail & Hf & Ht & Hb & ->). rewrite Hf.
    rewrite (rstrip_by_body _ body tail punctuation_mem Ht Hb). reflexivity.
  - intros ->.
    destruct (rstrip_by_split (fun c => mem_char c ".,;:")
                (join " " (firstn n (split_ws text))) punctuation_mem)
      as (tail & Hs & Ht & Hc).
    exists (rstrip_by (fun c => mem_char c ".,;:")
              (join " " (firstn n (split_ws text)))), tail.
    auto.
Qed.

End TruncationFacts.

Section AnswererFacts.

Import LLM Answerer CompressionSpec.

Variable compress : string -> reply.
Variable compress_completion : string -> completion.

Abbreviation compress_answer_if_needed := (compress_answer_if_needed compress).

(** The compression of [llm.py]. *)

Lemma compress_answer_short (p : process) (answer : string) :
  (word_count answer <= 25)%nat ->
  compress_answer compress_completion p answer = (Ok answer, p).
Proof.
  intros H. unfold compress_answer. apply Nat.leb_le in H. rewrite H.
  rewrite orb_true_r. reflexivity.
Qed.

Lemma compress_answer_call_fails (p p' : process) (answer : string) :
  (25 < word_count answer)%nat ->
  get_client p = Ok p' ->
  compress_completion answer = CallRaises ->
  compress_answer compress_completion p answer = (Ok (truncate_words 25 answer), p').
Proof.
  intros H Hc Hr. unfold compress_answer. apply Nat.leb_gt in H. rewrite H.
  destruct answer as [|c a]; [discriminate|]. simpl negb. simpl orb.
  rewrite Hc, Hr. reflexivity.
Qed.

Lemma compress_answer_longer_output (p p' : process) (answer raw : string) :
  (25 < word_count answer)%nat ->
  get_client p = Ok p' ->
  compress_completion answer = Content (Some raw) ->
  (word_count answer < word_count (PyStr.strip raw))%nat ->
  compress_answer compress_completion p answer = (Ok answer, p').
Proof.
  intros H Hc Hr Hw. unfold compress_answer. apply Nat.leb_gt in H. rewrite H.
  destruct answer as [|c a]; [discriminate|]. simpl negb. simpl orb.
  rewrite Hc, Hr. apply Nat.ltb_lt in Hw. rewrite Hw. reflexivity.
Qed.

Lemma is_available_get_client (p : process) :
  is_available p = true ->
  openai_accepts p (PyStr.strip (default "" (api_key p))) = true ->
  exists p', get_client p = Ok p'.
Proof.
  unfold is_available, get_client. destruct (client p); [eauto|].
  destruct (api_key p) as [k|]; [|discriminate]. simpl.
  intros H Ha. apply andb_true_iff in H as [H _]. rewrite H, Ha. simpl. eauto.
Qed.

(** C5. An answer within the word budget comes back unchanged.  An answer
    over the budget comes back as its truncation to [max_words] words
    when the collaborator is unavailable and when what it returns has not
    fewer words than the answer.  The truncation of a text to a number of
    words is one text only: the first words of the text without the
    punctuation they end with, and one period; it has at most one word
    more than that number, so that an answer of 50 words with a budget of
    10 and no collaborator comes back with at most 11 words.  The
    fallback of [compress_answer] in [llm.py], taken when the call of the
    model fails, is the truncation to 25 words. *)
Theorem compress_answer_if_needed_budget (answer : string) (max_words : nat) :
  ((word_count answer <= max_words)%nat ->
     compress_answer_if_needed answer max_words = answer)
  /\ ((max_words < word_count answer)%nat -> compress answer = Unavailable ->
      is_truncation max_words answer (compress_answer_if_needed answer max_words))
  /\ (forall text,
        (max_words < word_count answer)%nat ->
        compress answer = Compressed text ->
        (word_count answer <= word_count text)%nat ->
        is_truncation max_words answer (compress_answer_if_needed answer max_words))
  /\ (forall r r',
        is_truncation max_words answer r -> is_truncation max_words answer r' ->
        r = r')
  /\ (forall r,
        is_truncation max_words answer r -> (word_count r <= max_words + 1)%nat)
  /\ (word_count answer = 50%nat -> compress answer = Unavailable ->
      (word_count (compress_answer_if_needed answer 10) <= 11)%nat)
  /\ (forall p p',
        (25 < word_count answer)%nat ->
        get_client p = Ok p' ->
        compress_completion answer = CallRaises
        \/ compress_completion answer = Content None ->
        exists r,
          compress_answer compress_completion p answer = (Ok r, p')
          /\ is_truncation 25 answer r).
Proof.
  unfold Answerer.compress_answer_if_needed.
  split; [|split; [|split; [|split; [|split; [|split]]]]].
  - intros H. apply Nat.leb_le in H. rewrite H. reflexivity.
  - intros H Hu. apply Nat.leb_gt in H. rewrite H, Hu.
    apply is_truncation_truncate_words. reflexivity.
  - intros text H Hc Hw. apply Nat.leb_gt in H. rewrite H, Hc.
    apply Nat.ltb_ge in Hw. rewrite Hw.
    apply is_truncation_truncate_words. reflexivity.
  - intros r r' Hr Hr'. apply is_truncation_truncate_words in Hr, Hr'. congruence.
  - intros r Hr. apply is_truncation_truncate_words in Hr. subst r.
    apply truncate_words_count.
  - intros H Hu. rewrite H, Hu. simpl.
    apply (truncate_words_count 10 answer).
  - intros p p' H Hc Hr. unfold compress_answer. apply Nat.leb_gt in H. rewrite H.
    destruct answer as [|c a]; [discriminate|]. simpl negb. simpl orb.
    rewrite Hc.
    exists (truncate_words 25 (String c a)). split.
    + destruct Hr as [-> | ->]; reflexivity.
    + apply is_truncation_truncate_words. reflexivity.
Qed.

End AnswererFacts.

(** ** The vector index *)

Section VectorStoreFacts.

Import VectorStore.

Variable scalar : Type.
Variable meta : Type.

Abbreviation vstore := (store scalar meta).

(** C9. [add] fails and leaves the index as it is when the two lists
    differ in length and when one of the vectors has not the dimension of
    the index.  Otherwise it succeeds: the count and the length of the
    metadata grow by the number of vectors, what was stored stays at its
    position, and the [j]-th vector and the [j]-th metadata added are
    stored at the same new position. *)
Theorem add_rejects_or_appends (s : vstore) (vs : list (list scalar))
    (ms : list meta) :
  (length vs <> length ms -> add s vs ms = (Raise ValueError, s))
  /\ ((exists v, v ∈ vs /\ Z.of_nat (length v) <> dim s) ->
      add s vs ms = (Raise ValueError, s))
  /\ (length vs = length ms ->
      (forall v, v ∈ vs -> Z.of_nat (length v) = dim s) ->
      exists s',
        add s vs ms = (Ok tt, s')
        /\ dim s' = dim s
        /\ ntotal s' = (ntotal s + length vs)%nat
        /\ length (metadata s') = (length (metadata s) + length vs)%nat
        /\ (forall i, (i < ntotal s)%nat -> vectors s' !! i = vectors s !! i)
        /\ (forall i, (i < length (metadata s))%nat ->
              metadata s' !! i = metadata s !! i)
        /\ (forall j, vectors s' !! (ntotal s + j)%nat = vs !! j)
        /\ (forall j, metadata s' !! (length (metadata s) + j)%nat = ms !! j)).
Proof.
  unfold add, ntotal. split; [|split].
  - intros H. apply Nat.eqb_neq in H. rewrite H. reflexivity.
  - intros (v & Hin & Hv).
    destruct (length vs =? length ms)%nat; [|reflexivity]. simpl.
    assert (forallb (has_dim (dim s)) vs = false) as ->; [|reflexivity].
    apply not_true_is_false. intros Hall.
    rewrite forallb_forall in Hall.
    specialize (Hall v (proj1 (list_elem_of_In _ _) Hin)).
    unfold has_dim in Hall. apply Z.eqb_eq in Hall. contradiction.
  - intros Hlen Hall.
    apply Nat.eqb_eq in Hlen as Hlen'. rewrite Hlen'. simpl.
    assert (forallb (has_dim (dim s)) vs = true) as ->.
    { apply forallb_forall. intros v Hin. unfold has_dim. apply Z.eqb_eq.
      apply Hall. apply list_elem_of_In. exact Hin. }
    simpl. eexists. split; [reflexivity|]. simpl.
    split; [reflexivity|].
    split; [apply length_app|].
    split; [rewrite length_app; lia|].
    split; [intros i Hi; apply lookup_app_l; exact Hi|].
    split; [intros i Hi; apply lookup_app_l; exact Hi|].
    split; intros j; rewrite lookup_app_r by lia; f_equal; lia.
Qed.

End VectorStoreFacts.

(** ** Instances of the theorems *)

Example apply_filters_on_hits :
  QueryFilters.apply_filters_to_results FilterExamples.toy_fromisoformat
    FilterExamples.toy_expanduser FilterExamples.hits FilterExamples.pdfs_of_2024
  = [ FilterExamples.hit "report.PDF" "/home/user/Documents/report.PDF"
        (QueryFilters.TextStamp "2024-03-05");
      FilterExamples.hit "bare.pdf" "/home/user/Documents/bare.pdf"
        QueryFilters.NoStamp;
      FilterExamples.hit "odd.pdf" "/home/user/Documents/odd.pdf"
        (QueryFilters.TextStamp "last spring");
      FilterExamples.hit "utc.pdf" "/home/user/Documents/utc.pdf"
        (QueryFilters.TextStamp "2020-01-01T00:00:00Z") ].
Proof. vm_compute. reflexivity. Qed.

(** A timestamp of the year 2020 in UTC lies outside of the year 2024,
    is rejected as the claim words it, and is kept by the code: Python
    does not compare it with the naive bounds. *)
Lemma apply_filters_keeps_incomparable :
  FilterSpec.timestamp FilterExamples.toy_fromisoformat FilterExamples.utc_hit
  = Some (FilterExamples.midnight 2020 1 1 (Some 0))
  /\ FilterSpec.outside_interval FilterExamples.pdfs_of_2024
       (FilterExamples.midnight 2020 1 1 (Some 0)) = true
  /\ FilterSpec.rejected_as_claimed FilterExamples.toy_fromisoformat
       FilterExamples.toy_expanduser FilterExamples.pdfs_of_2024
       FilterExamples.utc_hit = true
  /\ QueryFilters.apply_filters_to_results FilterExamples.toy_fromisoformat
       FilterExamples.toy_expanduser [FilterExamples.utc_hit]
       FilterExamples.pdfs_of_2024
     = [FilterExamples.utc_hit]
  /\ QueryFilters.apply_filters_to_results FilterExamples.toy_fromisoformat
       FilterExamples.toy_expanduser [FilterExamples.utc_hit]
       FilterExamples.pdfs_of_2024
     <> List.filter
          (fun r => negb (FilterSpec.rejected_as_claimed
                            FilterExamples.toy_fromisoformat
                            FilterExamples.toy_expanduser
                            FilterExamples.pdfs_of_2024 r))
          [FilterExamples.utc_hit].
Proof. repeat split; try (vm_compute; reflexivity). vm_compute. discriminate. Qed.



Lemma extract_answer_outcome_witness :
  LLM.extract_answer_from_chunk LLMExamples.toy_loads LLMExamples.toy_float
    LLMExamples.toy_extract LLMExamples.unconfigured "What is the salary?" "text"
  = (Raise RuntimeError, LLMExamples.unconfigured)
  /\ (exists r,
        LLM.extract_answer_from_chunk LLMExamples.toy_loads LLMExamples.toy_float
          LLMExamples.toy_extract LLMExamples.configured "What is the salary?" "text"
        = (Ok r, LLMExamples.ready)
        /\ (LLM.confidence r <> LLM.NaN -> LLMSpec.in_unit (LLM.confidence r)))
  /\ LLM.extract_answer_from_chunk LLMExamples.toy_loads LLMExamples.toy_float
       LLMExamples.toy_extract LLMExamples.configured "Who is it?" "text"
     = (Ok LLM.NONE, LLMExamples.ready)
  /\ LLM.extract_answer_from_chunk LLMExamples.toy_loads LLMExamples.toy_float
       LLMExamples.toy_extract LLMExamples.configured "Is it high?" "text"
     = (Ok LLM.NONE, LLMExamples.ready)
  /\ LLM.extract_answer_from_chunk LLMExamples.toy_loads LLMExamples.toy_float
       LLMExamples.toy_extract LLMExamples.configured "Are you sure?" "text"
     = (Ok {| LLM.answer := "$150,000";
              LLM.confidence := LLM.clamp (LLM.Finite (inject_Z 7)) |},
        LLMExamples.ready).
Proof.
  split; [|split; [|split; [|split]]].
  - apply (proj1 (extract_answer_outcome LLMExamples.toy_loads LLMExamples.toy_float
                    LLMExamples.toy_extract LLMExamples.unconfigured
                    "What is the salary?" "text")).
    reflexivity.
  - apply (proj1 (proj2 (extract_answer_outcome LLMExamples.toy_loads
                    LLMExamples.toy_float LLMExamples.toy_extract
                    LLMExamples.configured "What is the salary?" "text")
                  LLMExamples.ready eq_refl)).
  - apply (proj1 (proj2 (proj2 (extract_answer_outcome LLMExamples.toy_loads
                    LLMExamples.toy_float LLMExamples.toy_extract
                    LLMExamples.configured "Who is it?" "text")
                  LLMExamples.ready eq_refl))).
    reflexivity.
  - apply (proj1 (proj2 (proj2 (proj2 (proj2 (proj2
             (proj2 (extract_answer_outcome LLMExamples.toy_loads
                       LLMExamples.toy_float LLMExamples.toy_extract
                       LLMExamples.configured "Is it high?" "text")
                LLMExamples.ready eq_refl)))))
             "odd-reply"
             [("answer", LLM.JString "$150,000");
              ("confidence", LLM.JString "high")]
             eq_refl eq_refl)
           LLM.OtherException).
    reflexivity.
  - apply (proj2 (proj2 (proj2
             (proj2 (proj2 (proj2 (proj2 (proj2 (proj2
                (proj2 (extract_answer_outcome LLMExamples.toy_loads
                          LLMExamples.toy_float LLMExamples.toy_extract
                          LLMExamples.configured "Are you sure?" "text")
                   LLMExamples.ready eq_refl)))))
                "sure-reply"
                [("answer", LLM.JString "$150,000"); ("confidence", LLM.JInt 7)]
                eq_refl eq_refl)
                (LLM.Finite (inject_Z 7)) eq_refl)))
           "$150,000" eq_refl).
    + discriminate.
    + vm_compute. discriminate.
Defined.

(** Without client and without API key the extraction raises: it does not
    return the NONE dict. *)
Lemma extract_answer_missing_key_raises :
  fst (LLM.extract_answer_from_chunk LLMExamples.toy_loads LLMExamples.toy_float
         LLMExamples.toy_extract LLMExamples.unconfigured
         "What is the salary?" "text")
  = Raise RuntimeError
  /\ ~ (exists r,
         fst (LLM.extract_answer_from_chunk LLMExamples.toy_loads
                LLMExamples.toy_float LLMExamples.toy_extract
                LLMExamples.unconfigured "What is the salary?" "text")
         = Ok r).
Proof. split; [reflexivity|]. intros [r Hr]. vm_compute in Hr. discriminate. Qed.

Example extract_answer_replies :
  fst (LLM.extract_answer_from_chunk LLMExamples.toy_loads LLMExamples.toy_float
         LLMExamples.toy_extract LLMExamples.configured "What is the salary?" "text")
  = Ok {| LLM.answer := "$150,000 per year"; LLM.confidence := LLM.Finite (19 # 20) |}
  /\ fst (LLM.extract_answer_from_chunk LLMExamples.toy_loads LLMExamples.toy_float
            LLMExamples.toy_extract LLMExamples.configured "Are you sure?" "text")
     = Ok {| LLM.answer := "$150,000"; LLM.confidence := LLM.Finite 1 |}
  /\ fst (LLM.extract_answer_from_chunk LLMExamples.toy_loads LLMExamples.toy_float
            LLMExamples.toy_extract LLMExamples.configured "How sure?" "text")
     = Ok {| LLM.answer := "$150,000"; LLM.confidence := LLM.NaN |}.
Proof. repeat split; vm_compute; reflexivity. Qed.

Lemma compress_answer_if_needed_budget_witness :
  Answerer.compress_answer_if_needed LLMExamples.toy_unavailable
    "The price is $100." 25 = "The price is $100."
  /\ CompressionSpec.is_truncation 10 LLMExamples.fifty_words
       (Answerer.compress_answer_if_needed LLMExamples.toy_unavailable
          LLMExamples.fifty_words 10)
  /\ CompressionSpec.is_truncation 10 LLMExamples.fifty_words
       (Answerer.compress_answer_if_needed LLMExamples.toy_same
          LLMExamples.fifty_words 10)
  /\ (LLM.word_count
        (Answerer.compress_answer_if_needed LLMExamples.toy_unavailable
           LLMExamples.fifty_words 10) <= 11)%nat
  /\ (exists r,
        LLM.compress_answer LLMExamples.toy_compress LLMExamples.configured
          LLMExamples.fifty_words = (Ok r, LLMExamples.ready)
        /\ CompressionSpec.is_truncation 25 LLMExamples.fifty_words r).
Proof.
  split; [|split; [|split; [|split]]].
  - apply (proj1 (compress_answer_if_needed_budget LLMExamples.toy_unavailable
                    LLMExamples.toy_compress "The price is $100." 25)).
    vm_compute. lia.
  - apply (proj1 (proj2 (compress_answer_if_needed_budget
                    LLMExamples.toy_unavailable LLMExamples.toy_compress
                    LLMExamples.fifty_words 10))).
    + vm_compute. lia.
    + reflexivity.
  - apply (proj1 (proj2 (proj2 (compress_answer_if_needed_budget
                    LLMExamples.toy_same LLMExamples.toy_compress
                    LLMExamples.fifty_words 10)))
             LLMExamples.fifty_words).
    + vm_compute. lia.
    + reflexivity.
    + vm_compute. lia.
  - apply (proj1 (proj2 (proj2 (proj2 (proj2 (proj2
             (compress_answer_if_needed_budget LLMExamples.toy_unavailable
                LLMExamples.toy_compress LLMExamples.fifty_words 10))))))).
    + reflexivity.
    + reflexivity.
  - apply (proj2 (proj2 (proj2 (proj2 (proj2 (proj2
             (compress_answer_if_needed_budget LLMExamples.toy_unavailable
                LLMExamples.toy_compress LLMExamples.fifty_words 10))))))
             LLMExamples.configured LLMExamples.ready).
    + vm_compute. lia.
    + reflexivity.
    + left. reflexivity.
Defined.

Example compress_fifty_words :
  Answerer.compress_answer_if_needed LLMExamples.toy_unavailable
    LLMExamples.fifty_words 10
  = "word word word word word word word word word word.".
Proof. vm_compute. reflexivity. Qed.

Lemma add_rejects_or_appends_witness :
  VectorStore.add VectorStoreExamples.one_vector [[3; 4]; [5; 6]] ["doc2"]
    = (Raise ValueError, VectorStoreExamples.one_vector)
  /\ VectorStore.add VectorStoreExamples.one_vector [[3; 4]; [5; 6; 7]] ["doc2"; "doc3"]
     = (Raise ValueError, VectorStoreExamples.one_vector)
  /\ (exists s',
        VectorStore.add VectorStoreExamples.one_vector [[3; 4]; [5; 6]] ["doc2"; "doc3"]
          = (Ok tt, s')
        /\ VectorStore.ntotal s' = 3%nat
        /\ length (VectorStore.metadata s') = 3%nat).
Proof.
  split; [|split].
  - apply (proj1 (add_rejects_or_appends Z string VectorStoreExamples.one_vector
                    [[3; 4]; [5; 6]] ["doc2"])).
    simpl. lia.
  - apply (proj1 (proj2 (add_rejects_or_appends Z string
                    VectorStoreExamples.one_vector
                    [[3; 4]; [5; 6; 7]] ["doc2"; "doc3"]))).
    exists [5; 6; 7]. split; [|simpl; lia].
    apply list_elem_of_In. simpl. right. left. reflexivity.
  - destruct (proj2 (proj2 (add_rejects_or_appends Z string
                    VectorStoreExamples.one_vector
                    [[3; 4]; [5; 6]] ["doc2"; "doc3"])))
      as (s' & Hadd & _ & Hn & Hm & _).
    + reflexivity.
    + intros v Hv. apply list_elem_of_In in Hv. simpl in Hv.
      destruct Hv as [<- | [<- | []]]; reflexivity.
    + exists s'. split; [exact Hadd|]. split; [exact Hn | exact Hm].
Defined.

(** * Further properties *)

(** ** The manifest: recording and forgetting files *)

Section RecordingFacts.

Import Manifest.

Variable md5_hexdigest : list Byte.byte -> string.

Abbreviation needs_indexing := (needs_indexing md5_hexdigest).
Abbreviation compute_file_hash := (compute_file_hash md5_hexdigest).
Abbreviation mark_indexed := (mark_indexed md5_hexdigest).

(** X1. Once a file was recorded by [mark_indexed] (hash left out, or
    the file's own hash passed), [needs_indexing] answers [True] for it
    exactly when the file still exists, its modification time differs
    from the recorded one and its bytes hash to another value. *)
Theorem needs_indexing_after_mark_indexed (fs fs' : filesystem) (m : manifest)
    (p : string) (chunks : Z) (h : option string) (now : string) (s : stat_result) :
  fs_stat fs p = Some s ->
  h = None \/ h = Some (compute_file_hash fs p) ->
  needs_indexing fs' (snd (mark_indexed Healthy fs m p chunks h now)) p = true
  <-> fs_exists fs' p = true
      /\ exists s', fs_stat fs' p = Some s'
                    /\ st_mtime s' <> st_mtime s
                    /\ compute_file_hash fs' p <> compute_file_hash fs p.
Proof.
  intros Hs Hh.
  rewrite (mark_indexed_healthy md5_hexdigest _ _ _ _ _ _ _ Hs).
  unfold Manifest.needs_indexing, Manifest.needs_indexing_counted, get_file. simpl.
  rewrite lookup_insert_eq. rewrite (hash_or_compute_own md5_hexdigest _ _ _ Hh).
  destruct (fs_exists fs' p); simpl.
  - destruct (fs_stat fs' p) as [s'|]; simpl.
    + case_bool_decide as Hm; simpl.
      * split; [discriminate|]. intros (_ & s2 & [= <-] & Hne & _). congruence.
      * case_bool_decide as Hc; simpl.
        -- split; [discriminate|]. intros (_ & s2 & _ & _ & Hne). congruence.
        -- split; [|reflexivity]. intros _. split; [reflexivity|].
           exists s'. repeat split; congruence.
    + split; [discriminate|]. intros (_ & s2 & [=] & _).
  - split; [discriminate|]. intros [[=] _].
Qed.


(** X3. [mark_deleted] removes the record of the path and nothing
    else; afterwards [needs_indexing] answers for that path whether the
    file exists; on a path without record it changes nothing. *)
Theorem mark_deleted_forgets (fs : filesystem) (m : manifest) (p : string) :
  fst (mark_deleted Healthy m p) = Ok tt
  /\ get_file (snd (mark_deleted Healthy m p)) p = None
  /\ (forall q, q <> p -> get_file (snd (mark_deleted Healthy m p)) q = get_file m q)
  /\ metadata (snd (mark_deleted Healthy m p)) = metadata m
  /\ needs_indexing fs (snd (mark_deleted Healthy m p)) p = fs_exists fs p
  /\ (get_file m p = None -> snd (mark_deleted Healthy m p) = m).
Proof.
  unfold mark_deleted, get_file. simpl.
  split; [reflexivity|]. split; [apply lookup_delete_eq|].
  split; [intros q Hq; apply lookup_delete_ne; congruence|].
  split; [reflexivity|]. split.
  - unfold Manifest.needs_indexing, Manifest.needs_indexing_counted, get_file. simpl.
    rewrite lookup_delete_eq. destruct (fs_exists fs p); reflexivity.
  - intros Hn. destruct m as [fm md]. simpl in *. f_equal.
    apply delete_id, Hn.
Qed.

End RecordingFacts.

(** ** The manifest: deleting in batches *)

Section BatchFacts.

Import Manifest.

Lemma delete_counted_spec (paths : list string) (n : Z) (fm : gmap string file_row) :
  (forall p, snd (foldl delete_counted (n, fm) paths) !! p
             = if decide (p ∈ paths) then None else fm !! p)
  /\ fst (foldl delete_counted (n, fm) paths)
     = n + Z.of_nat (base.size fm)
       - Z.of_nat (base.size (snd (foldl delete_counted (n, fm) paths))).
Proof.
  revert n fm. induction paths as [|q paths IH]; intros n fm.
  - cbn [foldl fst snd]. split; [|lia]. intros p.
    destruct (decide (p ∈ [])) as [Hin|Hin]; [|reflexivity].
    apply elem_of_nil in Hin. contradiction.
  - cbn [foldl].
    destruct (fm !! q) as [r|] eqn:E.
    + assert (Hstep : delete_counted (n, fm) q = (n + 1, delete q fm))
        by (unfold delete_counted; cbn [fst snd]; rewrite E; reflexivity).
      rewrite Hstep.
      destruct (IH (n + 1) (delete q fm)) as [IH1 IH2]. split.
      * intros p. rewrite IH1.
        destruct (decide (p ∈ paths)) as [Hin|Hin];
          destruct (decide (p ∈ q :: paths)) as [Hin2|Hin2]; try reflexivity.
        -- exfalso. apply Hin2. right. exact Hin.
        -- apply elem_of_cons in Hin2 as [->|?]; [|contradiction].
           apply lookup_delete_eq.
        -- apply lookup_delete_ne. intros ->. apply Hin2. left.
      * rewrite IH2. rewrite (map_size_delete_Some q fm (mk_is_Some _ _ E)).
        pose proof (map_size_ne_0_lookup_2 fm q (mk_is_Some _ _ E)) as Hpos.
        lia.
    + assert (Hstep : delete_counted (n, fm) q = (n, fm))
        by (unfold delete_counted; cbn [fst snd]; rewrite E; reflexivity).
      rewrite Hstep.
      destruct (IH n fm) as [IH1 IH2]. split; [|exact IH2].
      intros p. rewrite IH1.
      destruct (decide (p ∈ paths)) as [Hin|Hin];
        destruct (decide (p ∈ q :: paths)) as [Hin2|Hin2]; try reflexivity.
      * exfalso. apply Hin2. right. exact Hin.
      * apply elem_of_cons in Hin2 as [->|?]; [|contradiction]. exact E.
Qed.

Lemma mark_deleted_batch_healthy (m : manifest) (paths : list string) :
  (forall p, files (snd (mark_deleted_batch Healthy m paths)) !! p
             = if decide (p ∈ paths) then None else files m !! p)
  /\ fst (mark_deleted_batch Healthy m paths)
     = Ok (count_files m - count_files (snd (mark_deleted_batch Healthy m paths))).
Proof.
  split.
  - intros p. simpl. apply (delete_counted_spec paths 0 (files m)).
  - simpl. unfold count_files. simpl. f_equal.
    rewrite (proj2 (delete_counted_spec paths 0 (files m))). lia.
Qed.

(** X4. [mark_deleted_batch] removes exactly the records of the listed
    paths, keeps the metadata, and returns the number of records that
    were removed, so a path without record or listed twice counts once
    at most; when the storage fails it raises and changes nothing. *)
Theorem mark_deleted_batch_effect (st : storage) (m : manifest) (paths : list string) :
  (st <> Healthy ->
     snd (mark_deleted_batch st m paths) = m
     /\ exists e, fst (mark_deleted_batch st m paths) = Raise e)
  /\ (forall p, files (snd (mark_deleted_batch Healthy m paths)) !! p
                = if decide (p ∈ paths) then None else files m !! p)
  /\ metadata (snd (mark_deleted_batch Healthy m paths)) = metadata m
  /\ fst (mark_deleted_batch Healthy m paths)
     = Ok (count_files m - count_files (snd (mark_deleted_batch Healthy m paths))).
Proof.
  split; [|split; [|split]].
  - intros Hst. destruct st; [congruence| |]; simpl; eauto.
  - apply mark_deleted_batch_healthy.
  - reflexivity.
  - apply mark_deleted_batch_healthy.
Qed.

(** X5. Deleting in one batch the paths that [find_deleted_files]
    reports for a set of current files returns their number, leaves as
    indexed paths exactly the indexed paths that are current, leaves
    nothing for [find_deleted_files] to report, and keeps the records of
    the current files. *)
Theorem delete_missing_files (m : manifest) (current : gset string) :
  let gone := elements (find_deleted_files m current) in
  fst (mark_deleted_batch Healthy m gone) = Ok (Z.of_nat (length gone))
  /\ get_indexed_filepaths (snd (mark_deleted_batch Healthy m gone))
     = get_indexed_filepaths m ∩ current
  /\ find_deleted_files (snd (mark_deleted_batch Healthy m gone)) current = ∅
  /\ forall p, p ∈ current ->
       get_file (snd (mark_deleted_batch Healthy m gone)) p = get_file m p.
Proof.
  intros gone.
  destruct (mark_deleted_batch_healthy m gone) as (Hl & Hn).
  assert (Hgone : forall p, p ∈ gone <-> p ∈ dom (files m) /\ p ∉ current).
  { intros p. unfold gone, find_deleted_files, get_indexed_filepaths.
    rewrite elem_of_elements. set_solver. }
  assert (Hdom : get_indexed_filepaths (snd (mark_deleted_batch Healthy m gone))
                 = get_indexed_filepaths m ∩ current).
  { unfold get_indexed_filepaths. apply set_eq. intros p.
    rewrite elem_of_intersection, !elem_of_dom, Hl.
    destruct (decide (p ∈ gone)) as [Hin|Hin].
    - apply Hgone in Hin as [Hd Hc]. split; [intros [? [=]]|tauto].
    - split.
      + intros Hs. split; [exact Hs|].
        destruct (decide (p ∈ current)); [assumption|].
        exfalso. apply Hin, Hgone. rewrite elem_of_dom. tauto.
      + tauto. }
  split; [|split; [exact Hdom|split]].
  - rewrite Hn. f_equal. unfold count_files.
    assert (Hsz : forall fm : gmap string file_row,
              base.size (dom fm : gset string) = base.size fm)
      by (intros fm; apply size_dom).
    rewrite <- !Hsz.
    change (dom (files (snd (mark_deleted_batch Healthy m gone))))
      with (get_indexed_filepaths (snd (mark_deleted_batch Healthy m gone))).
    rewrite Hdom. unfold gone, find_deleted_files, get_indexed_filepaths.
    pose proof (size_difference_alt (dom (files m) : gset string) current) as Hd.
    pose proof (subseteq_size ((dom (files m) : gset string) ∩ current) (dom (files m))
                  (intersection_subseteq_l _ _)) as Hle.
    change (length (elements ((dom (files m) : gset string) ∖ current)))
      with (base.size ((dom (files m) : gset string) ∖ current)).
    lia.
  - unfold find_deleted_files. rewrite Hdom. apply set_eq. intros p.
    rewrite elem_of_difference, elem_of_intersection, elem_of_empty. tauto.
  - intros p Hp. unfold get_file. rewrite Hl.
    rewrite decide_False; [reflexivity|]. intros Hin. apply Hgone in Hin. tauto.
Qed.

End BatchFacts.

(** ** The manifest: statistics *)

Section StatsFacts.

Import Manifest ManifestSpec.

Variable md5_hexdigest : list Byte.byte -> string.
Variable megabytes : Type.
Variable round_mb : Z -> megabytes.

Abbreviation mark_indexed := (mark_indexed md5_hexdigest).


Lemma sum_column_delete (col : file_row -> option Z) (fm : gmap string file_row)
    (p : string) :
  sum_column col (delete p fm) = sum_column col fm - column_of col (fm !! p).
Proof.
  destruct (fm !! p) as [r|] eqn:E; simpl.
  - unfold sum_column.
    rewrite (map_fold_delete_L _ _ p r fm); [lia | | exact E].
    intros. lia.
  - rewrite delete_id by exact E. lia.
Qed.


Lemma sum_column_empty (col : file_row -> option Z) : sum_column col ∅ = 0.
Proof. unfold sum_column. apply map_fold_empty. Qed.


(** X7. After [mark_deleted] the statistics count one file less only
    if the path had a record, and the totals of chunks and of bytes lose
    the share of that record. *)
Theorem get_stats_after_mark_deleted (m : manifest) (p : string) :
  let m' := snd (mark_deleted Healthy m p) in
  total_files (get_stats round_mb m')
    = total_files (get_stats round_mb m) - (if file_exists m p then 1 else 0)
  /\ total_chunks (get_stats round_mb m')
    = total_chunks (get_stats round_mb m) - column_of chunk_count (get_file m p)
  /\ total_size_mb (get_stats round_mb m')
    = round_mb (sum_column size (files m) - column_of size (get_file m p))
  /\ last_full_scan (get_stats round_mb m') = last_full_scan (get_stats round_mb m).
Proof.
  simpl. unfold count_files, file_exists, get_file. simpl.
  repeat split.
  - destruct (files m !! p) as [r|] eqn:E.
    + pose proof (map_size_delete_Some p (files m) (mk_is_Some _ _ E)) as Hd.
      pose proof (map_size_ne_0_lookup_2 (files m) p (mk_is_Some _ _ E)) as Hpos.
      rewrite bool_decide_eq_true_2 by eauto. lia.
    + rewrite delete_id by exact E.
      rewrite bool_decide_eq_false_2 by (intros [x Hx]; discriminate). lia.
  - rewrite sum_column_delete. reflexivity.
  - rewrite sum_column_delete. reflexivity.
Qed.

End StatsFacts.

(** ** The manifest: queries with [LIKE] *)

Section LikeFacts.

Import Manifest ManifestSpec.

Lemma chars_lower (s : string) :
  list_ascii_of_string (PyStr.lower s)
  = List.map PyStr.lower_char (list_ascii_of_string s).
Proof.
  unfold PyStr.lower. induction s as [|c s IH]; simpl; [reflexivity|].
  rewrite IH. reflexivity.
Qed.

Lemma chars_append (a b : string) :
  list_ascii_of_string (a ++ b)
  = (list_ascii_of_string a ++ list_ascii_of_string b)%list.
Proof.
  induction a as [|c a IH]; [reflexivity|].
  change (list_ascii_of_string (String c (a ++ b))
          = (c :: list_ascii_of_string a ++ list_ascii_of_string b)%list).
  simpl. rewrite IH. reflexivity.
Qed.

Lemma chars_inj (a b : string) :
  list_ascii_of_string a = list_ascii_of_string b -> a = b.
Proof.
  intros H. rewrite <- (string_of_list_ascii_of_string a),
    <- (string_of_list_ascii_of_string b), H. reflexivity.
Qed.

Lemma sql_like_percent (pat text : list ascii) :
  sql_like ("%"%char :: pat) text = true
  <-> exists pre suf, text = (pre ++ suf)%list /\ sql_like pat suf = true.
Proof.
  cbn [sql_like]. change (Ascii.eqb "%" "%") with true. cbv iota.
  induction text as [|x text IH].
  - rewrite orb_false_r. split.
    + intros H. exists [], []. auto.
    + intros (pre & suf & E & H). symmetry in E.
      apply app_eq_nil in E as [-> ->]. exact H.
  - rewrite orb_true_iff, IH. split.
    + intros [H | (pre & suf & -> & H)].
      * exists [], (x :: text). auto.
      * exists (x :: pre), suf. auto.
    + intros (pre & suf & E & H). destruct pre as [|y pre]; simpl in E.
      * left. subst suf. exact H.
      * right. injection E as -> ->. eauto.
Qed.

Lemma sql_like_plain (pat text : list ascii) :
  forallb plain_char pat = true ->
  sql_like pat text = true
  <-> List.map PyStr.lower_char pat = List.map PyStr.lower_char text.
Proof.
  revert text. induction pat as [|c pat IH]; intros text Hp.
  - destruct text; simpl; split; congruence.
  - simpl in Hp. apply andb_true_iff in Hp as [Hc Hp].
    unfold plain_char in Hc. apply andb_true_iff in Hc as [Hc1 Hc2].
    apply negb_true_iff in Hc1, Hc2.
    cbn [sql_like]. rewrite Hc1.
    destruct text as [|x text]; [simpl; split; congruence|].
    rewrite Hc2. cbn [orb List.map]. rewrite andb_true_iff, (IH text Hp).
    rewrite Ascii.eqb_eq. split.
    + intros [-> ->]. reflexivity.
    + intros H. injection H as H1 H2. auto.
Qed.

Lemma sql_like_all (text : list ascii) : sql_like ["%"%char] text = true.
Proof.
  apply sql_like_percent. exists text, []. rewrite app_nil_r. auto.
Qed.

Lemma sql_like_prefix (lit text : list ascii) :
  forallb plain_char lit = true ->
  sql_like (lit ++ ["%"%char]) text = true
  <-> exists rest, List.map PyStr.lower_char text
                   = (List.map PyStr.lower_char lit ++ rest)%list.
Proof.
  revert text. induction lit as [|c lit IH]; intros text Hp.
  - simpl app. rewrite sql_like_all. split; eauto.
  - simpl in Hp. apply andb_true_iff in Hp as [Hc Hp].
    unfold plain_char in Hc. apply andb_true_iff in Hc as [Hc1 Hc2].
    apply negb_true_iff in Hc1, Hc2.
    change ((c :: lit) ++ ["%"%char])%list with (c :: (lit ++ ["%"%char]))%list.
    cbn [sql_like]. rewrite Hc1.
    destruct text as [|x text].
    + split; [discriminate|]. intros [rest H]. discriminate.
    + rewrite Hc2. cbn [orb List.map]. rewrite andb_true_iff, (IH text Hp).
      rewrite Ascii.eqb_eq. split.
      * intros [-> [rest ->]]. exists rest. reflexivity.
      * intros [rest H]. simpl in H. injection H as H1 H2. eauto.
Qed.

Lemma sql_like_any_later (pat text : list ascii) (x : ascii) :
  sql_like ("%"%char :: pat) text = true ->
  sql_like ("%"%char :: pat) (x :: text) = true.
Proof.
  rewrite !sql_like_percent. intros (pre & suf & -> & H).
  exists (x :: pre), suf. auto.
Qed.

Lemma sql_like_folded (pat text : list ascii) :
  List.map PyStr.lower_char pat = List.map PyStr.lower_char text ->
  sql_like pat text = true.
Proof.
  revert text. induction pat as [|c pat IH]; intros [|x text] H;
    try discriminate; [reflexivity|].
  cbn [List.map] in H. injection H as H1 H2.
  destruct (Ascii.eqb c "%") eqn:Ec.
  - apply Ascii.eqb_eq in Ec. subst c.
    apply sql_like_any_later, sql_like_percent.
    exists [], text. auto.
  - cbn [sql_like]. rewrite Ec, H1, Ascii.eqb_refl, orb_true_r. simpl.
    auto.
Qed.

Lemma sql_like_prefix_folded (lit text rest : list ascii) :
  List.map PyStr.lower_char text = (List.map PyStr.lower_char lit ++ rest)%list ->
  sql_like (lit ++ ["%"%char]) text = true.
Proof.
  revert text. induction lit as [|c lit IH]; intros text H.
  - apply sql_like_all.
  - destruct text as [|x text]; [discriminate|].
    cbn [List.map app] in H. injection H as H1 H2.
    change ((c :: lit) ++ ["%"%char])%list with (c :: (lit ++ ["%"%char]))%list.
    destruct (Ascii.eqb c "%") eqn:Ec.
    + apply Ascii.eqb_eq in Ec. subst c.
      apply sql_like_any_later, sql_like_percent.
      exists [], text. auto.
    + cbn [sql_like]. rewrite Ec, H1, Ascii.eqb_refl, orb_true_r. simpl.
      auto.
Qed.

Lemma like_suffix_folded (text lit : string) :
  ends_with_folded text lit -> like text ("%" ++ lit) = true.
Proof.
  intros [pre E]. unfold like.
  change (list_ascii_of_string ("%" ++ lit))
    with ("%"%char :: list_ascii_of_string lit).
  apply (f_equal list_ascii_of_string) in E.
  rewrite chars_append, !chars_lower in E.
  apply sql_like_percent.
  exists (List.firstn (length (list_ascii_of_string pre)) (list_ascii_of_string text)),
         (List.skipn (length (list_ascii_of_string pre)) (list_ascii_of_string text)).
  split; [symmetry; apply List.firstn_skipn|].
  apply sql_like_folded.
  rewrite <- List.skipn_map, E.
  rewrite List.skipn_app, List.skipn_all, Nat.sub_diag. reflexivity.
Qed.

Lemma like_prefix_folded (text lit : string) :
  starts_with_folded text lit -> like text (lit ++ "%") = true.
Proof.
  intros [rest E]. unfold like. rewrite chars_append.
  apply (f_equal list_ascii_of_string) in E.
  rewrite chars_append, !chars_lower in E.
  exact (sql_like_prefix_folded _ _ _ E).
Qed.

Lemma like_suffix (text lit : string) :
  plain lit = true ->
  like text ("%" ++ lit) = true <-> ends_with_folded text lit.
Proof.
  intros Hp. unfold like, ends_with_folded.
  change (list_ascii_of_string ("%" ++ lit))
    with ("%"%char :: list_ascii_of_string lit).
  rewrite sql_like_percent. split.
  - intros (pre & suf & E & H).
    apply sql_like_plain in H; [|exact Hp].
    exists (string_of_list_ascii (List.map PyStr.lower_char pre)).
    apply chars_inj.
    rewrite chars_append, !chars_lower, list_ascii_of_string_of_list_ascii, E, H.
    apply List.map_app.
  - intros [pre E].
    apply (f_equal list_ascii_of_string) in E.
    rewrite chars_append, !chars_lower in E.
    exists (List.firstn (length (list_ascii_of_string pre)) (list_ascii_of_string text)),
           (List.skipn (length (list_ascii_of_string pre)) (list_ascii_of_string text)).
    split; [symmetry; apply List.firstn_skipn|].
    apply sql_like_plain; [exact Hp|].
    rewrite <- List.skipn_map, E.
    rewrite List.skipn_app, List.skipn_all, Nat.sub_diag. reflexivity.
Qed.

Lemma like_prefix (text lit : string) :
  plain lit = true ->
  like text (lit ++ "%") = true <-> starts_with_folded text lit.
Proof.
  intros Hp. unfold like, starts_with_folded.
  rewrite chars_append.
  change (list_ascii_of_string "%") with ["%"%char].
  rewrite sql_like_prefix by exact Hp. split.
  - intros [rest E]. exists (string_of_list_ascii rest).
    apply chars_inj.
    rewrite chars_append, !chars_lower, list_ascii_of_string_of_list_ascii.
    exact E.
  - intros [rest E]. exists (list_ascii_of_string rest).
    apply (f_equal list_ascii_of_string) in E.
    rewrite chars_append, !chars_lower in E. exact E.
Qed.

(** X8. [get_files_by_extension] returns records of the manifest only,
    and every record whose file name ends with the extension, a dot put
    before it when it has none, letters of either case being the same;
    when the extension holds neither [%] nor [_] it returns no other
    record. *)
Theorem get_files_by_extension_suffix (m : manifest) (extension : string)
    (p : string) (r : file_row) :
  ((p, r) ∈ get_files_by_extension m extension -> get_file m p = Some r)
  /\ (get_file m p = Some r ->
      ends_with_folded (filename r) (dotted extension) ->
      (p, r) ∈ get_files_by_extension m extension)
  /\ (plain extension = true ->
      (p, r) ∈ get_files_by_extension m extension ->
      ends_with_folded (filename r) (dotted extension)).
Proof.
  unfold get_files_by_extension, get_file.
  rewrite list_elem_of_In, List.filter_In, <- list_elem_of_In, elem_of_map_to_list.
  cbn [fst snd]. repeat split.
  - tauto.
  - tauto.
  - apply like_suffix_folded. assumption.
  - intros Hp [_ H]. apply like_suffix in H; [exact H|].
    unfold dotted. destruct (PyStr.startswith extension "."); [exact Hp|].
    unfold plain in *. rewrite chars_append. simpl. exact Hp.
Qed.

(** X9. [get_files_in_directory] returns records of the manifest only,
    and every record whose path begins with the directory text, letters
    of either case being the same; when that text holds neither [%] nor
    [_] it returns no other record. *)
Theorem get_files_in_directory_prefix (m : manifest) (directory : string)
    (p : string) (r : file_row) :
  ((p, r) ∈ get_files_in_directory m directory -> get_file m p = Some r)
  /\ (get_file m p = Some r ->
      starts_with_folded p directory ->
      (p, r) ∈ get_files_in_directory m directory)
  /\ (plain directory = true ->
      (p, r) ∈ get_files_in_directory m directory ->
      starts_with_folded p directory).
Proof.
  unfold get_files_in_directory, get_file.
  rewrite list_elem_of_In, List.filter_In, <- list_elem_of_In, elem_of_map_to_list.
  cbn [fst snd]. repeat split.
  - tauto.
  - tauto.
  - apply like_prefix_folded. assumption.
  - intros Hp [_ H]. apply like_prefix in H; assumption.
Qed.

End LikeFacts.

(** ** The manifest: metadata *)

Section MetadataFacts.

Import Manifest.

Variable megabytes : Type.
Variable round_mb : Z -> megabytes.

(** X10. [set_metadata] followed by [get_metadata] of the same key gives
    the value back; the other keys and the file records stay; when the
    storage fails, [set_metadata] raises and changes nothing. *)
Theorem set_metadata_lookup (st : storage) (m : manifest) (key value : string) :
  (st = Healthy ->
     fst (set_metadata st m key value) = Ok tt
     /\ get_metadata (snd (set_metadata st m key value)) key = Some value
     /\ (forall k, k <> key ->
           get_metadata (snd (set_metadata st m key value)) k = get_metadata m k)
     /\ files (snd (set_metadata st m key value)) = files m)
  /\ (st <> Healthy ->
      snd (set_metadata st m key value) = m
      /\ exists e, fst (set_metadata st m key value) = Raise e).
Proof.
  destruct st; simpl; split; try congruence; intros _.
  - unfold get_metadata. simpl. repeat split.
    + apply lookup_insert_eq.
    + intros k Hk. apply lookup_insert_ne. congruence.
  - eauto.
  - eauto.
Qed.

(** X11. The time recorded by [mark_full_scan_complete] is what
    [get_metadata], [get_stats] and [export_to_json] report as the last
    full scan; the exported files and the other statistics stay. *)
Theorem mark_full_scan_complete_reported (m : manifest) (now : string) :
  get_metadata (snd (mark_full_scan_complete Healthy m now)) "last_full_scan"
  = Some now
  /\ last_full_scan (get_stats round_mb (snd (mark_full_scan_complete Healthy m now)))
     = Some now
  /\ x_last_full_scan (export_to_json (snd (mark_full_scan_complete Healthy m now)))
     = Some now
  /\ x_files (export_to_json (snd (mark_full_scan_complete Healthy m now)))
     = x_files (export_to_json m)
  /\ total_files (get_stats round_mb (snd (mark_full_scan_complete Healthy m now)))
     = total_files (get_stats round_mb m)
  /\ total_chunks (get_stats round_mb (snd (mark_full_scan_complete Healthy m now)))
     = total_chunks (get_stats round_mb m).
Proof.
  simpl. unfold get_metadata. simpl. rewrite lookup_insert_eq. repeat split.
Qed.

End MetadataFacts.

(** ** The manifest: import, then export; migration *)

Section ImportExportFacts.

Import Manifest ManifestSpec.



(** X13. [migrate_json_to_sqlite] answers [True] exactly when the JSON
    file could be read, the storage works and the file could be renamed,
    and then the manifest holds the import and the file was renamed.
    When it answers [False] the file was not renamed, and the manifest is
    as before unless only the renaming failed: then the import stays. *)
Theorem migrate_json_to_sqlite_outcome (st : storage) (file : json_manifest)
    (rename_ok : bool) (m : manifest) :
  let '(ok, m', renamed) := migrate_json_to_sqlite st file rename_ok m in
  renamed = ok
  /\ (ok = true <->
        st = Healthy /\ rename_ok = true /\ exists data, file = Loaded data)
  /\ (ok = true ->
        exists data, file = Loaded data
          /\ m' = snd (import_from_json Healthy m data))
  /\ (ok = false ->
        m' = m
        \/ (st = Healthy /\ rename_ok = false
            /\ exists data, file = Loaded data
                 /\ m' = snd (import_from_json Healthy m data))).
Proof.
  destruct file as [| |data]; simpl.
  - repeat split; auto; try discriminate. intros (_ & _ & d & [=]).
  - repeat split; auto; try discriminate. intros (_ & _ & d & [=]).
  - destruct st; simpl.
    + destruct rename_ok.
      * split; [reflexivity|]. split; [split; eauto|].
        split; [eauto | discriminate].
      * split; [reflexivity|]. split; [split; [discriminate | intros (_ & [=] & _)]|].
        split; [discriminate|]. intros _. right. eauto.
    + repeat split; auto; try discriminate. intros ([=] & _).
    + repeat split; auto; try discriminate. intros ([=] & _).
Qed.

End ImportExportFacts.

(** ** The manifest: listings in order *)

Section OrderFacts.

Import Manifest.

Lemma filter_sublist {A : Type} (keep : A -> bool) (l : list A) :
  List.filter keep l `sublist_of` l.
Proof.
  induction l as [|x l IH]; simpl; [constructor|].
  destruct (keep x); [apply sublist_skip | apply sublist_cons]; exact IH.
Qed.

Lemma ascii_compare_trans (a b c : ascii) (o : comparison) :
  Ascii.compare a b = o -> Ascii.compare b c = o -> Ascii.compare a c = o.
Proof.
  unfold Ascii.compare. intros H1 H2. destruct o.
  - apply N.compare_eq_iff in H1. apply N.compare_eq_iff in H2.
    apply N.compare_eq_iff. congruence.
  - apply N.compare_lt_iff in H1. apply N.compare_lt_iff in H2.
    apply N.compare_lt_iff. exact (N.lt_trans _ _ _ H1 H2).
  - apply N.compare_gt_iff in H1. apply N.compare_gt_iff in H2.
    apply N.compare_gt_iff. exact (N.lt_trans _ _ _ H2 H1).
Qed.

Lemma string_leb_trans (s1 s2 s3 : string) :
  String.leb s1 s2 = true -> String.leb s2 s3 = true -> String.leb s1 s3 = true.
Proof.
  unfold String.leb. revert s2 s3.
  induction s1 as [|a s1 IH]; intros [|b s2] [|c s3]; simpl; try congruence.
  destruct (Ascii.compare a b) eqn:Eab; destruct (Ascii.compare b c) eqn:Ebc;
    try congruence.
  - rewrite (ascii_compare_trans _ _ _ _ Eab Ebc). apply IH.
  - apply Ascii.compare_eq_iff in Eab. subst b. rewrite Ebc. auto.
  - apply Ascii.compare_eq_iff in Ebc. subst c. rewrite Eab. auto.
  - rewrite (ascii_compare_trans _ _ _ _ Eab Ebc). auto.
Qed.

Lemma newer_first_total : Total newer_first.
Proof.
  intros [k1 r1] [k2 r2]. unfold newer_first, indexed_at_geb. simpl.
  destruct (indexed_at r1) as [x|], (indexed_at r2) as [y|]; simpl; auto.
  destruct (String.leb_total x y) as [H|H]; rewrite H; simpl; auto.
Qed.

Lemma newer_first_trans : Transitive newer_first.
Proof.
  intros [k1 r1] [k2 r2] [k3 r3]. unfold newer_first, indexed_at_geb. simpl.
  destruct (indexed_at r1) as [x|], (indexed_at r2) as [y|],
    (indexed_at r3) as [z|]; simpl; auto; try contradiction.
  intros H1 H2. apply Is_true_true in H1, H2. apply Is_true_true.
  exact (string_leb_trans _ _ _ H2 H1).
Qed.

(** X14. [get_all_files] lists every record of the manifest once and no
    other row, as many rows as [get_stats] counts files, and each row was
    indexed no earlier than every row after it, rows never indexed coming
    last. *)
Theorem get_all_files_newest_first (m : manifest) :
  StronglySorted newer_first (get_all_files m)
  /\ NoDup (get_all_files m).*1
  /\ (forall k r, (k, r) ∈ get_all_files m <-> get_file m k = Some r)
  /\ Z.of_nat (length (get_all_files m)) = count_files m.
Proof.
  unfold get_all_files, get_file, count_files.
  split; [|split; [|split]].
  - exact (@StronglySorted_merge_sort _ newer_first _ newer_first_trans
             newer_first_total _).
  - rewrite merge_sort_Permutation. apply NoDup_fst_map_to_list.
  - intros k r. rewrite merge_sort_Permutation. apply elem_of_map_to_list.
  - rewrite merge_sort_Permutation, length_map_to_list. reflexivity.
Qed.

(** X15. [get_files_modified_since] lists, each once and newest first,
    exactly the records whose time of indexing is a text greater than the
    given one; a record without time of indexing is never listed, and
    every row listed is a row of [get_all_files]. *)
Theorem get_files_modified_since_newer (m : manifest) (since : string) :
  StronglySorted newer_first (get_files_modified_since m since)
  /\ NoDup (get_files_modified_since m since).*1
  /\ (forall k r,
        (k, r) ∈ get_files_modified_since m since
        <-> get_file m k = Some r
            /\ exists t, indexed_at r = Some t /\ String.ltb since t = true)
  /\ get_files_modified_since m since ⊆+ get_all_files m.
Proof.
  unfold get_files_modified_since, get_all_files, get_file.
  split; [|split; [|split]].
  - exact (@StronglySorted_merge_sort _ newer_first _ newer_first_trans
             newer_first_total _).
  - rewrite merge_sort_Permutation.
    apply (sublist_NoDup _ (map_to_list (files m)).*1);
      [apply NoDup_fst_map_to_list|].
    apply fmap_sublist, filter_sublist.
  - intros k r. rewrite merge_sort_Permutation.
    rewrite list_elem_of_In, List.filter_In, <- list_elem_of_In, elem_of_map_to_list.
    simpl. split.
    + intros [H1 H2]. split; [exact H1|].
      destruct (indexed_at r) as [t|]; [eauto | discriminate].
    + intros [H1 (t & Ht & Hlt)]. rewrite Ht. auto.
  - rewrite !merge_sort_Permutation. apply sublist_submseteq, filter_sublist.
Qed.

End OrderFacts.

(** ** The query filters: what [parse_query] returns *)

Section MoreParseFacts.

Import DateTime QueryFilters ParseSpec.

Lemma lstrip_by_headed p s : headed p (PyStr.lstrip_by p s).
Proof.
  induction s as [|c s IH]; simpl; [exact I|].
  destruct (p c) eqn:E; [exact IH | exact E].
Qed.

Lemma rstrip_by_headed p s : headed p s -> headed p (PyStr.rstrip_by p s).
Proof.
  destruct s as [|c s]; simpl; [auto|]. intros H.
  destruct (PyStr.rstrip_by p s); [rewrite H|]; exact H.
Qed.

Lemma lstrip_by_of_headed p s : headed p s -> PyStr.lstrip_by p s = s.
Proof. destruct s as [|c s]; simpl; [auto|]. intros ->. reflexivity. Qed.

Lemma rstrip_by_idem p s :
  PyStr.rstrip_by p (PyStr.rstrip_by p s) = PyStr.rstrip_by p s.
Proof.
  induction s as [|c s IH]; simpl; [reflexivity|].
  destruct (PyStr.rstrip_by p s) as [|a r] eqn:E.
  - destruct (p c) eqn:Ec; simpl; [reflexivity|]. rewrite Ec. reflexivity.
  - change (PyStr.rstrip_by p (String c (String a r)))
      with (match PyStr.rstrip_by p (String a r) with
            | EmptyString => if p c then EmptyString else String c EmptyString
            | r0 => String c r0
            end).
    rewrite IH. reflexivity.
Qed.

Lemma strip_idem s : PyStr.strip (PyStr.strip s) = PyStr.strip s.
Proof.
  unfold PyStr.strip.
  rewrite (lstrip_by_of_headed _ (PyStr.rstrip_by _ _)).
  - apply rstrip_by_idem.
  - apply rstrip_by_headed, lstrip_by_headed.
Qed.

Lemma extract_file_types_elem ql table acc ext :
  ext ∈ fst (foldl (extract_file_types ql) acc table)
  <-> ext ∈ fst acc
      \/ exists pattern exts,
           (pattern, exts) ∈ table
           /\ is_Some (Regex.search pattern ql) /\ ext ∈ exts.
Proof.
  revert acc. induction table as [|[pat exts] table IH]; intros acc; simpl.
  - split; [auto|]. intros [H|(? & ? & H & _)]; [exact H | inversion H].
  - rewrite IH. unfold extract_file_types. simpl.
    destruct (Regex.search pat ql) as [m|] eqn:E; simpl.
    + rewrite elem_of_app. split.
      * intros [[H|H]|(p' & e' & Hin & Hs & He)]; [auto| |].
        -- right. exists pat, exts. rewrite E. repeat split; eauto. left.
        -- right. exists p', e'. repeat split; auto. right. exact Hin.
      * intros [H|(p' & e' & Hin & Hs & He)]; [auto|].
        apply elem_of_cons in Hin as [[= -> ->]|Hin]; [auto|].
        right. eauto.
    + split.
      * intros [H|(p' & e' & Hin & Hs & He)]; [auto|].
        right. exists p', e'. repeat split; auto. right. exact Hin.
      * intros [H|(p' & e' & Hin & Hs & He)]; [auto|].
        apply elem_of_cons in Hin as [[= -> ->]|Hin].
        -- rewrite E in Hs. destruct Hs as [? [=]].
        -- right. eauto.
Qed.

Lemma extract_relative_bounds now ql q table a b q' :
  extract_relative_date now ql q table = (a, b, q') ->
  is_Some b -> is_Some a.
Proof.
  revert a b q'. induction table as [|[pat df] table IH]; intros a b q'; simpl.
  - intros [= <- <- _] [? [=]].
  - destruct (Regex.search pat ql) as [m|]; [|apply IH].
    destruct df as [f|f].
    + destruct (f now) as [[x y]|]; intros [= <- <- _]; eauto.
    + destruct (f now (Regex.group ql m 1)) as [[x y]|]; intros [= <- <- _]; eauto.
Qed.

Lemma parse_query_shape now q f :
  parse_query now q = Ok f ->
  original_query f = q
  /\ file_types f
     = remove_dups
         (fst (foldl (extract_file_types (PyStr.lower q)) ([], q) FILE_TYPE_PATTERNS))
  /\ (is_Some (date_to f) -> is_Some (date_from f))
  /\ (exists q', query f = PyStr.strip q')
  /\ (exists d, directory f = d /\ truthy_opt d = bool_decide (is_Some d)).
Proof.
  unfold parse_query.
  destruct (foldl _ _ _) as [types q1].
  destruct (extract_relative_date _ _ _ _) as [[from1 to1] q2] eqn:E1.
  pose proof (extract_relative_bounds _ _ _ _ _ _ _ E1) as Hb. clear E1.
  repeat match goal with
         | |- context [match ?x with _ => _ end] => destruct x eqn:?
         end;
    try discriminate;
    intros [= <-]; simpl;
    repeat match goal with
           | H : context [match ?x with _ => _ end] |- _ =>
               destruct x eqn:?; try discriminate
           end;
    simplify_eq;
    (split; [reflexivity|]); (split; [reflexivity|]);
    (split; [eauto|]); (split; [eauto|]);
    eexists; (split; [reflexivity|]); reflexivity.
Qed.

(** X16. Whatever [parse_query] returns keeps the query it was given,
    lists without repetition exactly the extensions of the patterns of
    [FILE_TYPE_PATTERNS] found in the lower-cased query, has an upper
    date bound only together with a lower one, and has a residual query
    without blanks at its ends. *)
Theorem parse_query_invariants (now : datetime) (q : string) (f : QueryFilters) :
  parse_query now q = Ok f ->
  original_query f = q
  /\ NoDup (file_types f)
  /\ (forall ext, ext ∈ file_types f <-> named_by q ext)
  /\ (is_Some (date_to f) -> is_Some (date_from f))
  /\ PyStr.strip (query f) = query f.
Proof.
  intros Hp. destruct (parse_query_shape _ _ _ Hp) as (H1 & H2 & H3 & [q' H4] & _).
  split; [exact H1|]. split; [rewrite H2; apply NoDup_remove_dups|].
  split; [|split; [exact H3 | rewrite H4; apply strip_idem]].
  intros ext. rewrite H2, elem_of_remove_dups, extract_file_types_elem.
  unfold named_by. simpl. split.
  - intros [H|H]; [inversion H | exact H].
  - auto.
Qed.

(** X17. [parse_query] raises nothing but [ValueError], and only for a
    query in which the month pattern or the year pattern is found: the
    dates built from a year such as 0000 or 9999 are not guarded. *)
Theorem parse_query_raises_value_error (now : datetime) (q : string) (e : exn) :
  parse_query now q = Raise e ->
  e = ValueError
  /\ (is_Some (Regex.search month_pattern (PyStr.lower q))
      \/ is_Some (Regex.search year_pattern (PyStr.lower q))).
Proof.
  unfold parse_query.
  destruct (foldl _ _ _) as [types q1].
  destruct (extract_relative_date _ _ _ _) as [[from1 to1] q2].
  unfold make.
  repeat match goal with
         | |- context [match ?x with _ => _ end] => destruct x eqn:?
         end;
    try discriminate;
    intros [= <-];
    repeat match goal with
           | H : context [match ?x with _ => _ end] |- _ =>
               destruct x eqn:?; try discriminate
           end;
    simplify_eq; eauto.
Qed.

End MoreParseFacts.

(** ** The query filters: filtering and describing *)

Section MoreFilterFacts.

Import DateTime QueryFilters ParseSpec.

Variable fromisoformat : string -> option datetime.
Variable expanduser : string -> string.
Variable strftime : string -> datetime -> string.

Abbreviation apply_filters := (apply_filters_to_results fromisoformat expanduser).
Abbreviation describe := (format_filters_description strftime).

(** X18. [apply_filters_to_results] returns results of the list it was
    given, in their order and none twice over; filtering what was
    filtered changes nothing; a list in two parts is filtered part by
    part; and without active filter the list comes back as it is. *)
Theorem apply_filters_sublist (results more : list search_result) (f : QueryFilters) :
  apply_filters results f `sublist_of` results
  /\ apply_filters (apply_filters results f) f = apply_filters results f
  /\ apply_filters (results ++ more) f
     = (apply_filters results f ++ apply_filters more f)%list
  /\ (has_filters f = false -> apply_filters results f = results).
Proof.
  unfold apply_filters_to_results.
  destruct (has_filters f); simpl; repeat split; try reflexivity.
  - apply filter_sublist.
  - induction results as [|r rs IH]; [reflexivity|]. simpl.
    destruct (passes _ _ f r) eqn:E; simpl; [rewrite E, IH|]; auto.
  - apply List.filter_app.
  - discriminate.
Qed.

Lemma known_extensions_dotted :
  List.Forall (fun e => List.Forall (fun ext => ext <> ".") (snd e))
    FILE_TYPE_PATTERNS.
Proof.
  unfold FILE_TYPE_PATTERNS.
  repeat first [apply List.Forall_nil | apply List.Forall_cons | progress cbn [snd]];
    discriminate.
Qed.

Lemma named_by_not_dot q : ~ named_by q ".".
Proof.
  intros (pat & exts & Hin & _ & Hext).
  pose proof known_extensions_dotted as H.
  rewrite List.Forall_forall in H.
  apply list_elem_of_In in Hin. specialize (H _ Hin). simpl in H.
  rewrite List.Forall_forall in H.
  exact (H _ (proj1 (list_elem_of_In _ _) Hext) eq_refl).
Qed.

Lemma parse_query_file_types now q f ext :
  parse_query now q = Ok f ->
  ext ∈ file_types f <-> named_by q ext.
Proof.
  intros Hp. destruct (parse_query_shape _ _ _ Hp) as (_ & H2 & _).
  rewrite H2, elem_of_remove_dups, extract_file_types_elem.
  unfold named_by. simpl. split.
  - intros [H|H]; [inversion H | exact H].
  - auto.
Qed.

(** X19. When [parse_query] found a file type in the query, every
    result that [apply_filters_to_results] keeps under the parsed filters
    is one of the results given, has a file name, and the text after the
    last dot of that name, in lower case, is an extension of a pattern
    found in the query. *)
Theorem parsed_type_filter (now : datetime) (q : string) (f : QueryFilters)
    (results : list search_result) (r : search_result) :
  parse_query now q = Ok f ->
  file_types f <> [] ->
  r ∈ apply_filters results f ->
  r ∈ results
  /\ named_by q (extension r)
  /\ exists name, filename r = Some name.
Proof.
  intros Hp Hty Hr. unfold apply_filters_to_results, has_filters in Hr.
  destruct (file_types f) as [|t ts] eqn:Et; [congruence|].
  simpl in Hr.
  apply list_elem_of_In, List.filter_In in Hr as [Hin Hpass].
  split; [apply list_elem_of_In, Hin|].
  assert (Hext : extension r ∈ file_types f).
  { unfold passes in Hpass. rewrite Et in Hpass. simpl in Hpass.
    rewrite Et. case_bool_decide as Hd; [exact Hd | discriminate]. }
  apply (parse_query_file_types _ _ _ _ Hp) in Hext.
  split; [exact Hext|].
  destruct (filename r) as [name|] eqn:En; [eauto|].
  exfalso. apply (named_by_not_dot q).
  unfold extension in Hext. rewrite En in Hext. exact Hext.
Qed.

Lemma join_blank_empty (parts : list string) :
  PyStr.join " " parts = "" <-> parts = [] \/ parts = [""].
Proof.
  destruct parts as [|w [|w' ws]]; simpl.
  - tauto.
  - split; [intros ->; auto | intros [[=]|[= ->]]; reflexivity].
  - split; [destruct w; discriminate | intros [[=]|[=]]].
Qed.

Lemma join_head_nonempty sep w ws :
  w <> "" -> PyStr.join sep (w :: ws) <> "".
Proof.
  intros Hw. destruct ws; simpl; [exact Hw|].
  destruct w; [congruence | discriminate].
Qed.

Lemma append_nonempty_l (a b : string) : a <> "" -> (a ++ b) <> "".
Proof. destruct a; [congruence | discriminate]. Qed.

Lemma describe_types_nonempty (types : list string) :
  types <> [] ->
  (forall ext, ext ∈ types -> PyStr.lstrip_chars "." (PyStr.upper ext) <> "") ->
  describe_types types <> "".
Proof.
  intros Hne Hall. unfold describe_types.
  destruct types as [|t ts]; [congruence|].
  assert (Hshown : PyStr.join ", "
            (List.map (fun ext => PyStr.lstrip_chars "." (PyStr.upper ext))
               (firstn 3 (t :: ts))) <> "").
  { simpl. apply join_head_nonempty, Hall. left. }
  destruct (3 <? length (t :: ts))%nat; [|exact Hshown].
  apply append_nonempty_l, Hshown.
Qed.

Lemma known_extensions_show :
  List.Forall
    (fun e => List.Forall
                (fun ext => PyStr.lstrip_chars "." (PyStr.upper ext) <> "") (snd e))
    FILE_TYPE_PATTERNS.
Proof.
  unfold FILE_TYPE_PATTERNS.
  repeat first [apply List.Forall_nil | apply List.Forall_cons | progress cbn [snd]];
    vm_compute; discriminate.
Qed.

Lemma named_by_shows q ext :
  named_by q ext -> PyStr.lstrip_chars "." (PyStr.upper ext) <> "".
Proof.
  intros (pat & exts & Hin & _ & Hext).
  pose proof known_extensions_show as H.
  rewrite List.Forall_forall in H.
  apply list_elem_of_In in Hin. specialize (H _ Hin). simpl in H.
  rewrite List.Forall_forall in H. apply H, list_elem_of_In, Hext.
Qed.

Lemma describe_empty_iff (f : QueryFilters) :
  (forall ext, ext ∈ file_types f ->
     PyStr.lstrip_chars "." (PyStr.upper ext) <> "") ->
  describe f = ""
  <-> file_types f = [] /\ date_from f = None /\ truthy_opt (directory f) = false.
Proof.
  intros Hall. unfold format_filters_description.
  destruct (file_types f) as [|t ts] eqn:Et.
  - simpl truthy_list. cbv iota. simpl app.
    destruct (date_from f) as [a|]; [destruct (date_to f) as [b|]|];
      destruct (truthy_opt (directory f)); simpl; split;
      try discriminate; try tauto; intros (_ & H1 & H2); discriminate.
  - simpl truthy_list. cbv iota.
    split; [|intros [[=] _]]. intros H. exfalso.
    match type of H with
    | PyStr.join _ ([?x] ++ ?rest)%list = _ =>
        change (PyStr.join " " (x :: rest) = "") in H
    end.
    revert H. apply join_head_nonempty, describe_types_nonempty; [discriminate|].
    exact Hall.
Qed.

(** X20. [format_filters_description] gives the empty text for filters
    without active filter.  For what [parse_query] returns the converse
    holds too: the description is empty exactly when no filter is
    active.  It does not hold for every filter: one that has an upper
    date bound only is active and is described by the empty text. *)
Theorem description_empty_without_filter :
  (forall f, has_filters f = false -> describe f = "")
  /\ (forall now q f,
        parse_query now q = Ok f ->
        describe f = "" <-> has_filters f = false)
  /\ (forall f, upper_bound_only f -> has_filters f = true /\ describe f = "").
Proof.
  assert (Hnone : forall f, file_types f = [] -> date_from f = None ->
                    truthy_opt (directory f) = false -> describe f = "").
  { intros f. unfold format_filters_description. intros -> -> ->. reflexivity. }
  split; [|split].
  - intros f. unfold has_filters. intros Hf.
    destruct (file_types f) eqn:Et; [|discriminate].
    destruct (date_from f) eqn:Ed; [discriminate|].
    simpl in Hf. apply orb_false_iff in Hf as [_ Hd]. apply Hnone; auto.
  - intros now q f Hp.
    destruct (parse_query_shape _ _ _ Hp) as (_ & _ & Hb & _).
    rewrite describe_empty_iff
      by (intros ext He; apply (named_by_shows q),
            (parse_query_file_types _ _ _ _ Hp), He).
    unfold has_filters.
    destruct (file_types f) as [|t ts]; simpl.
    + destruct (date_from f) as [a|]; simpl.
      * split; [intros (_ & [=] & _) | discriminate].
      * destruct (date_to f) as [b|]; simpl.
        -- exfalso. destruct Hb as [? [=]]. eauto.
        -- destruct (truthy_opt (directory f)); split; auto; try discriminate.
           intros (_ & _ & [=]).
    + split; [intros [[=] _] | discriminate].
  - intros f (Ht & Hf & Hd & [b Hb]). split.
    + unfold has_filters. rewrite Ht, Hf, Hb, Hd. reflexivity.
    + apply Hnone; [exact Ht | exact Hf | rewrite Hd; reflexivity].
Qed.

End MoreFilterFacts.

(** ** The LLM client: answers, compression and streams *)

Section MoreLLMFacts.

Import LLM LLMSpec StreamSpec.

Variable json_loads : string -> option json.
Variable float_of_string : string -> option pyfloat.
Variable extract_completion : string -> string -> completion.
Variable compress_completion : string -> completion.
Variable answer_stream : string -> string -> stream.
Variable extract_stream : string -> string -> stream.

Abbreviation extract_body := (extract_body json_loads float_of_string extract_completion).
Abbreviation extract_answer_from_chunk :=
  (extract_answer_from_chunk json_loads float_of_string extract_completion).
Abbreviation compress_answer := (compress_answer compress_completion).
Abbreviation read_streamed := (read_streamed json_loads float_of_string).
Abbreviation extract_answer_streaming :=
  (extract_answer_streaming json_loads float_of_string extract_stream).
Abbreviation stream_answer := (stream_answer answer_stream).
Abbreviation stream_answer_with_callback := (stream_answer_with_callback answer_stream).

Lemma get_client_created (p p' : process) :
  get_client p = Ok p' -> client p' = true /\ api_key p' = api_key p.
Proof.
  unfold get_client. destruct (client p) eqn:E.
  - intros [= <-]. auto.
  - destruct (negb _); [discriminate|].
    destruct (openai_accepts p _); [|discriminate]. intros [= <-]. auto.
Qed.


Lemma read_streamed_proper (joined : string) (r : extraction) :
  read_streamed joined = inr r -> proper_answer r.
Proof.
  unfold LLM.read_streamed.
  repeat match goal with
         | |- context [match ?x with _ => _ end] => destruct x eqn:?
         end;
    try discriminate; intros [= <-]; try (left; reflexivity).
  right. simpl. split.
  - intros ->. discriminate.
  - intros H. rewrite H in *. discriminate.
Qed.

Lemma extract_body_read (query chunk_text raw : string) :
  extract_completion query chunk_text = Content (Some raw) ->
  extract_body query chunk_text = read_streamed raw.
Proof. intros H. unfold LLM.extract_body. rewrite H. reflexivity. Qed.

Lemma extract_body_proper (query chunk_text : string) (r : extraction) :
  extract_body query chunk_text = inr r -> proper_answer r.
Proof.
  destruct (extract_completion query chunk_text) as [|[raw|]] eqn:E.
  - unfold LLM.extract_body. rewrite E. discriminate.
  - rewrite (extract_body_read _ _ _ E). apply read_streamed_proper.
  - unfold LLM.extract_body. rewrite E. discriminate.
Qed.

(** X21. When [extract_answer_from_chunk] returns, a client exists
    afterwards, and what it returns is the NONE dict or an answer that is
    neither empty nor "NONE" in any spelling of upper and lower case. *)
Theorem extract_answer_proper (p p' : process) (query chunk_text : string)
    (r : extraction) :
  extract_answer_from_chunk p query chunk_text = (Ok r, p') ->
  get_client p = Ok p' /\ client p' = true /\ proper_answer r.
Proof.
  unfold LLM.extract_answer_from_chunk.
  destruct (get_client p) as [p0|e] eqn:Ec; [|discriminate].
  destruct (extract_body query chunk_text) as [[|]|r0] eqn:E;
    intros [= <- <-]; (split; [reflexivity|]);
    (split; [apply (get_client_created _ _ Ec)|]);
    try (left; reflexivity).
  apply (extract_body_proper _ _ _ E).
Qed.


Lemma tokens_nonempty (s : stream) : Forall (fun t => t <> "") (tokens s).
Proof.
  unfold tokens. induction (deltas s) as [|[t|] l IH]; simpl.
  - constructor.
  - destruct t; simpl; [exact IH|]. constructor; [discriminate | exact IH].
  - exact IH.
Qed.

Lemma feed_prefix {A : Type} (raises : callback A) (l : list A) :
  fst (feed raises l) `prefix_of` l
  /\ Forall (fun x => raises x = false) (fst (feed raises l))
  /\ (snd (feed raises l) = None -> fst (feed raises l) = l)
  /\ (forall x, snd (feed raises l) = Some x ->
        raises x = true /\ exists rest, l = (fst (feed raises l) ++ x :: rest)%list).
Proof.
  induction l as [|x l (IH1 & IH2 & IH3 & IH4)]; simpl.
  - split; [reflexivity|]. split; [constructor|]. split; [reflexivity|].
    intros x [=].
  - destruct (raises x) eqn:E; simpl.
    + split; [apply prefix_nil|]. split; [constructor|]. split; [discriminate|].
      intros y [= <-]. split; [exact E|]. exists l. reflexivity.
    + split; [apply prefix_cons, IH1|].
      split; [constructor; [exact E | exact IH2]|].
      split; [intros H; rewrite (IH3 H); reflexivity|].
      intros y H. destruct (IH4 _ H) as [Hr [rest Hrest]].
      split; [exact Hr|]. exists rest. simpl. f_equal. exact Hrest.
Qed.

Lemma feed_quiet {A : Type} (raises : callback A) (l : list A) :
  Forall (fun x => raises x = false) l -> feed raises l = (l, None).
Proof.
  induction 1 as [|x l Hx _ IH]; simpl; [reflexivity|].
  rewrite Hx, IH. reflexivity.
Qed.

Lemma consume_prefix (s : stream) (cb : option (callback string)) :
  (consume s cb).1.1 `prefix_of` tokens s
  /\ ((consume s cb).2 = false -> (consume s cb).1.1 = tokens s /\ breaks s = false).
Proof.
  unfold consume. destruct cb as [raises|]; simpl.
  - destruct (feed_prefix raises (tokens s)) as (H1 & _ & H3 & _).
    split; [exact H1|]. intros H. apply orb_false_iff in H as [Hf Hb].
    split; [|exact Hb]. apply H3.
    destruct (snd (feed raises (tokens s))); [|reflexivity].
    apply bool_decide_eq_false in Hf. exfalso. apply Hf. eauto.
  - split; [reflexivity|]. intros H. auto.
Qed.

(** X23. [stream_answer] raises the error of [get_client] when no
    client can be had.  Otherwise it never yields an empty token, and
    either it yields the non-empty contents of the stream and returns
    their concatenation, or it yields some first ones of them and then
    the error message, which it returns; the latter whenever the stream
    breaks.  Without [on_token] no callback is called. *)
Theorem stream_answer_generated (p : process) (query context : string)
    (cb : option (callback string)) :
  (forall e, get_client p = Raise e ->
     stream_answer p query context cb = (Raise e, p))
  /\ (forall p', get_client p = Ok p' ->
      exists g,
        stream_answer p query context cb = (Ok g, p')
        /\ Forall (fun t => t <> "") (yields g)
        /\ ((returned g = PyStr.join "" (yields g)
             /\ yields g = tokens (answer_stream query context)
             /\ breaks (answer_stream query context) = false)
            \/ (returned g = error_msg
                /\ exists passed,
                     yields g = (passed ++ [error_msg])%list
                     /\ passed `prefix_of` tokens (answer_stream query context)))
        /\ (breaks (answer_stream query context) = true ->
            returned g = error_msg)
        /\ (cb = None -> token_calls g = [])).
Proof.
  unfold LLM.stream_answer. split.
  - intros e ->. reflexivity.
  - intros p' ->.
    pose proof (consume_prefix (answer_stream query context) cb) as [Hp Hq].
    pose proof (tokens_nonempty (answer_stream query context)) as Hne.
    assert (Hcalls : cb = None -> (consume (answer_stream query context) cb).1.2 = [])
      by (intros ->; reflexivity).
    destruct (consume (answer_stream query context) cb) as [[passed calls] failed].
    simpl in Hp, Hq, Hcalls.
    assert (Hpne : Forall (fun t => t <> "") passed).
    { destruct Hp as [rest Hrest]. rewrite Hrest in Hne.
      apply Forall_app in Hne as [H _]. exact H. }
    destruct failed.
    + eexists. split; [reflexivity|]. simpl. repeat split.
      * apply Forall_app. split; [exact Hpne|]. constructor; [discriminate|constructor].
      * right. split; [reflexivity|]. exists passed. auto.
      * exact Hcalls.
    + destruct (Hq eq_refl) as [-> Hb].
      eexists. split; [reflexivity|]. simpl. repeat split.
      * exact Hne.
      * left. auto.
      * rewrite Hb. discriminate.
      * exact Hcalls.
Qed.

Lemma stream_answer_plain (p p0 : process) (query context : string) :
  get_client p = Ok p0 ->
  exists r,
    stream_answer p query context None
    = (Ok {| yields := delivered (answer_stream query context);
             returned := r; token_calls := [] |}, p0).
Proof.
  intros Hc. unfold LLM.stream_answer, consume, delivered. rewrite Hc.
  cbn [fst snd]. rewrite bool_decide_eq_false_2 by (intros [? [=]]). cbn [orb].
  destruct (breaks _); eexists; [reflexivity|]. rewrite app_nil_r. reflexivity.
Qed.

Lemma stream_answer_no_client (p : process) (query context : string)
    (cb : option (callback string)) (e : exn) :
  get_client p = Raise e -> stream_answer p query context cb = (Raise e, p).
Proof. intros Hc. unfold LLM.stream_answer. rewrite Hc. reflexivity. Qed.

(** X24. [stream_answer_with_callback] raises only if [on_error]
    itself raises, and [on_error] is then the last call made.  Without
    client and API key no token is handed out and [on_error], if given,
    is the only call.  With a client and callbacks that return, the
    tokens are handed to [on_token] in order, the error message after
    them if the stream breaks, and [on_complete], if given, then receives
    their concatenation: a broken stream is not reported to [on_error]. *)
Theorem stream_answer_with_callback_trace (p : process) (query context : string)
    (cb : callbacks) :
  let '(raised, trace, p') := stream_answer_with_callback p query context cb in
  (raised = true -> exists h c, on_error cb = Some h /\ h c = true
                                /\ last trace = Some (Failed c))
  /\ (forall e, get_client p = Raise e ->
        p' = p
        /\ trace = match on_error cb with Some _ => [Failed MissingKey] | None => [] end)
  /\ (forall p0, get_client p = Ok p0 -> quiet cb ->
        p' = p0 /\ raised = false
        /\ trace
           = (List.map Token (delivered (answer_stream query context))
              ++ match on_complete cb with
                 | Some _ =>
                     [Complete (PyStr.join "" (delivered (answer_stream query context)))]
                 | None => []
                 end)%list).
Proof.
  unfold LLM.stream_answer_with_callback, handle.
  destruct (get_client p) as [p0|e0] eqn:Ec.
  - destruct (stream_answer_plain p p0 query context Ec) as [r ->].
    cbn [yields].
    set (ys := delivered (answer_stream query context)).
    pose proof (feed_prefix (on_token cb) ys) as (_ & _ & _ & H4).
    pose proof (feed_quiet (on_token cb) ys) as Hfq.
    destruct (feed (on_token cb) ys) as [passed [t|]]; cbn [fst snd] in *.
    + destruct (H4 t eq_refl) as [Ht _].
      destruct (on_error cb) as [h|] eqn:Eh.
      * split; [|split].
        -- intros Hr. exists h, TokenCallback. rewrite last_snoc. auto.
        -- intros e [=].
        -- intros p1 [= <-] [Hq _]. rewrite Hq in Ht. discriminate.
      * split; [discriminate|]. split; [intros e [=]|].
        intros p1 [= <-] [Hq _]. rewrite Hq in Ht. discriminate.
    + assert (Hquiet : quiet cb -> passed = ys).
      { intros [Hq _].
        assert (Forall (fun x => on_token cb x = false) ys) as Hall
          by (apply Forall_forall; intros; apply Hq).
        specialize (Hfq Hall). congruence. }
      unfold called. cbn [fst snd]. rewrite app_nil_r.
      destruct (on_complete cb) as [hc|] eqn:Ecomp.
      * destruct (hc (PyStr.join "" passed)) eqn:Ehc.
        -- destruct (on_error cb) as [h|] eqn:Eh.
           ++ split; [|split].
              ** intros Hr. exists h, CompleteCallback. rewrite last_snoc. auto.
              ** intros e [=].
              ** intros p1 [= <-] [Hq1 Hq2].
                 rewrite (Hq2 hc Ecomp) in Ehc. discriminate.
           ++ split; [discriminate|]. split; [intros e [=]|].
              intros p1 [= <-] [Hq1 Hq2].
              rewrite (Hq2 hc Ecomp) in Ehc. discriminate.
        -- split; [discriminate|]. split; [intros e [=]|].
           intros p1 [= <-] Hq. rewrite (Hquiet Hq). auto.
      * split; [discriminate|]. split; [intros e [=]|].
        intros p1 [= <-] Hq. rewrite (Hquiet Hq), app_nil_r. auto.
  - rewrite (stream_answer_no_client p query context None e0 Ec).
    destruct (on_error cb) as [h|] eqn:Eh; simpl.
    + split; [|split].
      * intros Hr. exists h, MissingKey. auto.
      * intros e _. auto.
      * intros p0 [=].
    + split; [discriminate|]. split; [auto | intros p0 [=]].
Qed.

(** X25. [extract_answer_streaming] raises the error of [get_client]
    when no client can be had; otherwise it returns the NONE dict or a
    proper answer with a confidence in the unit interval unless it is
    NaN; the NONE dict when the stream breaks; and when the stream does
    not break and carries the content that the plain completion carries,
    it returns what [extract_answer_from_chunk] returns. *)
Theorem extract_answer_streaming_agrees (p : process) (query chunk_text : string)
    (cb : option (callback string)) :
  (forall e, get_client p = Raise e ->
     extract_answer_streaming p query chunk_text cb = (Raise e, p, []))
  /\ (forall p', get_client p = Ok p' ->
     (exists r calls,
        extract_answer_streaming p query chunk_text cb = (Ok r, p', calls)
        /\ proper_answer r
        /\ (confidence r <> NaN -> in_unit (confidence r)))
     /\ (breaks (extract_stream query chunk_text) = true ->
         (extract_answer_streaming p query chunk_text cb).1 = (Ok NONE, p'))
     /\ (breaks (extract_stream query chunk_text) = false ->
         extract_completion query chunk_text
         = Content (Some (PyStr.join "" (tokens (extract_stream query chunk_text)))) ->
         (extract_answer_streaming p query chunk_text None).1
         = extract_answer_from_chunk p query chunk_text)).
Proof.
  unfold LLM.extract_answer_streaming, LLM.extract_answer_from_chunk. split.
  - intros e ->. reflexivity.
  - intros p' ->. split; [|split].
    + destruct (consume (extract_stream query chunk_text) cb) as [[passed calls] failed].
      destruct failed.
      * exists NONE, calls. split; [reflexivity|]. split; [left; reflexivity|].
        intros _. simpl. split; discriminate.
      * destruct (read_streamed (PyStr.join "" passed)) as [e|r] eqn:E.
        -- exists NONE, calls. split; [reflexivity|]. split; [left; reflexivity|].
           intros _. simpl. split; discriminate.
        -- exists r, calls. split; [reflexivity|].
           split; [apply (read_streamed_proper _ _ E)|].
           revert E. unfold LLM.read_streamed.
           repeat match goal with
                  | |- context [match ?x with _ => _ end] => destruct x eqn:?
                  end;
             try discriminate; intros [= <-]; simpl; intros Hn;
             try (split; discriminate).
           apply clamp_in_unit. intros ->. apply Hn. reflexivity.
    + intros Hb. unfold consume. rewrite Hb, orb_true_r. reflexivity.
    + intros Hb Hc. unfold consume. cbn [fst snd]. rewrite Hb.
      rewrite bool_decide_eq_false_2 by (intros [? [=]]). cbn [orb].
      rewrite (extract_body_read _ _ _ Hc).
      destruct (read_streamed _) as [[|]|r]; reflexivity.
Qed.

End MoreLLMFacts.

(** ** Instances of the further properties *)

Lemma needs_indexing_after_mark_indexed_witness :
  Manifest.needs_indexing ManifestExamples.toy_digest (ManifestExamples.one_file 200)
    (snd (Manifest.mark_indexed ManifestExamples.toy_digest Manifest.Healthy
            (ManifestExamples.one_file 100) ManifestExamples.empty_manifest
            "/docs/a.txt" 3 None "2024-05-01T10:00:00"))
    "/docs/a.txt" = true
  <-> Manifest.fs_exists (ManifestExamples.one_file 200) "/docs/a.txt" = true
      /\ exists s',
           Manifest.fs_stat (ManifestExamples.one_file 200) "/docs/a.txt" = Some s'
           /\ Manifest.st_mtime s' <> Manifest.st_mtime MoreExamples.a_txt
           /\ Manifest.compute_file_hash ManifestExamples.toy_digest
                (ManifestExamples.one_file 200) "/docs/a.txt"
              <> Manifest.compute_file_hash ManifestExamples.toy_digest
                   (ManifestExamples.one_file 100) "/docs/a.txt".
Proof.
  exact (needs_indexing_after_mark_indexed ManifestExamples.toy_digest
           (ManifestExamples.one_file 100) (ManifestExamples.one_file 200)
           ManifestExamples.empty_manifest "/docs/a.txt" 3 None
           "2024-05-01T10:00:00" MoreExamples.a_txt eq_refl (or_introl eq_refl)).
Defined.



Example get_stats_replaced_record :
  Manifest.total_files
    (Manifest.get_stats MoreExamples.in_bytes
       (snd (Manifest.mark_indexed ManifestExamples.toy_digest Manifest.Healthy
               (ManifestExamples.one_file 100) ManifestExamples.recorded
               "/docs/a.txt" 5 None "2024-05-02T10:00:00"))) = 1
  /\ Manifest.total_chunks
       (Manifest.get_stats MoreExamples.in_bytes
          (snd (Manifest.mark_indexed ManifestExamples.toy_digest Manifest.Healthy
                  (ManifestExamples.one_file 100) ManifestExamples.recorded
                  "/docs/a.txt" 5 None "2024-05-02T10:00:00"))) = 5.
Proof. split; vm_compute; reflexivity. Qed.

Lemma get_files_by_extension_suffix_witness :
  ("/backup/a.tar.gz",
   {| Manifest.filename := "a.tar.gz"; Manifest.file_hash := Some "0cc1";
      Manifest.mtime := Some 7; Manifest.size := Some 12;
      Manifest.indexed_at := Some "2024-05-01T10:00:00";
      Manifest.chunk_count := Some 1 |})
  ∈ Manifest.get_files_by_extension ManifestExamples.tarball "GZ".
Proof.
  apply (proj1 (proj2 (get_files_by_extension_suffix ManifestExamples.tarball "GZ"
                         "/backup/a.tar.gz" _))).
  - vm_compute. reflexivity.
  - exists "a.tar". reflexivity.
Defined.

Lemma get_files_in_directory_prefix_witness :
  ("/backup/a.tar.gz",
   {| Manifest.filename := "a.tar.gz"; Manifest.file_hash := Some "0cc1";
      Manifest.mtime := Some 7; Manifest.size := Some 12;
      Manifest.indexed_at := Some "2024-05-01T10:00:00";
      Manifest.chunk_count := Some 1 |})
  ∈ Manifest.get_files_in_directory ManifestExamples.tarball "/Backup/".
Proof.
  apply (proj1 (proj2 (get_files_in_directory_prefix ManifestExamples.tarball
                         "/Backup/" "/backup/a.tar.gz" _))).
  - vm_compute. reflexivity.
  - exists "a.tar.gz". reflexivity.
Defined.


Example import_then_export_chunk_count :
  List.map (fun e => (e.1, Manifest.i_chunk_count e.2))
    (Manifest.x_files
       (Manifest.export_to_json
          (snd (Manifest.import_from_json Manifest.Healthy
                  ManifestExamples.empty_manifest MoreExamples.two_entries))))
  = [("/docs/b.pdf", Some (Some 0)); ("/docs/a.txt", Some (Some 3))].
Proof. vm_compute. reflexivity. Qed.

Lemma parse_query_invariants_witness :
  QueryFilters.original_query MoreExamples.pdf_of_2024 = "sales report pdf in 2024"
  /\ NoDup (QueryFilters.file_types MoreExamples.pdf_of_2024)
  /\ (forall ext,
        ext ∈ QueryFilters.file_types MoreExamples.pdf_of_2024
        <-> ParseSpec.named_by "sales report pdf in 2024" ext)
  /\ (is_Some (QueryFilters.date_to MoreExamples.pdf_of_2024) ->
      is_Some (QueryFilters.date_from MoreExamples.pdf_of_2024))
  /\ PyStr.strip (QueryFilters.query MoreExamples.pdf_of_2024)
     = QueryFilters.query MoreExamples.pdf_of_2024.
Proof.
  apply (parse_query_invariants FilterExamples.now0 "sales report pdf in 2024").
  vm_compute. reflexivity.
Defined.

Lemma parse_query_raises_value_error_witness :
  QueryFilters.parse_query FilterExamples.now0 "report from 9999" = Raise ValueError
  /\ (is_Some (Regex.search QueryFilters.month_pattern (PyStr.lower "report from 9999"))
      \/ is_Some (Regex.search QueryFilters.year_pattern (PyStr.lower "report from 9999"))).
Proof.
  assert (H : QueryFilters.parse_query FilterExamples.now0 "report from 9999"
              = Raise ValueError) by (vm_compute; reflexivity).
  split; [exact H|].
  exact (proj2 (parse_query_raises_value_error FilterExamples.now0
                  "report from 9999" ValueError H)).
Defined.

Lemma parsed_type_filter_witness :
  ParseSpec.named_by "PDF files"
    (QueryFilters.extension
       (FilterExamples.hit "report.PDF" "/home/user/Documents/report.PDF"
          (QueryFilters.TextStamp "2024-03-05"))).
Proof.
  refine (proj1 (proj2
            (parsed_type_filter FilterExamples.toy_fromisoformat
               FilterExamples.toy_expanduser FilterExamples.now0 "PDF files"
               MoreExamples.pdf_files FilterExamples.hits
               (FilterExamples.hit "report.PDF" "/home/user/Documents/report.PDF"
                  (QueryFilters.TextStamp "2024-03-05")) _ _ _))).
  - vm_compute. reflexivity.
  - discriminate.
  - vm_compute. left.
Defined.

Lemma description_empty_without_filter_witness :
  QueryFilters.format_filters_description MoreExamples.toy_strftime
    MoreExamples.pdf_files = ""
  <-> QueryFilters.has_filters MoreExamples.pdf_files = false.
Proof.
  apply (proj1 (proj2 (description_empty_without_filter MoreExamples.toy_strftime))
           FilterExamples.now0 "PDF files").
  vm_compute. reflexivity.
Defined.

Example description_of_pdf_files :
  QueryFilters.format_filters_description MoreExamples.toy_strftime
    MoreExamples.pdf_files = "PDF"
  /\ QueryFilters.format_filters_description MoreExamples.toy_strftime
       MoreExamples.pdf_of_2024 = "PDF from %b %d to %b %d".
Proof. split; vm_compute; reflexivity. Qed.

Lemma extract_answer_proper_witness :
  LLM.get_client LLMExamples.configured = Ok LLMExamples.ready
  /\ LLM.client LLMExamples.ready = true
  /\ StreamSpec.proper_answer
       {| LLM.answer := "$150,000 per year"; LLM.confidence := LLM.Finite (19 # 20) |}.
Proof.
  apply (extract_answer_proper LLMExamples.toy_loads LLMExamples.toy_float
           LLMExamples.toy_extract LLMExamples.configured LLMExamples.ready
           "What is the salary?" "text").
  vm_compute. reflexivity.
Defined.

Lemma stream_answer_with_callback_trace_witness :
  LLM.stream_answer_with_callback MoreExamples.toy_stream LLMExamples.configured
    "question" "context" MoreExamples.listeners
  = (false,
     [LLM.Token "Hel"; LLM.Token "lo"; LLM.Complete "Hello"],
     LLMExamples.ready).
Proof.
  pose proof (stream_answer_with_callback_trace MoreExamples.toy_stream
                LLMExamples.configured "question" "context" MoreExamples.listeners)
    as H.
  destruct (LLM.stream_answer_with_callback MoreExamples.toy_stream
              LLMExamples.configured "question" "context" MoreExamples.listeners)
    as [[raised trace] p'].
  destruct H as (_ & _ & H).
  destruct (H LLMExamples.ready eq_refl) as (-> & -> & ->).
  - split; [reflexivity|]. intros h [= <-] text. reflexivity.
  - reflexivity.
Defined.

Lemma extract_answer_streaming_agrees_witness :
  (LLM.extract_answer_streaming LLMExamples.toy_loads LLMExamples.toy_float
     MoreExamples.toy_extract_stream LLMExamples.configured
     "What is the salary?" "text" None).1
  = LLM.extract_answer_from_chunk LLMExamples.toy_loads LLMExamples.toy_float
      LLMExamples.toy_extract LLMExamples.configured "What is the salary?" "text".
Proof.
  apply (proj2 (proj2 (proj2 (extract_answer_streaming_agrees LLMExamples.toy_loads
                  LLMExamples.toy_float LLMExamples.toy_extract
                  MoreExamples.toy_extract_stream LLMExamples.configured
                  "What is the salary?" "text" None)
                LLMExamples.ready eq_refl))).
  - reflexivity.
  - reflexivity.
Defined.

Example stream_answer_broken :
  LLM.stream_answer
    (fun _ _ => {| LLM.deltas := [Some "Hel"]; LLM.breaks := true |})
    LLMExamples.configured "question" "context" None
  = (Ok {| LLM.yields := ["Hel"; "Unable to generate answer"];
           LLM.returned := "Unable to generate answer";
           LLM.token_calls := [] |},
     LLMExamples.ready).
Proof. vm_compute. reflexivity. Qed.
